(** * A shallow embedding of the Users and Journal API clients
    ([src/users.ts], [src/journal.ts]).

    Every public method of the two classes is written in a small
    reader/state/exception monad: the reader part is the environment
    (the [fetch] primitive and the imported [Errors.HandleError]), the
    state is the client object [this] together with the log of the
    requests handed to [fetch], and exceptions are the values a JavaScript
    [throw] or a rejected promise carries.  The platform objects the code
    relies on ([URL], [URLSearchParams], [Object.entries],
    [Object.fromEntries], [String]) are modelled as executable functions. *)

From Stdlib Require Import String Ascii List ZArith Bool Lia DecimalString QArith Qround Floats.
Import ListNotations.
Close Scope Q_scope.
Set Warnings "-register-all".
Open Scope list_scope.
Open Scope string_scope.

(** ** JavaScript values *)

(** Values as the JSON bodies and the DTOs have them.  An object is the
    list of its own enumerable properties in enumeration order. *)
Inductive jsval : Type :=
| JUndefined
| JNull
| JBool (b : bool)
| JNum (n : float)
| JStr (s : string)
| JArr (elems : list jsval)
| JObj (props : list (string * jsval)).
Arguments JNum n%_float_scope.

(** What a [throw] or a rejected promise carries. *)
Inductive exn : Type :=
| TypeError (msg : string)
| SyntaxError (msg : string)
| Thrown (v : jsval).

Inductive outcome (A : Type) : Type :=
| Ok (a : A)
| Err (e : exn).
Arguments Ok {A} a.
Arguments Err {A} e.

Definition obind {A B} (o : outcome A) (k : A -> outcome B) : outcome B :=
  match o with Ok a => k a | Err e => Err e end.

Notation "x <-? o ;; k" := (obind o (fun x => k))
  (at level 61, o at next level, right associativity).

(** ** Numbers and [String(v)]

    A JavaScript number is an IEEE 754 double ([float]).  [Number::toString]
    prints the shortest decimal [s * 10^(n-k)] ([k] digits) that reads back
    as the same double, the one closest to it when there are several (ties
    to an even [s]), in plain notation for [-6 < n <= 21] and in exponent
    notation ([1e+21], [1.5e-7]) otherwise.  The value and the rounding
    interval of the double are computed exactly in [Q]. *)

(** Integers print in decimal. *)
Definition integer_to_string (n : Z) : string :=
  NilZero.string_of_int (Z.to_int n).

Definition Q_pow10 (p : Z) : Q :=
  if (0 <=? p)%Z then inject_Z (10 ^ p) else Qmake 1 (Z.to_pos (10 ^ (- p))).

Definition Q_pow2 (p : Z) : Q :=
  if (0 <=? p)%Z then inject_Z (2 ^ p) else Qmake 1 (Z.to_pos (2 ^ (- p))).

(** Candidate digit strings [s] of [k] digits at scale [10^p]: the two
    neighbours of [v / 10^p], kept to [k] digits. *)
Definition candidates (v : Q) (k p : Z) : list Z :=
  let lo := (10 ^ (k - 1))%Z in
  let hi := (10 ^ k - 1)%Z in
  let clip z := Z.max lo (Z.min hi z) in
  [clip (Qfloor (v / Q_pow10 p)%Q); clip (Qceiling (v / Q_pow10 p)%Q)].

Definition Qdist (a b : Q) : Q := if Qle_bool a b then (b - a)%Q else (a - b)%Q.

(** The shortest decimal for the double [m * 2^e] (with [m > 0]): the
    least [k], then the [s] closest to the value, ties to an even [s].
    Result: [(s, k, n)] with value [s * 10^(n - k)].  A decimal reads back
    as the double when it lies within half a unit in the last place of it
    (a quarter below a power of two), the bounds included when [m] is
    even.  [D] is the least integer with [v < 10^D]; a [k]-digit candidate
    has scale [10^(D-k)], or one more or one less when the interval reaches
    across a power of ten.  Seventeen digits always suffice. *)
Definition shortest_digits (m e : Z) : Z * Z * Z :=
  let v := (inject_Z m * Q_pow2 e)%Q in
  let up := Q_pow2 (e - 1) in
  let down := if (m =? 2 ^ 52)%Z && (e >? -1074)%Z then Q_pow2 (e - 2) else up in
  let lo := (v - down)%Q in
  let hi := (v + up)%Q in
  let incl := Z.even m in
  let inside q := if incl then Qle_bool lo q && Qle_bool q hi
                  else negb (Qle_bool q lo) && negb (Qle_bool hi q) in
  let D := (Z.of_nat (String.length (integer_to_string (Qfloor (v * Q_pow10 400)%Q))) - 400)%Z in
  let better (a b : Z * Z * Z * Q) :=
    let '(sa, _, _, qa) := a in let '(sb, _, _, qb) := b in
    let da := Qdist qa v in let db := Qdist qb v in
    if Qeq_bool da db then Z.even sa else Qle_bool da db in
  let fix search (fuel : nat) (k : Z) : Z * Z * Z :=
    match fuel with
    | O => (0, 0, 0)%Z
    | S fuel =>
        let cands :=
          flat_map (fun p => map (fun s => (s, k, p, (inject_Z s * Q_pow10 p)%Q)) (candidates v k p))
                   [(D - k - 1)%Z; (D - k)%Z; (D - k + 1)%Z] in
        let ok := filter (fun c => let '(_, _, _, q) := c in inside q) cands in
        match ok with
        | [] => search fuel (k + 1)%Z
        | c :: r =>
            let '(s, k, p, _) := fold_left (fun b a => if better a b then a else b) r c in
            (s, k, (p + k)%Z)
        end
    end in
  search 17%nat 1%Z.

Fixpoint zeros (n : nat) : string :=
  match n with O => "" | S n => "0" ++ zeros n end.

(** Number::toString(x) for a finite positive [m * 2^e]. *)
Definition positive_to_string (m e : Z) : string :=
  let '(s, k, n) := shortest_digits m e in
  let ds := integer_to_string s in
  if (k <=? n)%Z && (n <=? 21)%Z then ds ++ zeros (Z.to_nat (n - k))
  else if (0 <? n)%Z && (n <=? 21)%Z then
    substring 0 (Z.to_nat n) ds ++ "." ++ substring (Z.to_nat n) (Z.to_nat (k - n)) ds
  else if (-6 <? n)%Z && (n <=? 0)%Z then "0." ++ zeros (Z.to_nat (- n)) ++ ds
  else
    let e := (n - 1)%Z in
    let exp := "e" ++ (if (0 <=? e)%Z then "+" else "-") ++ integer_to_string (Z.abs e) in
    if (k =? 1)%Z then ds ++ exp
    else substring 0 1 ds ++ "." ++ substring 1 (Z.to_nat (k - 1)) ds ++ exp.

(** [Number::toString(x)] (radix 10). *)
Definition Number_toString (x : float) : string :=
  match Prim2SF x with
  | S754_nan => "NaN"
  | S754_zero _ => "0"
  | S754_infinity s => if s then "-Infinity" else "Infinity"
  | S754_finite s m e => (if s then "-" else "") ++ positive_to_string (Zpos m) e
  end.

(** An integer as a number (rounded to the nearest double). *)
Definition num_of_Z (z : Z) : float :=
  SF2Prim (SpecFloat.binary_normalize 53 1024 z 0 false).

(** [String(v)], and the [ToString] of a template literal. *)
Fixpoint js_String (v : jsval) : string :=
  match v with
  | JUndefined => "undefined"
  | JNull => "null"
  | JBool b => if b then "true" else "false"
  | JNum n => Number_toString n
  | JStr s => s
  | JArr l =>
      (fix join (l : list jsval) : string :=
         match l with
         | [] => ""
         | x :: r =>
             let sx := match x with
                       | JUndefined | JNull => ""
                       | _ => js_String x
                       end in
             match r with [] => sx | _ => sx ++ "," ++ join r end
         end) l
  | JObj _ => "[object Object]"
  end.

Fixpoint assoc_lookup {A} (k : string) (l : list (string * A)) : option A :=
  match l with
  | [] => None
  | (k', v) :: r => if String.eqb k k' then Some v else assoc_lookup k r
  end.

(** Property read [v.k] (own properties, and [length] of strings and
    arrays); reading a property of [null] or [undefined] is a TypeError. *)
Definition get_prop (v : jsval) (k : string) : outcome jsval :=
  match v with
  | JUndefined =>
      Err (TypeError ("Cannot read properties of undefined (reading '" ++ k ++ "')"))
  | JNull =>
      Err (TypeError ("Cannot read properties of null (reading '" ++ k ++ "')"))
  | JObj ps => Ok (match assoc_lookup k ps with Some x => x | None => JUndefined end)
  | JStr s =>
      Ok (if String.eqb k "length" then JNum (num_of_Z (Z.of_nat (String.length s))) else JUndefined)
  | JArr l =>
      Ok (if String.eqb k "length" then JNum (num_of_Z (Z.of_nat (length l))) else JUndefined)
  | _ => Ok JUndefined
  end.

(** Optional chaining [v?.k]. *)
Definition get_prop_opt (v : jsval) (k : string) : outcome jsval :=
  match v with
  | JUndefined | JNull => Ok JUndefined
  | _ => get_prop v k
  end.

Fixpoint indexed {A} (i : nat) (l : list A) : list (string * A) :=
  match l with
  | [] => []
  | x :: r => (integer_to_string (Z.of_nat i), x) :: indexed (S i) r
  end.

(** [Object.entries(v)]. *)
Definition object_entries (v : jsval) : outcome (list (string * jsval)) :=
  match v with
  | JUndefined | JNull => Err (TypeError "Cannot convert undefined or null to object")
  | JObj ps => Ok ps
  | JArr l => Ok (indexed 0 l)
  | JStr s => Ok (indexed 0 (map (fun c => JStr (String c EmptyString)) (list_ascii_of_string s)))
  | _ => Ok []
  end.

(** [CreateDataProperty]: a new key goes last, an existing one keeps its
    place and takes the new value. *)
Fixpoint set_prop {A} (k : string) (v : A) (l : list (string * A)) : list (string * A) :=
  match l with
  | [] => [(k, v)]
  | (k', v') :: r => if String.eqb k k' then (k, v) :: r else (k', v') :: set_prop k v r
  end.

(** [Object.fromEntries(es)]. *)
Definition from_entries {A} (es : list (string * A)) : list (string * A) :=
  fold_left (fun acc kv => set_prop (fst kv) (snd kv) acc) es [].

(** [Object.fromEntries(Object.entries(queryParams).map(([key, value]) =>
    [key, String(value)]))], the [stringParams] of every list method. *)
Definition string_params (queryParams : jsval) : outcome (list (string * string)) :=
  es <-? object_entries queryParams ;;
  Ok (from_entries (map (fun kv => (fst kv, js_String (snd kv))) es)).

(** ** [URLSearchParams] serialisation (application/x-www-form-urlencoded)

    Strings are taken as UTF-8 byte strings. *)

Definition is_alpha (c : ascii) : bool :=
  let n := nat_of_ascii c in
  (Nat.leb 65 n && Nat.leb n 90) || (Nat.leb 97 n && Nat.leb n 122).

Definition is_digit (c : ascii) : bool :=
  let n := nat_of_ascii c in Nat.leb 48 n && Nat.leb n 57.

Definition is_alnum (c : ascii) : bool := is_alpha c || is_digit c.

Definition hex_digit (n : nat) : ascii :=
  if Nat.ltb n 10 then ascii_of_nat (48 + n) else ascii_of_nat (55 + n).

Definition form_encode_byte (c : ascii) : string :=
  if Ascii.eqb c " " then "+"
  else if is_alnum c || Ascii.eqb c "*" || Ascii.eqb c "-" || Ascii.eqb c "." || Ascii.eqb c "_"
  then String c EmptyString
  else let n := nat_of_ascii c in
       String "%" (String (hex_digit (n / 16)) (String (hex_digit (n mod 16)) EmptyString)).

Definition form_encode (s : string) : string :=
  String.concat "" (map form_encode_byte (list_ascii_of_string s)).

(** [new URLSearchParams(record).toString()]. *)
Definition usp_serialize (ps : list (string * string)) : string :=
  String.concat "&" (map (fun kv => form_encode (fst kv) ++ "=" ++ form_encode (snd kv)) ps).

(** ** The [URL] constructor

    [new URL(input, base)] after the WHATWG URL Standard's basic URL
    parser: schemes, special and non-special authorities with credentials,
    hosts (domains, IPv4 and IPv6 addresses, opaque hosts), ports with
    default-port elision, the [file:] states with their Windows drive
    letter rules, hierarchical and opaque paths with dot segments, queries
    and fragments, percent-encoding of every component, and resolution
    against a base.  Strings are taken as UTF-8 byte strings.  The one step
    left out is UTS #46 processing, which only a host with a non-ASCII
    character or an [xn--] label needs; such a host is rejected here.
    [None] is the TypeError "Invalid URL". *)

Inductive url_path_kind : Type :=
| Opaque (s : string)
| Segments (segs : list string).

Record url : Type := mkUrl {
  url_scheme : string;
  url_username : string;
  url_password : string;
  url_host : option string;        (** serialised host, then [:port] unless default *)
  url_path : url_path_kind;
  url_query : option string;
  url_fragment : option string
}.

Definition is_special (sch : string) : bool :=
  existsb (String.eqb sch) ["ftp"; "file"; "http"; "https"; "ws"; "wss"].

Definition default_port (sch : string) : option Z :=
  if String.eqb sch "ftp" then Some 21%Z
  else if String.eqb sch "http" || String.eqb sch "ws" then Some 80%Z
  else if String.eqb sch "https" || String.eqb sch "wss" then Some 443%Z
  else None.

Definition to_lower (c : ascii) : ascii :=
  let n := nat_of_ascii c in
  if Nat.leb 65 n && Nat.leb n 90 then ascii_of_nat (n + 32) else c.

Definition lower (l : list ascii) : list ascii := map to_lower l.

Definition c0_or_space (c : ascii) : bool := Nat.leb (nat_of_ascii c) 32.

Fixpoint trim_left (l : list ascii) : list ascii :=
  match l with
  | c :: r => if c0_or_space c then trim_left r else l
  | [] => []
  end.

Definition trim (l : list ascii) : list ascii := rev (trim_left (rev (trim_left l))).

Definition is_tab_or_newline (c : ascii) : bool :=
  let n := nat_of_ascii c in Nat.eqb n 9 || Nat.eqb n 10 || Nat.eqb n 13.

(** Leading and trailing C0 controls and spaces are trimmed, then every
    tab and newline is removed. *)
Definition preprocess (s : string) : list ascii :=
  filter (fun c => negb (is_tab_or_newline c)) (trim (list_ascii_of_string s)).

(** *** Percent-encoding *)

Definition in_codes (c : ascii) (ns : list nat) : bool :=
  existsb (Nat.eqb (nat_of_ascii c)) ns.

Definition c0_control_set (c : ascii) : bool :=
  let n := nat_of_ascii c in Nat.leb n 31 || Nat.leb 127 n.

Definition fragment_set (c : ascii) : bool :=
  c0_control_set c || in_codes c [32; 34; 60; 62; 96].

Definition query_set (c : ascii) : bool :=
  c0_control_set c || in_codes c [32; 34; 35; 60; 62].

Definition special_query_set (c : ascii) : bool :=
  query_set c || in_codes c [39].

Definition path_set (c : ascii) : bool :=
  query_set c || in_codes c [63; 94; 96; 123; 125].

Definition userinfo_set (c : ascii) : bool :=
  path_set c || in_codes c [47; 58; 59; 61; 64; 91; 92; 93; 94; 124].

Definition pct_byte (c : ascii) : list ascii :=
  let n := nat_of_ascii c in ["%"%char; hex_digit (n / 16); hex_digit (n mod 16)].

(** UTF-8 percent-encode every byte of the set. *)
Definition pct_encode (in_set : ascii -> bool) (l : list ascii) : list ascii :=
  flat_map (fun c => if in_set c then pct_byte c else [c]) l.

Definition hex_value (c : ascii) : option nat :=
  let n := nat_of_ascii c in
  if Nat.leb 48 n && Nat.leb n 57 then Some (n - 48)
  else if Nat.leb 65 n && Nat.leb n 70 then Some (n - 55)
  else if Nat.leb 97 n && Nat.leb n 102 then Some (n - 87)
  else None.

(** Percent-decode: [%XY] with two hex digits is the byte [XY]; any other
    [%] stays. *)
Fixpoint pct_decode (l : list ascii) : list ascii :=
  match l with
  | [] => []
  | c :: t =>
      if Ascii.eqb c "%" then
        match t with
        | a :: b :: r =>
            match hex_value a, hex_value b with
            | Some x, Some y => ascii_of_nat (16 * x + y) :: pct_decode r
            | _, _ => c :: pct_decode t
            end
        | _ => c :: pct_decode t
        end
      else c :: pct_decode t
  end.

(** *** Splitting *)

(** Split at the first occurrence of [d]. *)
Fixpoint split_first (d : ascii) (l : list ascii) : list ascii * option (list ascii) :=
  match l with
  | [] => ([], None)
  | c :: r =>
      if Ascii.eqb c d then ([], Some r)
      else let (a, b) := split_first d r in (c :: a, b)
  end.

(** Split before the first character satisfying [p]. *)
Fixpoint break_at (p : ascii -> bool) (l : list ascii) : list ascii * list ascii :=
  match l with
  | [] => ([], [])
  | c :: r => if p c then ([], l) else let (a, b) := break_at p r in (c :: a, b)
  end.

(** Strictly split at every character satisfying [p]. *)
Fixpoint split_when (p : ascii -> bool) (l : list ascii) : list (list ascii) :=
  match l with
  | [] => [[]]
  | c :: r =>
      if p c then [] :: split_when p r
      else match split_when p r with
           | s :: ss => (c :: s) :: ss
           | [] => [[c]]
           end
  end.

(** *** Hosts *)

Definition forbidden_host (c : ascii) : bool :=
  in_codes c [0; 9; 10; 13; 32; 35; 47; 58; 60; 62; 63; 64; 91; 92; 93; 94; 124].

Definition forbidden_domain (c : ascii) : bool :=
  let n := nat_of_ascii c in
  forbidden_host c || Nat.leb n 31 || Nat.eqb n 37 || Nat.eqb n 127.

Fixpoint radix_value (r acc : Z) (l : list ascii) : option Z :=
  match l with
  | [] => Some acc
  | c :: t =>
      match hex_value c with
      | Some d => if (Z.of_nat d <? r)%Z then radix_value r (acc * r + Z.of_nat d)%Z t else None
      | None => None
      end
  end.

(** The IPv4 number parser: [0x] (or [0X]) for hexadecimal, a leading [0]
    for octal. *)
Definition ipv4_number (l : list ascii) : option Z :=
  match l with
  | [] => None
  | _ =>
      let '(r, t) := match l with
                     | "0" :: "x" :: t | "0" :: "X" :: t => (16%Z, t)
                     | "0" :: ((_ :: _) as t) => (8%Z, t)
                     | _ => (10%Z, l)
                     end%char in
      match t with
      | [] => Some 0%Z
      | _ => radix_value r 0 t
      end
  end.

Definition dot_parts (l : list ascii) : list (list ascii) :=
  split_when (fun c => Ascii.eqb c ".") l.

(** The parts with a trailing empty one (after a final dot) dropped. *)
Definition trailing_dot_dropped (parts : list (list ascii)) : list (list ascii) :=
  match rev parts with
  | [] :: (_ :: _) => removelast parts
  | _ => parts
  end.

Definition ends_in_a_number (l : list ascii) : bool :=
  let parts := dot_parts l in
  match rev parts with
  | [] :: [] => false
  | [] :: last :: _ | last :: _ =>
      (match last with [] => false | _ => forallb is_digit last end)
      || match ipv4_number last with Some _ => true | None => false end
  | [] => false
  end.

Fixpoint all_some {A} (l : list (option A)) : option (list A) :=
  match l with
  | [] => Some []
  | Some x :: r => match all_some r with Some r' => Some (x :: r') | None => None end
  | None :: _ => None
  end.

Definition ipv4_parse (l : list ascii) : option Z :=
  let parts := trailing_dot_dropped (dot_parts l) in
  if Nat.ltb 4 (length parts) then None
  else
    match all_some (map ipv4_number parts) with
    | None => None
    | Some nums =>
        let last := List.last nums 0%Z in
        if existsb (fun n => (255 <? n)%Z) (removelast nums) then None
        else if (256 ^ (5 - Z.of_nat (length nums)) <=? last)%Z then None
        else
          Some (fst (fold_left (fun acc n => let '(v, i) := acc in
                                   ((v + n * 256 ^ (3 - i))%Z, (i + 1)%Z))
                               (removelast nums) (last, 0%Z)))
    end.

Definition ipv4_serialize (a : Z) : string :=
  integer_to_string (a / 256 ^ 3 mod 256) ++ "." ++ integer_to_string (a / 256 ^ 2 mod 256) ++ "."
  ++ integer_to_string (a / 256 mod 256) ++ "." ++ integer_to_string (a mod 256).

Fixpoint set_nth {A} (i : nat) (v : A) (l : list A) : list A :=
  match l, i with
  | [], _ => []
  | _ :: r, O => v :: r
  | x :: r, S i => x :: set_nth i v r
  end.

(** At most [n] hex digits: their value, their number, and what follows. *)
Fixpoint take_hex (n : nat) (acc : Z) (len : nat) (l : list ascii) : Z * nat * list ascii :=
  match n, l with
  | S n, c :: r =>
      match hex_value c with
      | Some d => take_hex n (acc * 16 + Z.of_nat d)%Z (S len) r
      | None => (acc, len, l)
      end
  | _, _ => (acc, len, l)
  end.

(** A run of decimal digits and what follows. *)
Fixpoint take_digits (l : list ascii) : list ascii * list ascii :=
  match l with
  | c :: r => if is_digit c then let (ds, t) := take_digits r in (c :: ds, t) else ([], l)
  | [] => ([], [])
  end.

Definition decimal_value (ds : list ascii) : Z :=
  fold_left (fun a c => (a * 10 + Z.of_nat (nat_of_ascii c - 48))%Z) ds 0%Z.

(** The dotted IPv4 tail of an IPv6 address.  The standard reads it digit
    by digit, failing on a second digit after a leading [0] and as soon as
    the number exceeds 255; on a whole run of digits that is a leading [0]
    followed by more digits, or a value above 255. *)
Fixpoint ipv6_ipv4_tail (fuel : nat) (l : list ascii) (addr : list Z) (pi seen : nat)
  : option (list Z * nat) :=
  match fuel with
  | O => None
  | S fuel =>
      match l with
      | [] => if Nat.eqb seen 4 then Some (addr, pi) else None
      | _ =>
          let l1 := if Nat.ltb 0 seen then
                      match l with
                      | "." :: t => if Nat.ltb seen 4 then Some t else None
                      | _ => None
                      end%char
                    else Some l in
          match l1 with
          | None => None
          | Some l1 =>
              let (ds, rest) := take_digits l1 in
              match ds with
              | [] => None
              | d :: more =>
                  let piece := decimal_value ds in
                  if (Ascii.eqb d "0" && match more with [] => false | _ => true end)
                     || (255 <? piece)%Z then None
                  else
                    let addr' := set_nth pi (nth pi addr 0 * 256 + piece)%Z addr in
                    let seen' := S seen in
                    ipv6_ipv4_tail fuel rest addr'
                      (if Nat.eqb seen' 2 || Nat.eqb seen' 4 then S pi else pi) seen'
              end
          end
      end
  end.

(** The main loop of the IPv6 parser: the address, the piece index and
    the compress position. *)
Fixpoint ipv6_pieces (fuel : nat) (l : list ascii) (addr : list Z) (pi : nat)
  (compress : option nat) : option (list Z * nat * option nat) :=
  match fuel with
  | O => None
  | S fuel =>
      match l with
      | [] => Some (addr, pi, compress)
      | c :: r =>
          if Nat.eqb pi 8 then None
          else if Ascii.eqb c ":" then
            match compress with
            | Some _ => None
            | None => ipv6_pieces fuel r addr (S pi) (Some (S pi))
            end
          else
            let '(value, len, l1) := take_hex 4 0 0 l in
            match l1 with
            | "." :: _ =>
                if Nat.eqb len 0 || Nat.ltb 6 pi then None
                else match ipv6_ipv4_tail (S (length l)) l addr pi 0 with
                     | Some (addr', pi') => Some (addr', pi', compress)
                     | None => None
                     end
            | ":" :: l2 =>
                match l2 with
                | [] => None
                | _ => ipv6_pieces fuel l2 (set_nth pi value addr) (S pi) compress
                end
            | [] => Some (set_nth pi value addr, S pi, compress)
            | _ => None
            end%char
      end
  end.

(** Move the pieces after the compress position to the end. *)
Fixpoint ipv6_swaps (fuel : nat) (addr : list Z) (pi swaps k : nat) : list Z :=
  match fuel with
  | O => addr
  | S fuel =>
      if Nat.eqb pi 0 || Nat.eqb swaps 0 then addr
      else
        let j := (k + swaps - 1)%nat in
        ipv6_swaps fuel (set_nth j (nth pi addr 0%Z) (set_nth pi (nth j addr 0%Z) addr))
          (pi - 1) (swaps - 1) k
  end.

Definition ipv6_parse (l : list ascii) : option (list Z) :=
  let start := match l with
               | ":" :: ":" :: r => Some (r, 1%nat, Some 1%nat)
               | ":" :: _ => None
               | _ => Some (l, 0%nat, None)
               end%char in
  match start with
  | None => None
  | Some (l0, pi0, c0) =>
      match ipv6_pieces (S (length l0)) l0 (repeat 0%Z 8) pi0 c0 with
      | None => None
      | Some (addr, pi, Some k) => Some (ipv6_swaps 8 addr 7 (pi - k) k)
      | Some (addr, pi, None) => if Nat.eqb pi 8 then Some addr else None
      end
  end.

Definition hex_lower (n : Z) : string :=
  let ds := map (fun k => Z.to_nat (n / 16 ^ k mod 16)) [3; 2; 1; 0]%Z in
  let fix strip (l : list nat) : list nat :=
    match l with
    | O :: ((_ :: _) as t) => strip t
    | _ => l
    end in
  string_of_list_ascii (map (fun d => to_lower (hex_digit d)) (strip ds)).


Fixpoint zeros_prefix (l : list Z) : nat :=
  match l with
  | Z0 :: r => S (zeros_prefix r)
  | _ => O
  end.

(** The first longest run of at least two zero pieces. *)
Definition ipv6_compress (a : list Z) : option nat :=
  fold_left (fun best i =>
               let n := zeros_prefix (skipn i a) in
               if Nat.leb 2 n && match best with
                                 | None => true
                                 | Some j => Nat.ltb (zeros_prefix (skipn j a)) n
                                 end
               then Some i else best) (seq 0 8) None.

Fixpoint ipv6_out (i : nat) (l : list Z) (compress : option nat) (ignore0 : bool) : string :=
  match l with
  | [] => ""
  | p :: r =>
      if ignore0 && (p =? 0)%Z then ipv6_out (S i) r compress true
      else if match compress with Some k => Nat.eqb k i | None => false end then
        (if Nat.eqb i 0 then "::" else ":") ++ ipv6_out (S i) r compress true
      else hex_lower p ++ (if Nat.eqb i 7 then "" else ":") ++ ipv6_out (S i) r compress false
  end.

Definition ipv6_serialize (a : list Z) : string := ipv6_out 0 a (ipv6_compress a) false.

(** Domain to ASCII: ASCII lowercasing for an ASCII domain without [xn--]
    labels (UTS #46 processing, needed otherwise, is not modelled: such a
    domain is rejected), then the empty and forbidden-code-point checks. *)
Definition domain_to_ascii (l : list ascii) : option (list ascii) :=
  if existsb (fun c => Nat.leb 128 (nat_of_ascii c)) l
     || existsb (fun lab => match lower lab with
                            | "x" :: "n" :: "-" :: "-" :: _ => true
                            | _ => false
                            end%char) (dot_parts l)
  then None
  else
    let r := lower l in
    match r with
    | [] => None
    | _ => if existsb forbidden_domain r then None else Some r
    end.

(** The host parser; [special] selects domains (and IPv4 addresses) over
    opaque hosts. *)
Definition host_parse (special : bool) (l : list ascii) : option string :=
  match l with
  | "[" :: r =>
      match rev r with
      | "]" :: rin => option_map (fun a => "[" ++ ipv6_serialize a ++ "]") (ipv6_parse (rev rin))
      | _ => None
      end
  | _ =>
      if negb special then
        if existsb forbidden_host l then None
        else Some (string_of_list_ascii (pct_encode c0_control_set l))
      else
        match domain_to_ascii (pct_decode l) with
        | None => None
        | Some d =>
            if ends_in_a_number d then option_map ipv4_serialize (ipv4_parse d)
            else Some (string_of_list_ascii d)
        end
  end%char.

(** *** Authorities *)

(** Credentials end at the last [@]; earlier ones belong to them. *)
Definition split_userinfo (auth : list ascii) : option (list ascii) * list ascii :=
  match split_first "@" (rev auth) with
  | (rhp, Some rui) => (Some (rev rui), rev rhp)
  | (_, None) => (None, auth)
  end.

(** The host state: the host ends at the first [:] outside brackets. *)
Fixpoint split_host_port (inside : bool) (l : list ascii) : list ascii * option (list ascii) :=
  match l with
  | [] => ([], None)
  | c :: r =>
      if Ascii.eqb c ":" && negb inside then ([], Some r)
      else
        let inside' := if Ascii.eqb c "[" then true
                       else if Ascii.eqb c "]" then false else inside in
        let (h, p) := split_host_port inside' r in (c :: h, p)
  end.

(** The authority, host and port states: username, password, and the host
    followed by its port unless that is the scheme's default. *)
Definition parse_authority (sch : string) (special : bool) (auth : list ascii)
  : option (string * string * string) :=
  let (ui, hp) := split_userinfo auth in
  let (user, pass) :=
    match ui with
    | None => ([], [])
    | Some ui =>
        let (u, p) := split_first ":" ui in
        (pct_encode userinfo_set u,
         match p with Some p => pct_encode userinfo_set p | None => [] end)
    end in
  let creds h := Some (string_of_list_ascii user, string_of_list_ascii pass, h) in
  match ui, hp with
  | Some _, [] => None
  | _, _ =>
      let (h, port) := split_host_port false hp in
      match h, port with
      | [], Some _ => None
      | [], None => if special then None else creds ""
      | _, _ =>
          match host_parse special h with
          | None => None
          | Some hs =>
              match port with
              | None | Some [] => creds hs
              | Some pd =>
                  if negb (forallb is_digit pd) then None
                  else
                    let n := decimal_value pd in
                    if (65535 <? n)%Z then None
                    else if match default_port sch with
                            | Some d => (d =? n)%Z
                            | None => false
                            end
                    then creds hs
                    else creds (hs ++ ":" ++ integer_to_string n)
              end
          end
      end
  end.

(** *** Paths *)

Definition is_scheme_char (c : ascii) : bool :=
  is_alnum c || Ascii.eqb c "+" || Ascii.eqb c "-" || Ascii.eqb c ".".

Fixpoint scheme_rest (acc : list ascii) (l : list ascii) : option (list ascii * list ascii) :=
  match l with
  | [] => None
  | c :: r =>
      if Ascii.eqb c ":" then Some (rev acc, r)
      else if is_scheme_char c then scheme_rest (c :: acc) r else None
  end.

(** The scheme state: an ASCII letter, scheme characters, then [:]. *)
Definition scheme_of (l : list ascii) : option (list ascii * list ascii) :=
  match l with
  | c :: r => if is_alpha c then scheme_rest [c] r else None
  | [] => None
  end.

Definition is_sep (special : bool) (c : ascii) : bool :=
  Ascii.eqb c "/" || (special && Ascii.eqb c "\").

Fixpoint skip_seps (special : bool) (l : list ascii) : list ascii :=
  match l with
  | c :: r => if is_sep special c then skip_seps special r else l
  | [] => []
  end.

(** The path state splits at separators; the piece after the last one is
    the buffer at end of input. *)
Definition split_segs (special : bool) (l : list ascii) : list (list ascii) :=
  split_when (is_sep special) l.

Definition is_single_dot (s : list ascii) : bool :=
  match lower s with
  | ["."] | ["%"; "2"; "e"] => true
  | _ => false
  end%char.

Definition is_double_dot (s : list ascii) : bool :=
  match lower s with
  | ["."; "."] | ["."; "%"; "2"; "e"] | ["%"; "2"; "e"; "."]
  | ["%"; "2"; "e"; "%"; "2"; "e"] => true
  | _ => false
  end%char.

Definition is_drive_letter (l : list ascii) : bool :=
  match l with
  | [a; b] => is_alpha a && (Ascii.eqb b ":" || Ascii.eqb b "|")
  | _ => false
  end.

Definition is_normalized_drive (s : string) : bool :=
  match list_ascii_of_string s with
  | [a; b] => is_alpha a && Ascii.eqb b ":"
  | _ => false
  end.

(** The rest of the input starts with a Windows drive letter: two
    characters, then the end or one of [/ \ ? #]. *)
Definition starts_with_drive (l : list ascii) : bool :=
  match l with
  | a :: b :: r =>
      is_drive_letter [a; b] &&
      match r with
      | [] => true
      | c :: _ => in_codes c [47; 92; 63; 35]
      end
  | _ => false
  end.

(** Shorten a path; a [file:] path that is one normalized drive letter
    keeps it. *)
Definition shorten (file : bool) (p : list string) : list string :=
  match p with
  | [d] => if file && is_normalized_drive d then p else []
  | _ => removelast p
  end.

(** Push the path-state buffers on a path: a double-dot segment shortens
    it, a single-dot one is dropped, and either appends an empty segment
    when it ends the input; any other buffer is percent-encoded and
    appended, a drive letter [C|] becoming [C:] when it starts a [file:]
    path. *)
Fixpoint push_segs (file : bool) (p : list string) (segs : list (list ascii)) : list string :=
  match segs with
  | [] => p
  | s :: r =>
      let last := match r with [] => true | _ => false end in
      let p' :=
        if is_double_dot s then (shorten file p ++ (if last then [""] else []))%list
        else if is_single_dot s then (p ++ (if last then [""] else []))%list
        else
          let e := pct_encode path_set s in
          let e := match p, e with
                   | [], [a; _] => if file && is_drive_letter e then [a; ":"%char] else e
                   | _, _ => e
                   end in
          (p ++ [string_of_list_ascii e])%list in
      push_segs file p' r
  end.

(** The opaque path state: C0 controls and non-ASCII bytes are
    percent-encoded, and a space right before the query or the fragment
    ([follows]) becomes [%20]. *)
Fixpoint opaque_path (follows : bool) (l : list ascii) : list ascii :=
  match l with
  | [] => []
  | c :: t =>
      ((if Ascii.eqb c " " then
          match t with [] => if follows then ["%"; "2"; "0"]%char else [c] | _ => [c] end
        else if c0_control_set c then pct_byte c else [c]) ++ opaque_path follows t)%list
  end.

(** *** The states *)

(** A parsed head: everything but the query and the fragment.
    [h_inherit] says the query is the base's when the input has none. *)
Record head : Type := mkHead {
  h_scheme : string;
  h_username : string;
  h_password : string;
  h_host : option string;
  h_path : url_path_kind;
  h_inherit : bool
}.

(** The authority state followed by the path start and path states. *)
Definition authority_and_path (sch : string) (special : bool) (l : list ascii)
  : option head :=
  let (auth, rest) := break_at (is_sep special) l in
  match parse_authority sch special auth with
  | None => None
  | Some (user, pass, hst) =>
      let segs := match rest with
                  | [] => if special then [""] else []
                  | _ :: r => push_segs false [] (split_segs special r)
                  end in
      Some (mkHead sch user pass (Some hst) (Segments segs) false)
  end.

Definition base_segs (b : url) : list string :=
  match url_path b with Segments l => l | Opaque _ => [] end.

(** The relative state, against a base with a hierarchical path that is
    not a [file:] URL. *)
Definition parse_relative (h : list ascii) (b : url) : option head :=
  let special := is_special (url_scheme b) in
  let sch := url_scheme b in
  let from_base path inherit :=
    Some (mkHead sch (url_username b) (url_password b) (url_host b) path inherit) in
  match h with
  | [] => from_base (url_path b) true
  | c1 :: r1 =>
      if is_sep special c1 then
        match r1 with
        | c2 :: r2 =>
            if is_sep special c2
            then authority_and_path sch special (if special then skip_seps special r2 else r2)
            else from_base (Segments (push_segs false [] (split_segs special r1))) false
        | [] => from_base (Segments (push_segs false [] (split_segs special r1))) false
        end
      else
        from_base (Segments (push_segs false (shorten false (base_segs b))
                               (split_segs special h))) false
  end.

Definition file_path (p : list string) (l : list ascii) : url_path_kind :=
  Segments (push_segs true p (split_segs true l)).

Definition file_head (host : option string) (path : url_path_kind) (inherit : bool) : head :=
  mkHead "file" "" "" host path inherit.

(** The drive letter a [file:] base path starts with, if any. *)
Definition base_drive (b : url) : list string :=
  match base_segs b with
  | d :: _ => if is_normalized_drive d then [d] else []
  | [] => []
  end.

(** The file host state, after [file://]: a drive letter there is the
    start of the path. *)
Definition file_host_state (l : list ascii) : option head :=
  let (buf, rest) := break_at (is_sep true) l in
  if is_drive_letter buf then Some (file_head (Some "") (file_path [] l) false)
  else
    let path := file_path [] (match rest with [] => [] | _ :: r => r end) in
    match buf with
    | [] => Some (file_head (Some "") path false)
    | _ =>
        match host_parse true buf with
        | None => None
        | Some h =>
            Some (file_head (Some (if String.eqb h "localhost" then "" else h)) path false)
        end
    end.

(** The file slash state, after [file:/]; [fb] is the base when it is a
    [file:] URL. *)
Definition file_slash_state (l : list ascii) (fb : option url) : option head :=
  let rest_of_path :=
    match fb with
    | Some b =>
        Some (file_head (url_host b)
                (file_path (if starts_with_drive l then [] else base_drive b) l) false)
    | None => Some (file_head (Some "") (file_path [] l) false)
    end in
  match l with
  | c :: r => if is_sep true c then file_host_state r else rest_of_path
  | [] => rest_of_path
  end.

(** The file state, after [file:] or for an input without a scheme
    against a [file:] base. *)
Definition file_state (l : list ascii) (fb : option url) : option head :=
  let rest_of_path :=
    match fb with
    | Some b =>
        match l with
        | [] => Some (file_head (url_host b) (url_path b) true)
        | _ => Some (file_head (url_host b)
                       (file_path (if starts_with_drive l then [] else shorten true (base_segs b))
                          l) false)
        end
    | None => Some (file_head (Some "") (file_path [] l) false)
    end in
  match l with
  | c :: r => if is_sep true c then file_slash_state r fb else rest_of_path
  | [] => rest_of_path
  end.

Definition file_base (base : option url) : option url :=
  match base with
  | Some b => if String.eqb (url_scheme b) "file" then Some b else None
  | None => None
  end.

(** [frag_only]: the input is a fragment alone ([#...]); [follows]: a
    query or a fragment follows the head. *)
Definition parse_head (h : list ascii) (frag_only follows : bool) (base : option url)
  : option head :=
  match scheme_of h with
  | Some (sch_raw, r) =>
      let sch := string_of_list_ascii (lower sch_raw) in
      if String.eqb sch "file" then file_state r (file_base base)
      else if is_special sch then
        match base with
        | Some b =>
            if String.eqb (url_scheme b) sch then parse_relative r b
            else authority_and_path sch true (skip_seps true r)
        | None => authority_and_path sch true (skip_seps true r)
        end
      else
        match r with
        | "/" :: "/" :: r2 => authority_and_path sch false r2
        | "/" :: r2 =>
            Some (mkHead sch "" "" None (Segments (push_segs false [] (split_segs false r2))) false)
        | _ =>
            Some (mkHead sch "" "" None
                    (Opaque (string_of_list_ascii (opaque_path follows r))) false)
        end%char
  | None =>
      match base with
      | None => None
      | Some b =>
          match url_path b with
          | Opaque _ =>
              if frag_only
              then Some (mkHead (url_scheme b) (url_username b) (url_password b)
                           (url_host b) (url_path b) true)
              else None
          | Segments _ =>
              if String.eqb (url_scheme b) "file" then file_state h (Some b)
              else parse_relative h b
          end
      end
  end.

(** [new URL(input, base)]. *)
Definition url_parse (input : string) (base : option url) : option url :=
  let l := preprocess input in
  let (pre, frag) := split_first "#" l in
  let (hd, q) := split_first "?" pre in
  let frag_only := match hd, q, frag with [], None, Some _ => true | _, _, _ => false end in
  let follows := match q, frag with None, None => false | _, _ => true end in
  match parse_head hd frag_only follows base with
  | None => None
  | Some h =>
      let qset := if is_special (h_scheme h) then special_query_set else query_set in
      Some (mkUrl (h_scheme h) (h_username h) (h_password h) (h_host h) (h_path h)
              (match q with
               | Some q => Some (string_of_list_ascii (pct_encode qset q))
               | None =>
                   if h_inherit h
                   then match base with Some b => url_query b | None => None end
                   else None
               end)
              (option_map (fun f => string_of_list_ascii (pct_encode fragment_set f)) frag))
  end.

(** ** Requests, responses and the environment *)

(** The [RequestInit] of a call; [body] is the value handed to
    [JSON.stringify]. *)
Record request_init : Type := mkInit {
  method : string;
  headers : list (string * string);
  body : option jsval
}.

(** A call of [fetch(new URL(...).toString(), options)].  The URL is kept
    as the parsed record: re-parsing a serialised URL gives it back. *)
Record request : Type := mkRequest {
  req_url : url;
  req_init : request_init
}.

(** A response: its status and what [response.json()] settles to. *)
Record response : Type := mkResponse {
  status : float;
  json_result : outcome jsval
}.
Arguments mkResponse status%_float_scope json_result.

(** [response.ok]. *)
Definition response_ok (r : response) : bool :=
  (200 <=? status r)%float && (status r <=? 299)%float.

(** The environment: [fetch], whose answer may depend on every request
    sent before, and the imported [Errors.HandleError]. *)
Record env : Type := mkEnv {
  net : list request -> request -> outcome response;
  HandleError : jsval -> float -> exn
}.

(** The state: the object [this] and the requests sent, newest first. *)
Record state (S : Type) : Type := mkState {
  self : S;
  sent : list request
}.
Arguments mkState {S} self sent.
Arguments self {S} s.
Arguments sent {S} s.

Definition M (S A : Type) : Type := env -> state S -> outcome A * state S.

Definition ret {S A} (a : A) : M S A := fun _ s => (Ok a, s).

Definition bind {S A B} (m : M S A) (k : A -> M S B) : M S B :=
  fun E s => match m E s with
             | (Ok a, s') => k a E s'
             | (Err e, s') => (Err e, s')
             end.

Notation "x <- m ;; k" := (bind m (fun x => k))
  (at level 61, m at next level, right associativity).

Definition throw {S A} (e : exn) : M S A := fun _ s => (Err e, s).

Definition lift {S A} (o : outcome A) : M S A := fun _ s => (o, s).

(** [try { m } catch (error) { h(error) }]. *)
Definition try_catch {S A} (m : M S A) (h : exn -> M S A) : M S A :=
  fun E s => match m E s with
             | (Err e, s') => h e E s'
             | r => r
             end.

(** The handler every method installs: [catch (error) { throw error; }]. *)
Definition rethrow {S A} (error : exn) : M S A := throw error.

Definition this {S} : M S S := fun _ s => (Ok (self s), s).

Definition fetch {S} (u : url) (init : request_init) : M S response :=
  fun E s => let r := mkRequest u init in
             (net E (sent s) r, mkState (self s) (r :: sent s)).

Definition new_URL {S} (input : string) (base : option url) : M S url :=
  fun _ s => match url_parse input base with
             | Some u => (Ok u, s)
             | None => (Err (TypeError "Invalid URL"), s)
             end.

Definition response_json {S} (r : response) : M S jsval := lift (json_result r).

Definition handle_error {S} : M S (jsval -> float -> exn) := fun E s => (Ok (HandleError E), s).

(** The block every method repeats after [fetch] on a non-success status:
    [const errorRes = await response.json();
     throw Errors.HandleError(errorRes.message, response.status);] *)
Definition server_error {S A} (response : response) : M S A :=
  errorRes <- response_json response ;;
  message <- lift (get_prop errorRes "message") ;;
  he <- handle_error ;;
  throw (he message (status response)).

(** [fetch], then the status check, then [return await response.json()]. *)
Definition send {S} (u : url) (options : request_init) : M S jsval :=
  response <- fetch u options ;;
  if negb (response_ok response) then server_error response
  else
    data <- response_json response ;;
    ret data.

(** [fetch], then the status check, then the [Response] object
    [{ status: response.status, message: msg }]. *)
Definition send_report {S} (u : url) (options : request_init) (msg : string) : M S jsval :=
  response <- fetch u options ;;
  if negb (response_ok response) then server_error response
  else ret (JObj [("status", JNum (status response)); ("message", JStr msg)]).

(** [`Bearer ${token}`]. *)
Definition bearer (token : jsval) : string := "Bearer " ++ js_String token.

(** ** Every method as build request, send, parse

    Each method computes, from [this] and its arguments and without
    touching the state, the URL input, the base, the [RequestInit] and
    what a success returns (or throws while doing so); then it runs the
    same block.  [plan_of] records that first part; [run_plan] proves
    every method equal to the block run on it. *)

Inductive on_success : Type :=
| ReturnBody
| ReturnReport (msg : string).

Record plan : Type := mkPlan {
  p_input : string;
  p_base : url;
  p_init : request_init;
  p_success : on_success
}.

Definition exec_plan {S} (p : outcome plan) : M S jsval :=
  match p with
  | Err e => throw e
  | Ok p =>
      try_catch
        (u <- new_URL (p_input p) (Some (p_base p)) ;;
         match p_success p with
         | ReturnBody => send u (p_init p)
         | ReturnReport msg => send_report u (p_init p) msg
         end)
        rethrow
  end.

(** What the caller gets once [fetch] has settled to [o]. *)
Definition settle (E : env) (o : outcome response) (k : on_success) : outcome jsval :=
  match o with
  | Err e => Err e
  | Ok resp =>
      if negb (response_ok resp) then
        match json_result resp with
        | Err e => Err e
        | Ok v =>
            match get_prop v "message" with
            | Err e => Err e
            | Ok m => Err (HandleError E m (status resp))
            end
        end
      else
        match k with
        | ReturnBody => json_result resp
        | ReturnReport msg => Ok (JObj [("status", JNum (status resp)); ("message", JStr msg)])
        end
  end.

(** ** [class Users] *)

Module Users.

Record t : Type := mk {
  usersUrl : url;
  clientsUrl : url;
  contentType : string;
  usersEndpoint : string;
  searchEndpoint : string
}.

(** [new Users({ usersUrl, clientsUrl })]. *)
Definition constructor (usersUrl_ : string) (clientsUrl_ : option string) : outcome t :=
  match url_parse usersUrl_ None with
  | None => Err (TypeError "Invalid URL")
  | Some uu =>
      let cu := match clientsUrl_ with
                | Some c => url_parse c None
                | None => url_parse "" None
                end in
      match cu with
      | None => Err (TypeError "Invalid URL")
      | Some cu => Ok (mk uu cu "application/json" "users" "search")
      end
  end.

Definition Create (user : jsval) (token : option string) : M t jsval :=
  this_ <- this ;;
  let options := mkInit "POST"
    [("Content-Type", contentType this_);
     ("Authorization", bearer (match token with Some s => JStr s | None => JUndefined end))]
    (Some user) in
  try_catch
    (u <- new_URL (usersEndpoint this_) (Some (usersUrl this_)) ;;
     send u options)
    rethrow.

Definition CreateToken (login : jsval) : M t jsval :=
  this_ <- this ;;
  let options := mkInit "POST" [("Content-Type", contentType this_)] (Some login) in
  try_catch
    (u <- new_URL (usersEndpoint this_ ++ "/tokens/issue") (Some (usersUrl this_)) ;;
     send u options)
    rethrow.

Definition RefreshToken (refreshToken : string) : M t jsval :=
  this_ <- this ;;
  let options := mkInit "POST"
    [("Content-Type", contentType this_); ("Authorization", bearer (JStr refreshToken))]
    None in
  try_catch
    (u <- new_URL (usersEndpoint this_ ++ "/tokens/refresh") (Some (usersUrl this_)) ;;
     send u options)
    rethrow.

(** The PATCH and POST methods on [users/${user.id}/<suffix>] with the
    whole [user] as body share this shape ([Update], [UpdateUserTags],
    [UpdateUserRole], [Disable], [Enable]). *)
Definition user_request (meth suffix : string) (user : jsval) (token : string) : M t jsval :=
  this_ <- this ;;
  let options := mkInit meth
    [("Content-Type", contentType this_); ("Authorization", bearer (JStr token))]
    (Some user) in
  try_catch
    (id <- lift (get_prop user "id") ;;
     u <- new_URL (usersEndpoint this_ ++ "/" ++ js_String id ++ suffix) (Some (usersUrl this_)) ;;
     send u options)
    rethrow.

Definition Update (user : jsval) (token : string) : M t jsval :=
  user_request "PATCH" "" user token.

Definition UpdateEmail (user : jsval) (token : string) : M t jsval :=
  this_ <- this ;;
  email <- lift (get_prop user "email") ;;
  let options := mkInit "PATCH"
    [("Content-Type", contentType this_); ("Authorization", bearer (JStr token))]
    (Some (JObj [("email", email)])) in
  try_catch
    (id <- lift (get_prop user "id") ;;
     u <- new_URL (usersEndpoint this_ ++ "/" ++ js_String id ++ "/email") (Some (usersUrl this_)) ;;
     send u options)
    rethrow.

Definition UpdateUsername (user : jsval) (token : string) : M t jsval :=
  this_ <- this ;;
  credentials <- lift (get_prop user "credentials") ;;
  username <- lift (get_prop_opt credentials "username") ;;
  let options := mkInit "PATCH"
    [("Content-Type", contentType this_); ("Authorization", bearer (JStr token))]
    (Some (JObj [("username", username)])) in
  try_catch
    (id <- lift (get_prop user "id") ;;
     u <- new_URL (usersEndpoint this_ ++ "/" ++ js_String id ++ "/username") (Some (usersUrl this_)) ;;
     send u options)
    rethrow.

Definition UpdateProfilePicture (user : jsval) (token : string) : M t jsval :=
  this_ <- this ;;
  profile_picture <- lift (get_prop user "profile_picture") ;;
  let options := mkInit "PATCH"
    [("Content-Type", contentType this_); ("Authorization", bearer (JStr token))]
    (Some (JObj [("profile_picture", profile_picture)])) in
  try_catch
    (id <- lift (get_prop user "id") ;;
     u <- new_URL (usersEndpoint this_ ++ "/" ++ js_String id ++ "/picture") (Some (usersUrl this_)) ;;
     send u options)
    rethrow.

Definition UpdateUserTags (user : jsval) (token : string) : M t jsval :=
  user_request "PATCH" "/tags" user token.

Definition UpdateUserPassword (oldSecret newSecret token : string) : M t jsval :=
  this_ <- this ;;
  let options := mkInit "PATCH"
    [("Content-Type", contentType this_); ("Authorization", bearer (JStr token))]
    (Some (JObj [("old_secret", JStr oldSecret); ("new_secret", JStr newSecret)])) in
  try_catch
    (u <- new_URL (usersEndpoint this_ ++ "/secret") (Some (usersUrl this_)) ;;
     send u options)
    rethrow.

Definition UpdateUserRole (user : jsval) (token : string) : M t jsval :=
  user_request "PATCH" "/role" user token.

Definition User (userId token : string) : M t jsval :=
  this_ <- this ;;
  let options := mkInit "GET"
    [("Content-Type", contentType this_); ("Authorization", bearer (JStr token))] None in
  try_catch
    (u <- new_URL (usersEndpoint this_ ++ "/" ++ userId) (Some (usersUrl this_)) ;;
     send u options)
    rethrow.

Definition UserProfile (token : string) : M t jsval :=
  this_ <- this ;;
  let options := mkInit "GET"
    [("Content-Type", contentType this_); ("Authorization", bearer (JStr token))] None in
  try_catch
    (u <- new_URL (usersEndpoint this_ ++ "/profile") (Some (usersUrl this_)) ;;
     send u options)
    rethrow.

Definition Users (queryParams : jsval) (token : string) : M t jsval :=
  this_ <- this ;;
  stringParams <- lift (string_params queryParams) ;;
  let options := mkInit "GET"
    [("Content-Type", contentType this_); ("Authorization", bearer (JStr token))] None in
  try_catch
    (u <- new_URL (usersEndpoint this_ ++ "?" ++ usp_serialize stringParams)
                  (Some (usersUrl this_)) ;;
     send u options)
    rethrow.

Definition Disable (user : jsval) (token : string) : M t jsval :=
  user_request "POST" "/disable" user token.

Definition Enable (user : jsval) (token : string) : M t jsval :=
  user_request "POST" "/enable" user token.

Definition ListUserGroups (domainId userId : string) (queryParams : jsval) (token : string)
  : M t jsval :=
  this_ <- this ;;
  stringParams <- lift (string_params queryParams) ;;
  let options := mkInit "GET"
    [("Content-Type", contentType this_); ("Authorization", bearer (JStr token))] None in
  try_catch
    (u <- new_URL (domainId ++ "/" ++ usersEndpoint this_ ++ "/" ++ userId ++ "/groups?"
                   ++ usp_serialize stringParams) (Some (usersUrl this_)) ;;
     send u options)
    rethrow.

Definition ListUserClients (userId domainId : string) (queryParams : jsval) (token : string)
  : M t jsval :=
  this_ <- this ;;
  stringParams <- lift (string_params queryParams) ;;
  let options := mkInit "GET"
    [("Content-Type", contentType this_); ("Authorization", bearer (JStr token))] None in
  try_catch
    (u <- new_URL (domainId ++ "/" ++ usersEndpoint this_ ++ "/" ++ userId ++ "/clients?"
                   ++ usp_serialize stringParams) (Some (clientsUrl this_)) ;;
     send u options)
    rethrow.

Definition ListUserChannels (domainId userId : string) (queryParams : jsval) (token : string)
  : M t jsval :=
  this_ <- this ;;
  stringParams <- lift (string_params queryParams) ;;
  let options := mkInit "GET"
    [("Content-Type", contentType this_); ("Authorization", bearer (JStr token))] None in
  try_catch
    (u <- new_URL (domainId ++ "/" ++ usersEndpoint this_ ++ "/" ++ userId ++ "/channels?"
                   ++ usp_serialize stringParams) (Some (clientsUrl this_)) ;;
     send u options)
    rethrow.

Definition ResetPasswordRequest (email hostUrl : string) : M t jsval :=
  this_ <- this ;;
  let options := mkInit "POST"
    [("Content-Type", contentType this_); ("Referer", hostUrl)]
    (Some (JObj [("email", JStr email)])) in
  try_catch
    (u <- new_URL "/password/reset-request" (Some (usersUrl this_)) ;;
     send_report u options "Email with reset link sent successfully")
    rethrow.

Definition ResetPassword (password confPass token : string) : M t jsval :=
  this_ <- this ;;
  let options := mkInit "PUT"
    [("Content-Type", contentType this_)]
    (Some (JObj [("token", JStr token); ("password", JStr password);
                 ("confirm_password", JStr confPass)])) in
  try_catch
    (u <- new_URL "/password/reset" (Some (usersUrl this_)) ;;
     send_report u options "Password reset successfully")
    rethrow.

Definition DeleteUser (userId token : string) : M t jsval :=
  this_ <- this ;;
  let options := mkInit "DELETE" [("Authorization", bearer (JStr token))] None in
  try_catch
    (u <- new_URL (usersEndpoint this_ ++ "/" ++ userId) (Some (usersUrl this_)) ;;
     send_report u options "User deleted successfully")
    rethrow.

Definition SearchUsers (queryParams : jsval) (token : string) : M t jsval :=
  this_ <- this ;;
  stringParams <- lift (string_params queryParams) ;;
  let options := mkInit "GET"
    [("Content-Type", contentType this_); ("Authorization", bearer (JStr token))] None in
  try_catch
    (u <- new_URL (usersEndpoint this_ ++ "/" ++ searchEndpoint this_ ++ "?"
                   ++ usp_serialize stringParams) (Some (usersUrl this_)) ;;
     send u options)
    rethrow.

(** The public methods, as one call type. *)
Inductive call : Type :=
| CCreate (user : jsval) (token : option string)
| CCreateToken (login : jsval)
| CRefreshToken (refreshToken : string)
| CUpdate (user : jsval) (token : string)
| CUpdateEmail (user : jsval) (token : string)
| CUpdateUsername (user : jsval) (token : string)
| CUpdateProfilePicture (user : jsval) (token : string)
| CUpdateUserTags (user : jsval) (token : string)
| CUpdateUserPassword (oldSecret newSecret token : string)
| CUpdateUserRole (user : jsval) (token : string)
| CUser (userId token : string)
| CUserProfile (token : string)
| CUsers (queryParams : jsval) (token : string)
| CDisable (user : jsval) (token : string)
| CEnable (user : jsval) (token : string)
| CListUserGroups (domainId userId : string) (queryParams : jsval) (token : string)
| CListUserClients (userId domainId : string) (queryParams : jsval) (token : string)
| CListUserChannels (domainId userId : string) (queryParams : jsval) (token : string)
| CResetPasswordRequest (email hostUrl : string)
| CResetPassword (password confPass token : string)
| CDeleteUser (userId token : string)
| CSearchUsers (queryParams : jsval) (token : string).

Definition run (c : call) : M t jsval :=
  match c with
  | CCreate user token => Create user token
  | CCreateToken login => CreateToken login
  | CRefreshToken r => RefreshToken r
  | CUpdate user token => Update user token
  | CUpdateEmail user token => UpdateEmail user token
  | CUpdateUsername user token => UpdateUsername user token
  | CUpdateProfilePicture user token => UpdateProfilePicture user token
  | CUpdateUserTags user token => UpdateUserTags user token
  | CUpdateUserPassword o n token => UpdateUserPassword o n token
  | CUpdateUserRole user token => UpdateUserRole user token
  | CUser userId token => User userId token
  | CUserProfile token => UserProfile token
  | CUsers q token => Users q token
  | CDisable user token => Disable user token
  | CEnable user token => Enable user token
  | CListUserGroups d u q token => ListUserGroups d u q token
  | CListUserClients u d q token => ListUserClients u d q token
  | CListUserChannels d u q token => ListUserChannels d u q token
  | CResetPasswordRequest email hostUrl => ResetPasswordRequest email hostUrl
  | CResetPassword p c token => ResetPassword p c token
  | CDeleteUser userId token => DeleteUser userId token
  | CSearchUsers q token => SearchUsers q token
  end.

Definition auth_headers (this_ : t) (token : string) : list (string * string) :=
  [("Content-Type", contentType this_); ("Authorization", bearer (JStr token))].

Definition user_plan (this_ : t) (meth suffix : string) (user : jsval) (token : string)
  : outcome plan :=
  id <-? get_prop user "id" ;;
  Ok (mkPlan (usersEndpoint this_ ++ "/" ++ js_String id ++ suffix) (usersUrl this_)
         (mkInit meth (auth_headers this_ token) (Some user)) ReturnBody).

Definition plan_of (this_ : t) (c : call) : outcome plan :=
  match c with
  | CCreate user token =>
      Ok (mkPlan (usersEndpoint this_) (usersUrl this_)
            (mkInit "POST"
               [("Content-Type", contentType this_);
                ("Authorization", bearer (match token with Some s => JStr s | None => JUndefined end))]
               (Some user)) ReturnBody)
  | CCreateToken login =>
      Ok (mkPlan (usersEndpoint this_ ++ "/tokens/issue") (usersUrl this_)
            (mkInit "POST" [("Content-Type", contentType this_)] (Some login)) ReturnBody)
  | CRefreshToken r =>
      Ok (mkPlan (usersEndpoint this_ ++ "/tokens/refresh") (usersUrl this_)
            (mkInit "POST" (auth_headers this_ r) None) ReturnBody)
  | CUpdate user token => user_plan this_ "PATCH" "" user token
  | CUpdateEmail user token =>
      email <-? get_prop user "email" ;;
      id <-? get_prop user "id" ;;
      Ok (mkPlan (usersEndpoint this_ ++ "/" ++ js_String id ++ "/email") (usersUrl this_)
            (mkInit "PATCH" (auth_headers this_ token) (Some (JObj [("email", email)])))
            ReturnBody)
  | CUpdateUsername user token =>
      credentials <-? get_prop user "credentials" ;;
      username <-? get_prop_opt credentials "username" ;;
      id <-? get_prop user "id" ;;
      Ok (mkPlan (usersEndpoint this_ ++ "/" ++ js_String id ++ "/username") (usersUrl this_)
            (mkInit "PATCH" (auth_headers this_ token) (Some (JObj [("username", username)])))
            ReturnBody)
  | CUpdateProfilePicture user token =>
      pp <-? get_prop user "profile_picture" ;;
      id <-? get_prop user "id" ;;
      Ok (mkPlan (usersEndpoint this_ ++ "/" ++ js_String id ++ "/picture") (usersUrl this_)
            (mkInit "PATCH" (auth_headers this_ token) (Some (JObj [("profile_picture", pp)])))
            ReturnBody)
  | CUpdateUserTags user token => user_plan this_ "PATCH" "/tags" user token
  | CUpdateUserPassword o n token =>
      Ok (mkPlan (usersEndpoint this_ ++ "/secret") (usersUrl this_)
            (mkInit "PATCH" (auth_headers this_ token)
               (Some (JObj [("old_secret", JStr o); ("new_secret", JStr n)]))) ReturnBody)
  | CUpdateUserRole user token => user_plan this_ "PATCH" "/role" user token
  | CUser userId token =>
      Ok (mkPlan (usersEndpoint this_ ++ "/" ++ userId) (usersUrl this_)
            (mkInit "GET" (auth_headers this_ token) None) ReturnBody)
  | CUserProfile token =>
      Ok (mkPlan (usersEndpoint this_ ++ "/profile") (usersUrl this_)
            (mkInit "GET" (auth_headers this_ token) None) ReturnBody)
  | CUsers q token =>
      sp <-? string_params q ;;
      Ok (mkPlan (usersEndpoint this_ ++ "?" ++ usp_serialize sp) (usersUrl this_)
            (mkInit "GET" (auth_headers this_ token) None) ReturnBody)
  | CDisable user token => user_plan this_ "POST" "/disable" user token
  | CEnable user token => user_plan this_ "POST" "/enable" user token
  | CListUserGroups d u q token =>
      sp <-? string_params q ;;
      Ok (mkPlan (d ++ "/" ++ usersEndpoint this_ ++ "/" ++ u ++ "/groups?" ++ usp_serialize sp)
            (usersUrl this_) (mkInit "GET" (auth_headers this_ token) None) ReturnBody)
  | CListUserClients u d q token =>
      sp <-? string_params q ;;
      Ok (mkPlan (d ++ "/" ++ usersEndpoint this_ ++ "/" ++ u ++ "/clients?" ++ usp_serialize sp)
            (clientsUrl this_) (mkInit "GET" (auth_headers this_ token) None) ReturnBody)
  | CListUserChannels d u q token =>
      sp <-? string_params q ;;
      Ok (mkPlan (d ++ "/" ++ usersEndpoint this_ ++ "/" ++ u ++ "/channels?" ++ usp_serialize sp)
            (clientsUrl this_) (mkInit "GET" (auth_headers this_ token) None) ReturnBody)
  | CResetPasswordRequest email hostUrl =>
      Ok (mkPlan "/password/reset-request" (usersUrl this_)
            (mkInit "POST" [("Content-Type", contentType this_); ("Referer", hostUrl)]
               (Some (JObj [("email", JStr email)])))
            (ReturnReport "Email with reset link sent successfully"))
  | CResetPassword p c token =>
      Ok (mkPlan "/password/reset" (usersUrl this_)
            (mkInit "PUT" [("Content-Type", contentType this_)]
               (Some (JObj [("token", JStr token); ("password", JStr p);
                            ("confirm_password", JStr c)])))
            (ReturnReport "Password reset successfully"))
  | CDeleteUser userId token =>
      Ok (mkPlan (usersEndpoint this_ ++ "/" ++ userId) (usersUrl this_)
            (mkInit "DELETE" [("Authorization", bearer (JStr token))] None)
            (ReturnReport "User deleted successfully"))
  | CSearchUsers q token =>
      sp <-? string_params q ;;
      Ok (mkPlan (usersEndpoint this_ ++ "/" ++ searchEndpoint this_ ++ "?" ++ usp_serialize sp)
            (usersUrl this_) (mkInit "GET" (auth_headers this_ token) None) ReturnBody)
  end.


End Users.

(** ** [class Journal] *)

Module Journal.

Record t : Type := mk {
  journalsUrl : url;
  journalsEndpoint : string;
  contentType : string
}.

(** [new Journal(journalsUrl)]. *)
Definition constructor (journalsUrl_ : string) : outcome t :=
  match url_parse journalsUrl_ None with
  | None => Err (TypeError "Invalid URL")
  | Some ju => Ok (mk ju "journal" "application/json")
  end.

Definition Journal (entityType entityId domainId : string) (queryParams : jsval)
  (token : string) : M t jsval :=
  this_ <- this ;;
  stringParams <- lift (string_params queryParams) ;;
  let options := mkInit "GET"
    [("Content-Type", contentType this_); ("Authorization", bearer (JStr token))] None in
  try_catch
    (u <- new_URL (domainId ++ "/" ++ journalsEndpoint this_ ++ "/" ++ entityType ++ "/"
                   ++ entityId ++ "?" ++ usp_serialize stringParams) (Some (journalsUrl this_)) ;;
     send u options)
    rethrow.

Inductive call : Type :=
| CJournal (entityType entityId domainId : string) (queryParams : jsval) (token : string).

Definition run (c : call) : M t jsval :=
  match c with
  | CJournal ty id d q token => Journal ty id d q token
  end.

Definition plan_of (this_ : t) (c : call) : outcome plan :=
  match c with
  | CJournal ty id d q token =>
      sp <-? string_params q ;;
      Ok (mkPlan (d ++ "/" ++ journalsEndpoint this_ ++ "/" ++ ty ++ "/" ++ id ++ "?"
                  ++ usp_serialize sp) (journalsUrl this_)
            (mkInit "GET" [("Content-Type", contentType this_);
                           ("Authorization", bearer (JStr token))] None)
            ReturnBody)
  end.


End Journal.


(** ** What the claims speak of *)

(** The three methods that answer a success with a fixed [Response]
    object instead of the parsed body, and its message. *)
Definition success_report (c : Users.call) : option string :=
  match c with
  | Users.CResetPasswordRequest _ _ => Some "Email with reset link sent successfully"
  | Users.CResetPassword _ _ _ => Some "Password reset successfully"
  | Users.CDeleteUser _ _ => Some "User deleted successfully"
  | _ => None
  end.

(** The [Authorization] header a Users method sends: ["Bearer "] followed
    by the caller's token, none for the three unauthenticated endpoints. *)
Definition authorization (c : Users.call) : option string :=
  match c with
  | Users.CCreate _ token =>
      Some ("Bearer " ++ match token with Some s => s | None => "undefined" end)
  | Users.CCreateToken _ | Users.CResetPasswordRequest _ _ | Users.CResetPassword _ _ _ => None
  | Users.CRefreshToken r => Some ("Bearer " ++ r)
  | Users.CUpdate _ token | Users.CUpdateEmail _ token | Users.CUpdateUsername _ token
  | Users.CUpdateProfilePicture _ token | Users.CUpdateUserTags _ token
  | Users.CUpdateUserPassword _ _ token | Users.CUpdateUserRole _ token
  | Users.CUser _ token | Users.CUserProfile token | Users.CUsers _ token
  | Users.CDisable _ token | Users.CEnable _ token
  | Users.CListUserGroups _ _ _ token | Users.CListUserClients _ _ _ token
  | Users.CListUserChannels _ _ _ token | Users.CDeleteUser _ token
  | Users.CSearchUsers _ token => Some ("Bearer " ++ token)
  end.

(** The Users methods taking [queryParams]: their resource path, the base
    it is resolved against, and the parameters. *)
Definition query_target (cl : Users.t) (c : Users.call) : option (string * url * jsval) :=
  match c with
  | Users.CUsers q _ => Some (Users.usersEndpoint cl, Users.usersUrl cl, q)
  | Users.CSearchUsers q _ =>
      Some (Users.usersEndpoint cl ++ "/" ++ Users.searchEndpoint cl, Users.usersUrl cl, q)
  | Users.CListUserGroups d u q _ =>
      Some (d ++ "/" ++ Users.usersEndpoint cl ++ "/" ++ u ++ "/groups", Users.usersUrl cl, q)
  | Users.CListUserClients u d q _ =>
      Some (d ++ "/" ++ Users.usersEndpoint cl ++ "/" ++ u ++ "/clients", Users.clientsUrl cl, q)
  | Users.CListUserChannels d u q _ =>
      Some (d ++ "/" ++ Users.usersEndpoint cl ++ "/" ++ u ++ "/channels", Users.clientsUrl cl, q)
  | _ => None
  end.

Definition journal_target (cl : Journal.t) (c : Journal.call) : string * url * jsval :=
  match c with
  | Journal.CJournal ty id d q _ =>
      (d ++ "/" ++ Journal.journalsEndpoint cl ++ "/" ++ ty ++ "/" ++ id, Journal.journalsUrl cl, q)
  end.

(** A path in which neither [?] nor [#] occurs. *)
Definition plain_path (p : string) : bool :=
  forallb (fun c => negb (Ascii.eqb c "?") && negb (Ascii.eqb c "#")) (list_ascii_of_string p).

(** A sequence of calls on one client, each from the state the previous
    one left (whatever it returned or threw). *)
Fixpoint run_all {S C} (run : C -> M S jsval) (cs : list C) (E : env) (s : state S) : state S :=
  match cs with
  | [] => s
  | c :: r => run_all run r E (snd (run c E s))
  end.

(** The request a run sent last. *)
Definition default_url : url := mkUrl "about" "" "" None (Opaque "blank") None None.

Definition last_request {S} (s : state S) : request :=
  match sent s with
  | r :: _ => r
  | [] => mkRequest default_url (mkInit "" [] None)
  end.

(** Concrete clients and environments. *)
Definition demo_users : Users.t :=
  Eval vm_compute in
  match Users.constructor "http://localhost:9002/" (Some "http://localhost:9006/") with
  | Ok c => c
  | Err _ => Users.mk default_url default_url "" "" ""
  end.

Definition demo_journal : Journal.t :=
  Eval vm_compute in
  match Journal.constructor "http://localhost:9021/" with
  | Ok c => c
  | Err _ => Journal.mk default_url "" ""
  end.

Definition mailto_users : Users.t :=
  Eval vm_compute in
  match Users.constructor "mailto:admin@example.com" (Some "mailto:clients@example.com") with
  | Ok c => c
  | Err _ => Users.mk default_url default_url "" "" ""
  end.

Definition same_host_users : Users.t :=
  Eval vm_compute in
  match Users.constructor "http://localhost/users-api/" (Some "http://localhost/clients-api/") with
  | Ok c => c
  | Err _ => Users.mk default_url default_url "" "" ""
  end.

Definition demo_env (o : outcome response) : env :=
  mkEnv (fun _ _ => o) (fun m st => Thrown (JObj [("message", m); ("status", JNum st)])).

Definition demo_user : jsval :=
  JObj [("id", JStr "886b4266"); ("email", JStr "admin@example.com")].

Definition c1_env : env :=
  demo_env (Ok (mkResponse 404 (Ok (JObj [("message", JStr "entity not found")])))).

Definition c1_null_env : env := demo_env (Ok (mkResponse 500 (Ok JNull))).

Definition c2_response : response := mkResponse 200 (Ok (JObj [("id", JStr "886b4266")])).

Definition c3_env : env := demo_env (Err (TypeError "Failed to fetch")).

Definition demo_login : jsval := JObj [("identity", JStr "admin"); ("secret", JStr "12345678")].

Definition list_calls : list Users.call :=
  [Users.CListUserGroups "d1" "u1" (JObj []) "tok";
   Users.CListUserClients "u1" "d1" (JObj []) "tok";
   Users.CListUserChannels "d1" "u1" (JObj []) "tok"].

(** Characters that the URL parser passes through a query unchanged and
    that never end it. *)
Definition query_safe (c : ascii) : bool :=
  is_alnum c || existsb (Ascii.eqb c) ["*"; "-"; "."; "_"; "+"; "%"; "="; "&"]%char.

Definition c7_params : jsval := JObj [("offset", JNum 0); ("limit", JNum 10)].

(** Path components that [new URL] keeps as one segment, unchanged: letters,
    digits, '-' and '_' (no slash, backslash, '?', '#', '%' and no dot segment). *)
Definition seg_char (c : ascii) : bool := is_alnum c || Ascii.eqb c "-" || Ascii.eqb c "_".

Definition seg_safe (s : string) : bool := forallb seg_char (list_ascii_of_string s).

(** Characters that neither start a scheme nor end the path: no C0 control or
    space, no ':', '#' or '?'. *)
Definition inert_char (c : ascii) : bool :=
  negb (c0_or_space c) && negb (Ascii.eqb c ":") && negb (Ascii.eqb c "#") && negb (Ascii.eqb c "?").

(** ** Proofs: the block, once for all methods *)

Lemma try_rethrow {S A} (m : M S A) (E : env) (s : state S) :
  try_catch m rethrow E s = m E s.
Proof. unfold try_catch, rethrow, throw; destruct (m E s) as [[a|e] s']; reflexivity. Qed.

Lemma block_spec {S} (u : url) (pl : plan) (E : env) (s : state S) :
  (match p_success pl with
   | ReturnBody => send u (p_init pl)
   | ReturnReport msg => send_report u (p_init pl) msg
   end) E s
  = (settle E (net E (sent s) (mkRequest u (p_init pl))) (p_success pl),
     mkState (self s) (mkRequest u (p_init pl) :: sent s)).
Proof.
  destruct (p_success pl); unfold send, send_report, server_error, bind, fetch,
    response_json, lift, handle_error, throw, ret, settle; cbn;
    destruct (net E (sent s) _) as [resp|e]; cbn; try reflexivity;
    destruct (negb (response_ok resp)); cbn;
    destruct (json_result resp) as [v|e]; cbn; try reflexivity;
    destruct (get_prop v "message"); reflexivity.
Qed.

(** Running a plan: the planned request is sent when its URL parses. *)
Lemma exec_plan_eq {S} (p : outcome plan) (E : env) (s : state S) :
  exec_plan p E s =
  match p with
  | Err e => (Err e, s)
  | Ok pl =>
      match url_parse (p_input pl) (Some (p_base pl)) with
      | None => (Err (TypeError "Invalid URL"), s)
      | Some u =>
          (settle E (net E (sent s) (mkRequest u (p_init pl))) (p_success pl),
           mkState (self s) (mkRequest u (p_init pl) :: sent s))
      end
  end.
Proof.
  destruct p as [pl|e]; [|reflexivity].
  cbn [exec_plan]; rewrite try_rethrow; unfold bind at 1, new_URL.
  destruct (url_parse (p_input pl) (Some (p_base pl))) as [u|]; [|reflexivity].
  apply block_spec.
Qed.

Lemma exec_plan_self {S} (p : outcome plan) (E : env) (s : state S) :
  self (snd (exec_plan p E s)) = self s.
Proof.
  rewrite exec_plan_eq; destruct p as [pl|e]; [|reflexivity].
  destruct (url_parse (p_input pl) (Some (p_base pl))); reflexivity.
Qed.

(** Running a plan sends nothing, or exactly the planned request. *)
Lemma exec_plan_sent {S} (p : outcome plan) (E : env) (s : state S) :
  sent (snd (exec_plan p E s)) = sent s \/
  exists pl u, p = Ok pl /\ url_parse (p_input pl) (Some (p_base pl)) = Some u /\
               sent (snd (exec_plan p E s)) = mkRequest u (p_init pl) :: sent s.
Proof.
  rewrite exec_plan_eq; destruct p as [pl|e]; [|left; reflexivity].
  destruct (url_parse (p_input pl) (Some (p_base pl))) as [u|] eqn:Hu; [|left; reflexivity].
  right; exists pl, u; auto.
Qed.

Lemma cons_neq {A} (x : A) (l : list A) : x :: l <> l.
Proof. intros H; apply (f_equal (@length A)) in H; cbn in H; lia. Qed.

(** Once a request has gone out, the caller gets [settle] of its answer. *)
Lemma exec_plan_fetched {S} (p : outcome plan) (E : env) (s : state S) (r : request) :
  sent (snd (exec_plan p E s)) = r :: sent s ->
  exists pl, p = Ok pl /\ url_parse (p_input pl) (Some (p_base pl)) = Some (req_url r) /\
             req_init r = p_init pl /\
             fst (exec_plan p E s) = settle E (net E (sent s) r) (p_success pl).
Proof.
  rewrite exec_plan_eq; intros Hs.
  destruct p as [pl|e]; [|exfalso; exact (cons_neq r (sent s) (eq_sym Hs))].
  destruct (url_parse (p_input pl) (Some (p_base pl))) as [u|] eqn:Hu;
    [|exfalso; exact (cons_neq r (sent s) (eq_sym Hs))].
  cbn in Hs; injection Hs as <-.
  exists pl; auto.
Qed.

(** Every method is its plan run through the block. *)

Lemma Users_run_plan : forall c E s, Users.run c E s = exec_plan (Users.plan_of (self s) c) E s.
Proof.
  intros c E s.
  destruct c; unfold Users.run, Users.plan_of, Users.user_plan, Users.Update, Users.UpdateUserTags,
    Users.UpdateUserRole, Users.Disable, Users.Enable, Users.user_request;
    repeat (cbn -[url_parse send send_report get_prop get_prop_opt string_params];
            match goal with
            | |- context [get_prop ?v ?k] => destruct (get_prop v k)
            | |- context [get_prop_opt ?v ?k] => destruct (get_prop_opt v k)
            | |- context [string_params ?q] => destruct (string_params q)
            end);
    reflexivity.
Qed.

Lemma Journal_run_plan : forall c E s, Journal.run c E s = exec_plan (Journal.plan_of (self s) c) E s.
Proof.
  intros [ty id d q token] E s; unfold Journal.run, Journal.plan_of, Journal.Journal; cbn -[url_parse send string_params].
  destruct (string_params q); reflexivity.
Qed.

Lemma Users_fetched (c : Users.call) (E : env) (s : state Users.t) (r : request) :
  sent (snd (Users.run c E s)) = r :: sent s ->
  exists pl, Users.plan_of (self s) c = Ok pl /\
             url_parse (p_input pl) (Some (p_base pl)) = Some (req_url r) /\
             req_init r = p_init pl /\
             fst (Users.run c E s) = settle E (net E (sent s) r) (p_success pl).
Proof. rewrite Users_run_plan; apply exec_plan_fetched. Qed.

Lemma Journal_fetched (c : Journal.call) (E : env) (s : state Journal.t) (r : request) :
  sent (snd (Journal.run c E s)) = r :: sent s ->
  exists pl, Journal.plan_of (self s) c = Ok pl /\
             url_parse (p_input pl) (Some (p_base pl)) = Some (req_url r) /\
             req_init r = p_init pl /\
             fst (Journal.run c E s) = settle E (net E (sent s) r) (p_success pl).
Proof. rewrite Journal_run_plan; apply exec_plan_fetched. Qed.

(** Invert [plan_of ... = Ok pl] into the plan itself. *)
Ltac invert_plan H :=
  cbn -[get_prop get_prop_opt string_params] in H;
  repeat match type of H with
         | context [get_prop ?v ?k] => destruct (get_prop v k); cbn in H; [|discriminate H]
         | context [get_prop_opt ?v ?k] => destruct (get_prop_opt v k); cbn in H; [|discriminate H]
         | context [string_params ?q] => destruct (string_params q); cbn in H; [|discriminate H]
         end;
  injection H as <-.

Lemma Users_plan_success (cl : Users.t) (c : Users.call) (pl : plan) :
  Users.plan_of cl c = Ok pl ->
  p_success pl = match success_report c with Some m => ReturnReport m | None => ReturnBody end.
Proof.
  intros H; destruct c; unfold Users.plan_of, Users.user_plan in H; invert_plan H; reflexivity.
Qed.

Lemma Journal_plan_success (cl : Journal.t) (c : Journal.call) (pl : plan) :
  Journal.plan_of cl c = Ok pl -> p_success pl = ReturnBody.
Proof. intros H; destruct c; unfold Journal.plan_of in H; invert_plan H; reflexivity. Qed.

Lemma get_prop_defined (v : jsval) (k : string) :
  v <> JNull -> v <> JUndefined -> exists m, get_prop v k = Ok m.
Proof. destruct v; intros; try congruence; eexists; reflexivity. Qed.

Lemma settle_non_success (E : env) (resp : response) (v : jsval) (k : on_success) :
  response_ok resp = false -> json_result resp = Ok v -> v <> JNull -> v <> JUndefined ->
  exists m, get_prop v "message" = Ok m /\
            settle E (Ok resp) k = Err (HandleError E m (status resp)).
Proof.
  intros Hok Hj Hn Hu; destruct (get_prop_defined v "message" Hn Hu) as [m Hm].
  exists m; split; [exact Hm|]; unfold settle; rewrite Hok, Hj, Hm; reflexivity.
Qed.

Ltac discharge :=
  first [ reflexivity | discriminate | vm_compute; reflexivity | vm_compute; intros; discriminate ].

(** Split a witness statement [H1 /\ ... /\ Hn /\ goal], prove each [Hi]
    by evaluation, and the goal with the theorem. *)
Ltac prove_witness thm :=
  repeat match goal with
         | |- ?A /\ ?B => let H := fresh "H" in assert (H : A) by discharge; split; [exact H|]
         end;
  solve [eapply thm; eassumption
        | eapply thm; match goal with H : _ |- _ => exact H end].

(** ** Proofs: configuration, the [Create] request and queries *)

Lemma run_all_self {S C} (run : C -> M S jsval) :
  (forall c E s, self (snd (run c E s)) = self s) ->
  forall cs E s, self (run_all run cs E s) = self s.
Proof.
  intros Hrun cs; induction cs as [|c cs IH]; intros E s; [reflexivity|].
  cbn; rewrite IH; apply Hrun.
Qed.

Lemma Users_run_self (c : Users.call) (E : env) (s : state Users.t) :
  self (snd (Users.run c E s)) = self s.
Proof. rewrite Users_run_plan; apply exec_plan_self. Qed.

Lemma Journal_run_self (c : Journal.call) (E : env) (s : state Journal.t) :
  self (snd (Journal.run c E s)) = self s.
Proof. rewrite Journal_run_plan; apply exec_plan_self. Qed.

Lemma Users_constructor_fields (uu : string) (cu : option string) (cl : Users.t) :
  Users.constructor uu cu = Ok cl ->
  Users.contentType cl = "application/json" /\ Users.usersEndpoint cl = "users" /\
  Users.searchEndpoint cl = "search".
Proof.
  unfold Users.constructor.
  destruct (url_parse uu None); [|discriminate].
  destruct (match cu with Some c => url_parse c None | None => url_parse "" None end);
    [|discriminate].
  intros H; injection H as <-; auto.
Qed.

(** A single relative segment such as ["users"] resolves against every
    base with a hierarchical path. *)
Lemma url_parse_users_relative (b : url) (segs : list string) :
  url_path b = Segments segs -> exists u, url_parse "users" (Some b) = Some u.
Proof.
  intros Hb; unfold url_parse; simpl.
  unfold parse_head; simpl; rewrite Hb.
  destruct (String.eqb (url_scheme b) "file").
  - unfold file_state; simpl; eexists; reflexivity.
  - unfold parse_relative, is_sep; simpl.
    destruct (is_special (url_scheme b)); simpl; eexists; reflexivity.
Qed.

Lemma str_app_assoc (a b c : string) : (a ++ b) ++ c = a ++ (b ++ c).
Proof. induction a as [|x a IH]; cbn; [reflexivity|now rewrite IH]. Qed.

Lemma list_ascii_app (a b : string) :
  list_ascii_of_string (a ++ b) = (list_ascii_of_string a ++ list_ascii_of_string b)%list.
Proof. induction a as [|x a IH]; cbn; [reflexivity|now rewrite IH]. Qed.

Lemma forallb_concat (p : ascii -> bool) (sep : string) (l : list string) :
  forallb p (list_ascii_of_string sep) = true ->
  forallb (fun x => forallb p (list_ascii_of_string x)) l = true ->
  forallb p (list_ascii_of_string (String.concat sep l)) = true.
Proof.
  intros Hs; induction l as [|x l IH]; cbn; [reflexivity|].
  rewrite andb_true_iff; intros [Hx Hl].
  destruct l as [|y l]; [exact Hx|].
  rewrite !list_ascii_app, !forallb_app, Hx, Hs, (IH Hl); reflexivity.
Qed.

Lemma query_safe_props (c : ascii) :
  query_safe c = true ->
  c0_or_space c = false /\ is_tab_or_newline c = false /\
  Ascii.eqb c "?" = false /\ Ascii.eqb c "#" = false.
Proof.
  unfold query_safe; intros H.
  destruct (is_alnum c) eqn:Ha.
  - assert (Hn : 48 <= nat_of_ascii c).
    { unfold is_alnum, is_alpha, is_digit in Ha.
      repeat rewrite ?orb_true_iff, ?andb_true_iff, ?Nat.leb_le in Ha; lia. }
    unfold c0_or_space, is_tab_or_newline.
    repeat split.
    + apply Nat.leb_gt; lia.
    + repeat rewrite orb_false_iff; repeat split; apply Nat.eqb_neq; lia.
    + destruct (Ascii.eqb_spec c "?"); [subst; discriminate Ha|reflexivity].
    + destruct (Ascii.eqb_spec c "#"); [subst; discriminate Ha|reflexivity].
  - cbn in H; repeat rewrite orb_true_iff in H.
    repeat destruct H as [H|H]; try discriminate H;
      apply Ascii.eqb_eq in H; subst c; vm_compute; repeat split.
Qed.

Lemma hex_digit_alnum (n : nat) : n < 16 -> is_alnum (hex_digit n) = true.
Proof. intros H; do 16 (destruct n as [|n]; [reflexivity|]); lia. Qed.

Lemma form_encode_byte_safe (c : ascii) :
  forallb query_safe (list_ascii_of_string (form_encode_byte c)) = true.
Proof.
  unfold form_encode_byte.
  destruct (Ascii.eqb c " "); [reflexivity|].
  destruct (is_alnum c || Ascii.eqb c "*" || Ascii.eqb c "-" || Ascii.eqb c "."
            || Ascii.eqb c "_") eqn:Hc.
  - cbn; rewrite andb_true_r; unfold query_safe.
    repeat rewrite orb_true_iff in Hc; cbn.
    destruct Hc as [[[[Hc|Hc]|Hc]|Hc]|Hc]; rewrite Hc; rewrite ?orb_true_r; reflexivity.
  - cbn -[Nat.div Nat.modulo hex_digit is_alnum]; unfold query_safe.
    pose proof (Ascii.nat_ascii_bounded c) as Hb.
    rewrite !hex_digit_alnum; try reflexivity;
      first [apply Nat.mod_upper_bound; lia | apply Nat.Div0.div_lt_upper_bound; lia].
Qed.

Lemma form_encode_safe (s : string) :
  forallb query_safe (list_ascii_of_string (form_encode s)) = true.
Proof.
  unfold form_encode; apply forallb_concat; [reflexivity|].
  apply forallb_forall; intros x Hx.
  apply in_map_iff in Hx as (c & <- & _); apply form_encode_byte_safe.
Qed.

Lemma usp_serialize_safe (ps : list (string * string)) :
  forallb query_safe (list_ascii_of_string (usp_serialize ps)) = true.
Proof.
  unfold usp_serialize; apply forallb_concat; [reflexivity|].
  apply forallb_forall; intros x Hx.
  apply in_map_iff in Hx as (kv & <- & _).
  rewrite !list_ascii_app, !forallb_app, !form_encode_safe; reflexivity.
Qed.

Lemma trim_left_incl (l : list ascii) (x : ascii) : In x (trim_left l) -> In x l.
Proof.
  induction l as [|c l IH]; cbn; [auto|].
  destruct (c0_or_space c); [intros H; right; auto|auto].
Qed.

Lemma trim_left_app_keep (a b : list ascii) (c : ascii) :
  c0_or_space c = false -> trim_left (a ++ c :: b) = (trim_left a ++ c :: b)%list.
Proof.
  intros Hc; induction a as [|x a IH]; cbn; [now rewrite Hc|].
  destruct (c0_or_space x); [exact IH|reflexivity].
Qed.

Lemma trim_left_keep (l : list ascii) :
  match l with [] => True | x :: _ => c0_or_space x = false end -> trim_left l = l.
Proof. destruct l as [|x l]; cbn; [auto|intros ->; reflexivity]. Qed.

Lemma filter_all {A} (f : A -> bool) (l : list A) :
  forallb f l = true -> filter f l = l.
Proof.
  induction l as [|x l IH]; cbn; [auto|].
  rewrite andb_true_iff; intros [-> Hl]; now rewrite IH.
Qed.

Lemma preprocess_query (p s : string) :
  forallb query_safe (list_ascii_of_string s) = true ->
  exists p', preprocess (p ++ "?" ++ s) = (p' ++ "?"%char :: list_ascii_of_string s)%list /\
             (forall x, In x p' -> In x (list_ascii_of_string p)).
Proof.
  intros Hs.
  assert (Hall : forall x, In x (list_ascii_of_string s) ->
            c0_or_space x = false /\ is_tab_or_newline x = false).
  { intros x Hx; rewrite forallb_forall in Hs.
    destruct (query_safe_props x (Hs x Hx)) as (H1 & H2 & _); auto. }
  set (f := fun c => negb (is_tab_or_newline c)).
  exists (filter f (trim_left (list_ascii_of_string p))); split.
  - unfold preprocess, trim; fold f.
    rewrite list_ascii_app; cbn [list_ascii_of_string append].
    rewrite trim_left_app_keep by reflexivity.
    rewrite rev_app_distr; cbn [rev]; rewrite <- app_assoc; cbn [app].
    rewrite trim_left_keep.
    2:{ destruct (rev (list_ascii_of_string s)) as [|x r] eqn:Hr; [reflexivity|].
        apply Hall; apply in_rev; rewrite Hr; left; reflexivity. }
    rewrite rev_app_distr, rev_involutive; cbn [rev app]; rewrite rev_involutive.
    rewrite <- app_assoc; cbn [app].
    rewrite filter_app; cbn [filter].
    replace (f "?"%char) with true by reflexivity.
    rewrite (filter_all f (list_ascii_of_string s)); [reflexivity|].
    apply forallb_forall; intros x Hx; unfold f; rewrite (proj2 (Hall x Hx)); reflexivity.
  - intros x Hx; apply filter_In in Hx as [Hx _]; apply trim_left_incl; exact Hx.
Qed.

Lemma split_first_absent (d : ascii) (l : list ascii) :
  (forall x, In x l -> Ascii.eqb x d = false) -> split_first d l = (l, None).
Proof.
  induction l as [|c l IH]; intros H; cbn; [reflexivity|].
  rewrite (H c (or_introl eq_refl)), IH; [reflexivity|].
  intros x Hx; apply H; right; exact Hx.
Qed.

Lemma split_first_at (d : ascii) (a b : list ascii) :
  (forall x, In x a -> Ascii.eqb x d = false) -> split_first d (a ++ d :: b) = (a, Some b).
Proof.
  induction a as [|c a IH]; intros H; cbn.
  - rewrite Ascii.eqb_refl; reflexivity.
  - rewrite (H c (or_introl eq_refl)), IH; [reflexivity|].
    intros x Hx; apply H; right; exact Hx.
Qed.

Lemma pct_encode_id (set : ascii -> bool) (l : list ascii) :
  (forall x, In x l -> set x = false) -> pct_encode set l = l.
Proof.
  induction l as [|c l IH]; intros H; cbn; [reflexivity|].
  rewrite (H c (or_introl eq_refl)); cbn [app]; f_equal.
  apply IH; intros x Hx; apply H; right; exact Hx.
Qed.

Lemma query_safe_not_encoded (c : ascii) :
  query_safe c = true -> query_set c = false /\ special_query_set c = false.
Proof.
  intros H; destruct c as [[] [] [] [] [] [] [] []];
    vm_compute in H; try discriminate H; split; vm_compute; reflexivity.
Qed.

(** A URL built as [path + "?" + query], where neither [?] nor [#] occurs in
    [path] and the query is made of query-safe characters, has exactly that
    query, whatever the base. *)
Lemma url_parse_query (p s : string) (b : option url) (u : url) :
  plain_path p = true -> forallb query_safe (list_ascii_of_string s) = true ->
  url_parse (p ++ "?" ++ s) b = Some u -> url_query u = Some s.
Proof.
  intros Hp Hs Hu.
  destruct (preprocess_query p s Hs) as (p' & Hpre & Hin).
  assert (Hp' : forall x, In x p' -> Ascii.eqb x "?" = false /\ Ascii.eqb x "#" = false).
  { intros x Hx; unfold plain_path in Hp; rewrite forallb_forall in Hp.
    specialize (Hp x (Hin x Hx)); rewrite andb_true_iff, !negb_true_iff in Hp; exact Hp. }
  unfold url_parse in Hu; rewrite Hpre in Hu.
  rewrite split_first_absent in Hu.
  2:{ intros x Hx; apply in_app_or in Hx as [Hx|[<-|Hx]].
      - apply Hp'; exact Hx.
      - reflexivity.
      - rewrite forallb_forall in Hs; apply (query_safe_props x (Hs x Hx)). }
  rewrite split_first_at in Hu by (intros x Hx; apply Hp'; exact Hx).
  destruct (parse_head p' _ _ b) as [h|]; [|discriminate Hu].
  injection Hu as <-; cbn.
  rewrite forallb_forall in Hs.
  rewrite pct_encode_id, string_of_list_ascii_of_string; [reflexivity|].
  intros x Hx; destruct (query_safe_not_encoded x (Hs x Hx)) as [H1 H2].
  match goal with |- context [if ?c then _ else _] => destruct c end; assumption.
Qed.

Ltac str_norm := repeat progress (rewrite ?str_app_assoc; cbn [append]).

Ltac query_request Hs fetched :=
  destruct (fetched _ _ _ _ Hs) as (pl & Hp & Hu & Hinit & _);
  first [unfold Users.plan_of in Hp | unfold Journal.plan_of in Hp];
  cbn -[string_params url_parse usp_serialize] in Hp;
  (destruct (string_params _) as [sp|e]; [|discriminate Hp]);
  injection Hp as <-; cbn [p_input p_base p_init] in Hu, Hinit;
  split; [rewrite Hinit; reflexivity|];
  exists sp; split; [reflexivity|];
  split; [str_norm; exact Hu|];
  intros Hpl; eapply url_parse_query;
    [exact Hpl|apply usp_serialize_safe|str_norm; exact Hu].

(** * The claims *)

(** C1: for every public request method of Users and Journal, when the
    response has a non-success status ([response.ok] false) and its body
    parses to a JSON value (never [undefined]; not [null], whose [.message]
    read is itself a TypeError), the method throws
    [Errors.HandleError(errorRes.message, response.status)] and returns no
    value. *)
Theorem non_success_status_throws_HandleError :
  (forall c E s r resp v,
     sent (snd (Users.run c E s)) = r :: sent s ->
     net E (sent s) r = Ok resp -> response_ok resp = false ->
     json_result resp = Ok v -> v <> JNull -> v <> JUndefined ->
     exists m, get_prop v "message" = Ok m /\
               fst (Users.run c E s) = Err (HandleError E m (status resp))) /\
  (forall c E s r resp v,
     sent (snd (Journal.run c E s)) = r :: sent s ->
     net E (sent s) r = Ok resp -> response_ok resp = false ->
     json_result resp = Ok v -> v <> JNull -> v <> JUndefined ->
     exists m, get_prop v "message" = Ok m /\
               fst (Journal.run c E s) = Err (HandleError E m (status resp))).
Proof.
  split; intros c E s r resp v Hs Hn Hok Hj Hnull Hundef.
  - destruct (Users_fetched c E s r Hs) as (pl & _ & _ & _ & ->).
    rewrite Hn; apply settle_non_success; assumption.
  - destruct (Journal_fetched c E s r Hs) as (pl & _ & _ & _ & ->).
    rewrite Hn; apply settle_non_success; assumption.
Qed.

Lemma non_success_status_throws_HandleError_witness :
  sent (snd (Users.run (Users.CCreate demo_user (Some "tok")) c1_env (mkState demo_users [])))
    = [last_request (snd (Users.run (Users.CCreate demo_user (Some "tok")) c1_env
                           (mkState demo_users [])))] /\
  net c1_env [] (last_request (snd (Users.run (Users.CCreate demo_user (Some "tok")) c1_env
                                     (mkState demo_users []))))
    = Ok (mkResponse 404 (Ok (JObj [("message", JStr "entity not found")]))) /\
  response_ok (mkResponse 404 (Ok (JObj [("message", JStr "entity not found")]))) = false /\
  json_result (mkResponse 404 (Ok (JObj [("message", JStr "entity not found")])))
    = Ok (JObj [("message", JStr "entity not found")]) /\
  JObj [("message", JStr "entity not found")] <> JNull /\
  JObj [("message", JStr "entity not found")] <> JUndefined /\
  exists m, get_prop (JObj [("message", JStr "entity not found")]) "message" = Ok m /\
    fst (Users.run (Users.CCreate demo_user (Some "tok")) c1_env (mkState demo_users []))
    = Err (HandleError c1_env m
             (status (mkResponse 404 (Ok (JObj [("message", JStr "entity not found")]))))).
Proof. prove_witness (proj1 non_success_status_throws_HandleError). Defined.

(** C1, counterexample: a 500 response whose body is JSON [null].  [Create]
    sends its request and the status is not a success, but reading
    [errorRes.message] of [null] throws a TypeError first, so the method
    throws that TypeError and not the error of [Errors.HandleError]. *)
Lemma null_error_body_throws_TypeError :
  length (sent (snd (Users.run (Users.CCreate demo_user (Some "tok")) c1_null_env
                       (mkState demo_users [])))) = 1 /\
  response_ok (mkResponse 500 (Ok JNull)) = false /\
  fst (Users.run (Users.CCreate demo_user (Some "tok")) c1_null_env (mkState demo_users []))
    = Err (TypeError "Cannot read properties of null (reading 'message')") /\
  (forall m st,
     fst (Users.run (Users.CCreate demo_user (Some "tok")) c1_null_env (mkState demo_users []))
       <> Err (HandleError c1_null_env m st)).
Proof.
  split; [vm_compute; reflexivity|].
  split; [vm_compute; reflexivity|].
  split; [vm_compute; reflexivity|].
  intros m st; vm_compute; discriminate.
Qed.

(** C2 (as stated, refuted): [DeleteUser] answers a success with its own
    [Response] object, not the parsed body. *)
Lemma delete_user_success_is_not_body :
  response_ok c2_response = true /\
  fst (Users.run (Users.CDeleteUser "886b4266" "tok") (demo_env (Ok c2_response))
         (mkState demo_users []))
    = Ok (JObj [("status", JNum 200); ("message", JStr "User deleted successfully")]) /\
  fst (Users.run (Users.CDeleteUser "886b4266" "tok") (demo_env (Ok c2_response))
         (mkState demo_users []))
    <> json_result c2_response.
Proof. split; [reflexivity|split; [vm_compute; reflexivity|vm_compute; discriminate]]. Qed.

(** C2 (amended): on a success status every method of Users and Journal
    returns what [response.json()] gives, except [ResetPasswordRequest],
    [ResetPassword] and [DeleteUser], which return
    [{ status: response.status, message: <fixed text> }] without reading
    the body. *)
Theorem success_returns_body_or_report :
  (forall c E s r resp,
     sent (snd (Users.run c E s)) = r :: sent s ->
     net E (sent s) r = Ok resp -> response_ok resp = true ->
     fst (Users.run c E s) =
       match success_report c with
       | None => json_result resp
       | Some msg => Ok (JObj [("status", JNum (status resp)); ("message", JStr msg)])
       end) /\
  (forall c E s r resp,
     sent (snd (Journal.run c E s)) = r :: sent s ->
     net E (sent s) r = Ok resp -> response_ok resp = true ->
     fst (Journal.run c E s) = json_result resp).
Proof.
  split; intros c E s r resp Hs Hn Hok.
  - destruct (Users_fetched c E s r Hs) as (pl & Hp & _ & _ & ->).
    rewrite (Users_plan_success _ _ _ Hp), Hn; unfold settle; rewrite Hok; cbn.
    destruct (success_report c); reflexivity.
  - destruct (Journal_fetched c E s r Hs) as (pl & Hp & _ & _ & ->).
    rewrite (Journal_plan_success _ _ _ Hp), Hn; unfold settle; rewrite Hok; reflexivity.
Qed.

Lemma success_returns_body_or_report_witness :
  sent (snd (Users.run (Users.CUser "886b4266" "tok") (demo_env (Ok c2_response))
               (mkState demo_users [])))
    = [last_request (snd (Users.run (Users.CUser "886b4266" "tok") (demo_env (Ok c2_response))
                            (mkState demo_users [])))] /\
  net (demo_env (Ok c2_response)) []
      (last_request (snd (Users.run (Users.CUser "886b4266" "tok") (demo_env (Ok c2_response))
                            (mkState demo_users [])))) = Ok c2_response /\
  response_ok c2_response = true /\
  fst (Users.run (Users.CUser "886b4266" "tok") (demo_env (Ok c2_response)) (mkState demo_users []))
    = match success_report (Users.CUser "886b4266" "tok") with
      | None => json_result c2_response
      | Some msg => Ok (JObj [("status", JNum (status c2_response)); ("message", JStr msg)])
      end.
Proof. prove_witness (proj1 success_returns_body_or_report). Defined.

(** C3: every failure other than a non-success status, a rejection of
    [fetch] or of a [response.json()] the method performs, reaches the
    caller as the very same value. *)
Theorem other_failures_propagate_unchanged :
  (forall c E s r e,
     sent (snd (Users.run c E s)) = r :: sent s -> net E (sent s) r = Err e ->
     fst (Users.run c E s) = Err e) /\
  (forall c E s r resp e,
     sent (snd (Users.run c E s)) = r :: sent s -> net E (sent s) r = Ok resp ->
     json_result resp = Err e ->
     (response_ok resp = false \/ success_report c = None) ->
     fst (Users.run c E s) = Err e) /\
  (forall c E s r e,
     sent (snd (Journal.run c E s)) = r :: sent s -> net E (sent s) r = Err e ->
     fst (Journal.run c E s) = Err e) /\
  (forall c E s r resp e,
     sent (snd (Journal.run c E s)) = r :: sent s -> net E (sent s) r = Ok resp ->
     json_result resp = Err e ->
     fst (Journal.run c E s) = Err e).
Proof.
  split; [|split; [|split]].
  - intros c E s r e Hs Hn.
    destruct (Users_fetched c E s r Hs) as (pl & _ & _ & _ & ->); rewrite Hn; reflexivity.
  - intros c E s r resp e Hs Hn Hj Hread.
    destruct (Users_fetched c E s r Hs) as (pl & Hp & _ & _ & ->).
    rewrite (Users_plan_success _ _ _ Hp), Hn; unfold settle.
    destruct (response_ok resp) eqn:Hok; cbn.
    + destruct Hread as [Hf|Hnone]; [discriminate Hf|]; rewrite Hnone; exact Hj.
    + rewrite Hj; reflexivity.
  - intros c E s r e Hs Hn.
    destruct (Journal_fetched c E s r Hs) as (pl & _ & _ & _ & ->); rewrite Hn; reflexivity.
  - intros c E s r resp e Hs Hn Hj.
    destruct (Journal_fetched c E s r Hs) as (pl & Hp & _ & _ & ->).
    rewrite (Journal_plan_success _ _ _ Hp), Hn; unfold settle.
    destruct (response_ok resp); cbn; rewrite Hj; reflexivity.
Qed.

Lemma other_failures_propagate_unchanged_witness :
  sent (snd (Users.run (Users.CUserProfile "tok") c3_env (mkState demo_users [])))
    = [last_request (snd (Users.run (Users.CUserProfile "tok") c3_env (mkState demo_users [])))] /\
  net c3_env []
      (last_request (snd (Users.run (Users.CUserProfile "tok") c3_env (mkState demo_users []))))
    = Err (TypeError "Failed to fetch") /\
  fst (Users.run (Users.CUserProfile "tok") c3_env (mkState demo_users []))
    = Err (TypeError "Failed to fetch").
Proof. prove_witness (proj1 other_failures_propagate_unchanged). Defined.

(** C4 (as stated, refuted): with a base URL whose path is opaque (a
    valid absolute URL such as [mailto:...]) [new URL("users", base)]
    throws before [fetch], so [Create] sends no request at all. *)
Lemma create_sends_nothing_on_opaque_base :
  Users.constructor "mailto:admin@example.com" (Some "mailto:clients@example.com")
    = Ok mailto_users /\
  Users.run (Users.CCreate demo_user (Some "tok")) (demo_env (Err (TypeError "Failed to fetch")))
            (mkState mailto_users [])
    = (Err (TypeError "Invalid URL"), mkState mailto_users []).
Proof. split; vm_compute; reflexivity. Qed.

(** C4 (amended): a single invocation of any public method of Users and
    Journal calls [fetch] at most once, never a second time: either no
    request goes out (building the request threw first) or exactly one
    does, and what the caller gets is settled by that one answer. *)
Theorem at_most_one_fetch :
  (forall c E s,
     sent (snd (Users.run c E s)) = sent s \/
     exists r k, sent (snd (Users.run c E s)) = r :: sent s /\
                 fst (Users.run c E s) = settle E (net E (sent s) r) k) /\
  (forall c E s,
     sent (snd (Journal.run c E s)) = sent s \/
     exists r k, sent (snd (Journal.run c E s)) = r :: sent s /\
                 fst (Journal.run c E s) = settle E (net E (sent s) r) k).
Proof.
  split; intros c E s.
  - destruct (exec_plan_sent (Users.plan_of (self s) c) E s) as [H|(pl & u & _ & _ & H)];
      rewrite <- Users_run_plan in H; [left; exact H|right].
    destruct (Users_fetched c E s _ H) as (pl' & _ & _ & _ & Hr).
    eexists _, _; split; [exact H|exact Hr].
  - destruct (exec_plan_sent (Journal.plan_of (self s) c) E s) as [H|(pl & u & _ & _ & H)];
      rewrite <- Journal_run_plan in H; [left; exact H|right].
    destruct (Journal_fetched c E s _ H) as (pl' & _ & _ & _ & Hr).
    eexists _, _; split; [exact H|exact Hr].
Qed.

(** C5 (as stated, refuted): [CreateToken] sends no [Authorization]
    header. *)
Lemma create_token_sends_no_authorization :
  sent (snd (Users.run (Users.CCreateToken demo_login) (demo_env (Ok c2_response))
               (mkState demo_users [])))
    = [last_request (snd (Users.run (Users.CCreateToken demo_login) (demo_env (Ok c2_response))
                            (mkState demo_users [])))] /\
  assoc_lookup "Authorization"
    (headers (req_init (last_request (snd (Users.run (Users.CCreateToken demo_login)
                                              (demo_env (Ok c2_response))
                                              (mkState demo_users []))))))
    = None.
Proof. split; vm_compute; reflexivity. Qed.

(** C5 (amended): every request a Users method sends carries the header
    [Authorization: "Bearer " + token] (for [Create] without a token,
    ["Bearer undefined"]; for [RefreshToken], the refresh token), except
    [CreateToken], [ResetPasswordRequest] and [ResetPassword], which send
    no [Authorization] header; [Journal.Journal] always sends it. *)
Theorem bearer_authorization_header :
  (forall c E s r,
     sent (snd (Users.run c E s)) = r :: sent s ->
     assoc_lookup "Authorization" (headers (req_init r)) = authorization c) /\
  (forall ty id d q token E s r,
     sent (snd (Journal.run (Journal.CJournal ty id d q token) E s)) = r :: sent s ->
     assoc_lookup "Authorization" (headers (req_init r)) = Some ("Bearer " ++ token)).
Proof.
  split.
  - intros c E s r Hs.
    destruct (Users_fetched c E s r Hs) as (pl & Hp & _ & -> & _).
    destruct c; unfold Users.plan_of, Users.user_plan in Hp; invert_plan Hp; cbn;
      try reflexivity.
    match goal with |- context [match ?t with Some _ => _ | None => _ end] => destruct t end;
      reflexivity.
  - intros ty id d q token E s r Hs.
    destruct (Journal_fetched _ E s r Hs) as (pl & Hp & _ & -> & _).
    unfold Journal.plan_of in Hp; invert_plan Hp; reflexivity.
Qed.

Lemma bearer_authorization_header_witness :
  sent (snd (Users.run (Users.CDeleteUser "886b4266" "tok") (demo_env (Ok c2_response))
               (mkState demo_users [])))
    = [last_request (snd (Users.run (Users.CDeleteUser "886b4266" "tok") (demo_env (Ok c2_response))
                            (mkState demo_users [])))] /\
  assoc_lookup "Authorization"
    (headers (req_init (last_request (snd (Users.run (Users.CDeleteUser "886b4266" "tok")
                                              (demo_env (Ok c2_response))
                                              (mkState demo_users []))))))
    = authorization (Users.CDeleteUser "886b4266" "tok").
Proof. prove_witness (proj1 bearer_authorization_header). Defined.

(** C6: after construction no sequence of public method calls changes any
    field of a Users or Journal client, and its [contentType] is
    ["application/json"] throughout. *)
Theorem clients_configuration_unchanged :
  (forall uu cu cl cs E sent0,
     Users.constructor uu cu = Ok cl ->
     self (run_all Users.run cs E (mkState cl sent0)) = cl /\
     Users.contentType (self (run_all Users.run cs E (mkState cl sent0))) = "application/json") /\
  (forall ju cl cs E sent0,
     Journal.constructor ju = Ok cl ->
     self (run_all Journal.run cs E (mkState cl sent0)) = cl /\
     Journal.contentType (self (run_all Journal.run cs E (mkState cl sent0)))
       = "application/json").
Proof.
  split.
  - intros uu cu cl cs E sent0 Hc.
    rewrite (run_all_self Users.run Users_run_self); cbn; split; [reflexivity|].
    unfold Users.constructor in Hc.
    destruct (url_parse uu None); [|discriminate].
    destruct (match cu with Some c => url_parse c None | None => url_parse "" None end);
      [|discriminate].
    injection Hc as <-; reflexivity.
  - intros ju cl cs E sent0 Hc.
    rewrite (run_all_self Journal.run Journal_run_self); cbn; split; [reflexivity|].
    unfold Journal.constructor in Hc.
    destruct (url_parse ju None); [|discriminate].
    injection Hc as <-; reflexivity.
Qed.

Lemma clients_configuration_unchanged_witness :
  Users.constructor "http://localhost:9002/" (Some "http://localhost:9006/") = Ok demo_users /\
  self (run_all Users.run [Users.CUserProfile "tok"; Users.CDeleteUser "886b4266" "tok"]
          (demo_env (Ok c2_response)) (mkState demo_users [])) = demo_users /\
  Users.contentType (self (run_all Users.run [Users.CUserProfile "tok"; Users.CDeleteUser "886b4266" "tok"]
          (demo_env (Ok c2_response)) (mkState demo_users []))) = "application/json".
Proof.
  assert (H : Users.constructor "http://localhost:9002/" (Some "http://localhost:9006/")
              = Ok demo_users) by (vm_compute; reflexivity).
  split; [exact H|].
  exact (proj1 clients_configuration_unchanged _ _ _ _ _ [] H).
Defined.

(** C7 (as stated, refuted): a [#] inside a path component (here the
    [entityId]) starts the fragment, so the serialised parameters end up in
    the fragment and the request URL has no query at all. *)
Lemma journal_hash_in_entityId_drops_query :
  let st := snd (Journal.run (Journal.CJournal "client" "e#1" "d1" c7_params "tok")
                  (demo_env (Ok c2_response)) (mkState demo_journal [])) in
  sent st = [last_request st] /\
  method (req_init (last_request st)) = "GET" /\
  string_params c7_params = Ok [("offset", "0"); ("limit", "10")] /\
  url_query (req_url (last_request st)) = None /\
  url_fragment (req_url (last_request st)) = Some "1?offset=0&limit=10".
Proof. vm_compute; repeat split. Qed.

(** C7 (amended): every method taking [queryParams] sends a GET request
    whose URL is [new URL(path + "?" + s, base)], where [s] is the
    [URLSearchParams] serialisation of the map sending each key of
    [queryParams] to [String(value)]; when neither [?] nor [#] occurs in
    the resource path (which embeds [domainId], [userId], [entityType] and
    [entityId] unescaped), the URL's query is exactly [s]. *)
Theorem query_methods_request :
  (forall c E s r path base q,
     query_target (self s) c = Some (path, base, q) ->
     sent (snd (Users.run c E s)) = r :: sent s ->
     method (req_init r) = "GET" /\
     exists sp, string_params q = Ok sp /\
       url_parse (path ++ "?" ++ usp_serialize sp) (Some base) = Some (req_url r) /\
       (plain_path path = true -> url_query (req_url r) = Some (usp_serialize sp))) /\
  (forall c E s r path base q,
     journal_target (self s) c = (path, base, q) ->
     sent (snd (Journal.run c E s)) = r :: sent s ->
     method (req_init r) = "GET" /\
     exists sp, string_params q = Ok sp /\
       url_parse (path ++ "?" ++ usp_serialize sp) (Some base) = Some (req_url r) /\
       (plain_path path = true -> url_query (req_url r) = Some (usp_serialize sp))).
Proof.
  split.
  - intros c E s r path base q Ht Hs.
    destruct c; cbn in Ht; try discriminate Ht; injection Ht as <- <- <-;
      query_request Hs Users_fetched.
  - intros c E s r path base q Ht Hs.
    destruct c; cbn in Ht; injection Ht as <- <- <-;
      query_request Hs Journal_fetched.
Qed.

Lemma query_methods_request_witness :
  query_target (self (mkState demo_users [])) (Users.CUsers c7_params "tok")
    = Some ("users", Users.usersUrl demo_users, c7_params) /\
  sent (snd (Users.run (Users.CUsers c7_params "tok") (demo_env (Ok c2_response))
               (mkState demo_users [])))
    = [last_request (snd (Users.run (Users.CUsers c7_params "tok") (demo_env (Ok c2_response))
                            (mkState demo_users [])))] /\
  method (req_init (last_request (snd (Users.run (Users.CUsers c7_params "tok")
                                        (demo_env (Ok c2_response)) (mkState demo_users [])))))
    = "GET" /\
  exists sp, string_params c7_params = Ok sp /\
    url_parse ("users" ++ "?" ++ usp_serialize sp) (Some (Users.usersUrl demo_users))
      = Some (req_url (last_request (snd (Users.run (Users.CUsers c7_params "tok")
                                            (demo_env (Ok c2_response)) (mkState demo_users []))))) /\
    (plain_path "users" = true ->
     url_query (req_url (last_request (snd (Users.run (Users.CUsers c7_params "tok")
                                              (demo_env (Ok c2_response)) (mkState demo_users [])))))
       = Some (usp_serialize sp)).
Proof.
  assert (H1 : query_target (self (mkState demo_users [])) (Users.CUsers c7_params "tok")
                 = Some ("users", Users.usersUrl demo_users, c7_params)) by reflexivity.
  assert (H2 : sent (snd (Users.run (Users.CUsers c7_params "tok") (demo_env (Ok c2_response))
                            (mkState demo_users [])))
    = [last_request (snd (Users.run (Users.CUsers c7_params "tok") (demo_env (Ok c2_response))
                            (mkState demo_users [])))]) by (vm_compute; reflexivity).
  split; [exact H1|split; [exact H2|]].
  exact (proj1 query_methods_request _ _ _ _ _ _ _ H1 H2).
Defined.

(** C8: [new Users({ usersUrl })] without [clientsUrl] always throws (the
    else branch runs [new URL("")]); a Users client exists only when both
    [usersUrl] and [clientsUrl] are given and parse as absolute URLs. *)
Theorem users_constructor_requires_clientsUrl :
  (forall uu, exists e, Users.constructor uu None = Err e) /\
  (forall uu cu cl,
     Users.constructor uu cu = Ok cl ->
     exists c', cu = Some c' /\ url_parse uu None <> None /\ url_parse c' None <> None).
Proof.
  split.
  - intros uu; unfold Users.constructor.
    destruct (url_parse uu None); eexists; reflexivity.
  - intros uu cu cl Hc; unfold Users.constructor in Hc.
    destruct (url_parse uu None) eqn:Hu; [|discriminate].
    destruct cu as [c'|].
    + exists c'; split; [reflexivity|split; [congruence|]].
      destruct (url_parse c' None); [congruence|discriminate].
    + discriminate.
Qed.

Lemma users_constructor_requires_clientsUrl_witness :
  Users.constructor "http://localhost:9002/" (Some "http://localhost:9006/") = Ok demo_users /\
  exists c', Some "http://localhost:9006/" = Some c' /\
             url_parse "http://localhost:9002/" None <> None /\ url_parse c' None <> None.
Proof. prove_witness (proj2 users_constructor_requires_clientsUrl). Defined.

(** C9: [Create] called without a token still sends its request, with the
    header [Authorization: "Bearer undefined"] (the template literal turns
    [undefined] into the text ["undefined"]), for every client built by the
    constructor whose [usersUrl] has a hierarchical path (every [http:] or
    [https:] URL). *)
Theorem create_without_token_sends_bearer_undefined :
  forall uu cu user E s segs,
    Users.constructor uu cu = Ok (self s) ->
    url_path (Users.usersUrl (self s)) = Segments segs ->
    exists r, sent (snd (Users.run (Users.CCreate user None) E s)) = r :: sent s /\
              assoc_lookup "Authorization" (headers (req_init r)) = Some "Bearer undefined".
Proof.
  intros uu cu user E s segs Hc Hp.
  destruct (Users_constructor_fields _ _ _ Hc) as (_ & He & _).
  destruct (url_parse_users_relative _ _ Hp) as [u Hu].
  rewrite Users_run_plan, exec_plan_eq; cbn -[url_parse].
  rewrite He, Hu; cbn.
  eexists; split; reflexivity.
Qed.

Lemma create_without_token_sends_bearer_undefined_witness :
  Users.constructor "http://localhost:9002/" (Some "http://localhost:9006/") =
    Ok (self (mkState demo_users [])) /\
  url_path (Users.usersUrl (self (mkState demo_users []))) = Segments [""] /\
  exists r, sent (snd (Users.run (Users.CCreate demo_user None) (demo_env (Ok c2_response))
                         (mkState demo_users []))) = r :: sent (mkState demo_users []) /\
            assoc_lookup "Authorization" (headers (req_init r)) = Some "Bearer undefined".
Proof.
  assert (Hc : Users.constructor "http://localhost:9002/" (Some "http://localhost:9006/") =
                 Ok (self (mkState demo_users []))) by (vm_compute; reflexivity).
  assert (Hp : url_path (Users.usersUrl (self (mkState demo_users []))) = Segments [""])
    by (vm_compute; reflexivity).
  split; [exact Hc|split; [exact Hp|]].
  exact (create_without_token_sends_bearer_undefined _ _ demo_user (demo_env (Ok c2_response))
           (mkState demo_users []) [""] Hc Hp).
Defined.

(** C10 (as stated, refuted): two distinct bases may share their host, and
    then all three list methods target that host. *)
Lemma list_methods_share_host :
  Users.constructor "http://localhost/users-api/" (Some "http://localhost/clients-api/")
    = Ok same_host_users /\
  Users.usersUrl same_host_users <> Users.clientsUrl same_host_users /\
  map (fun r => url_host (req_url r))
      (sent (run_all Users.run list_calls (demo_env (Ok c2_response)) (mkState same_host_users [])))
    = [Some "localhost"; Some "localhost"; Some "localhost"].
Proof.
  split; [vm_compute; reflexivity|].
  split; [vm_compute; intros H; discriminate H|].
  vm_compute; reflexivity.
Qed.

(** C10 (amended): [ListUserClients] and [ListUserChannels] resolve their
    request URL ([domainId/users/userId/...] and the query) against
    [clientsUrl], [ListUserGroups] against [usersUrl]. *)
Theorem list_methods_resolve_against_bases :
  (forall d u q token E s r,
     sent (snd (Users.run (Users.CListUserGroups d u q token) E s)) = r :: sent s ->
     exists sp, string_params q = Ok sp /\
       url_parse (d ++ "/" ++ Users.usersEndpoint (self s) ++ "/" ++ u ++ "/groups?"
                  ++ usp_serialize sp) (Some (Users.usersUrl (self s))) = Some (req_url r)) /\
  (forall u d q token E s r,
     sent (snd (Users.run (Users.CListUserClients u d q token) E s)) = r :: sent s ->
     exists sp, string_params q = Ok sp /\
       url_parse (d ++ "/" ++ Users.usersEndpoint (self s) ++ "/" ++ u ++ "/clients?"
                  ++ usp_serialize sp) (Some (Users.clientsUrl (self s))) = Some (req_url r)) /\
  (forall d u q token E s r,
     sent (snd (Users.run (Users.CListUserChannels d u q token) E s)) = r :: sent s ->
     exists sp, string_params q = Ok sp /\
       url_parse (d ++ "/" ++ Users.usersEndpoint (self s) ++ "/" ++ u ++ "/channels?"
                  ++ usp_serialize sp) (Some (Users.clientsUrl (self s))) = Some (req_url r)).
Proof.
  split; [|split];
    intros a b q token E s r Hs;
    destruct (Users_fetched _ E s r Hs) as (pl & Hp & Hu & _ & _);
    unfold Users.plan_of in Hp; cbn -[string_params url_parse] in Hp;
    (destruct (string_params q) as [sp|e]; [|discriminate Hp]);
    injection Hp as <-; exists sp; split; auto.
Qed.

Lemma list_methods_resolve_against_bases_witness :
  sent (snd (Users.run (Users.CListUserClients "u1" "d1" (JObj [("limit", JNum 10)]) "tok")
               (demo_env (Ok c2_response)) (mkState demo_users [])))
    = [last_request (snd (Users.run (Users.CListUserClients "u1" "d1" (JObj [("limit", JNum 10)]) "tok")
                            (demo_env (Ok c2_response)) (mkState demo_users [])))] /\
  exists sp, string_params (JObj [("limit", JNum 10)]) = Ok sp /\
    url_parse ("d1" ++ "/" ++ Users.usersEndpoint demo_users ++ "/" ++ "u1" ++ "/clients?"
               ++ usp_serialize sp) (Some (Users.clientsUrl demo_users))
      = Some (req_url (last_request (snd (Users.run
              (Users.CListUserClients "u1" "d1" (JObj [("limit", JNum 10)]) "tok")
              (demo_env (Ok c2_response)) (mkState demo_users []))))).
Proof.
  assert (H : sent (snd (Users.run (Users.CListUserClients "u1" "d1" (JObj [("limit", JNum 10)]) "tok")
               (demo_env (Ok c2_response)) (mkState demo_users [])))
    = [last_request (snd (Users.run (Users.CListUserClients "u1" "d1" (JObj [("limit", JNum 10)]) "tok")
                            (demo_env (Ok c2_response)) (mkState demo_users [])))])
    by (vm_compute; reflexivity).
  split; [exact H|].
  exact (proj1 (proj2 list_methods_resolve_against_bases) "u1" "d1" _ "tok"
           (demo_env (Ok c2_response)) (mkState demo_users []) _ H).
Defined.

(** * Further properties of the code

    Where requests go ([new URL] against the configured bases), what the
    methods read from their arguments, what they send as body, and how a
    sequence of calls grows the request log. *)

(** ** Proofs: resolving the request paths *)

Lemma c0_not_tab (c : ascii) : c0_or_space c = false -> is_tab_or_newline c = false.
Proof.
  unfold c0_or_space, is_tab_or_newline; intros H; apply Nat.leb_gt in H.
  repeat rewrite orb_false_iff; repeat split; apply Nat.eqb_neq; lia.
Qed.

Lemma trim_left_app (a b : list ascii) :
  trim_left (a ++ b) = match trim_left a with [] => trim_left b | l => (l ++ b)%list end.
Proof.
  induction a as [|x a IH]; cbn; [reflexivity|].
  destruct (c0_or_space x); [exact IH|reflexivity].
Qed.

Lemma trim_left_all (l : list ascii) :
  (forall x, In x l -> c0_or_space x = false) -> trim_left l = l.
Proof.
  destruct l as [|x l]; cbn; [reflexivity|].
  intros H; rewrite (H x (or_introl eq_refl)); reflexivity.
Qed.

Lemma preprocess_all (s : string) :
  (forall x, In x (list_ascii_of_string s) -> c0_or_space x = false) ->
  preprocess s = list_ascii_of_string s.
Proof.
  intros H; unfold preprocess, trim.
  rewrite (trim_left_all _ H), trim_left_all, rev_involutive.
  - apply filter_all, forallb_forall; intros x Hx; rewrite (c0_not_tab x (H x Hx)); reflexivity.
  - intros x Hx; apply H, in_rev; exact Hx.
Qed.

(** Trimming and tab removal leave a prefix of ordinary characters, and
    the character after it, in place. *)
Lemma preprocess_prefix (s : string) (a t : list ascii) (c : ascii) :
  list_ascii_of_string s = (a ++ c :: t)%list ->
  (forall x, In x a -> c0_or_space x = false) -> c0_or_space c = false ->
  exists t', preprocess s = (a ++ c :: t')%list.
Proof.
  intros Hs Ha Hc; unfold preprocess, trim; rewrite Hs.
  rewrite (trim_left_keep (a ++ c :: t)).
  2:{ destruct a as [|x a]; cbn; [exact Hc|exact (Ha x (or_introl eq_refl))]. }
  assert (Hm : exists m, trim_left (rev (a ++ c :: t)) = (m ++ c :: rev a)%list).
  { rewrite rev_app_distr; cbn [rev]; rewrite <- app_assoc; cbn [app].
    rewrite trim_left_app.
    destruct (trim_left (rev t)) as [|y m] eqn:E.
    - exists []; cbn; rewrite Hc; reflexivity.
    - exists (y :: m); reflexivity. }
  destruct Hm as [m ->].
  rewrite rev_app_distr; cbn [rev]; rewrite rev_involutive, <- app_assoc; cbn [app].
  rewrite filter_app; cbn [filter]; rewrite (c0_not_tab c Hc); cbn [negb].
  rewrite (filter_all _ a).
  - eexists; reflexivity.
  - apply forallb_forall; intros x Hx; rewrite (c0_not_tab x (Ha x Hx)); reflexivity.
Qed.

Lemma split_first_prefix (d : ascii) (a m : list ascii) :
  (forall x, In x a -> Ascii.eqb x d = false) ->
  split_first d (a ++ m) = (a ++ fst (split_first d m), snd (split_first d m))%list.
Proof.
  intros H; induction a as [|x a IH]; cbn.
  - destruct (split_first d m); reflexivity.
  - rewrite (H x (or_introl eq_refl)), IH by (intros y Hy; apply H; right; exact Hy).
    reflexivity.
Qed.

Lemma scheme_rest_none (acc a m : list ascii) :
  (forall x, In x a -> Ascii.eqb x ":" = false) ->
  (m = [] \/ exists v, m = "/"%char :: v) ->
  scheme_rest acc (a ++ m) = None.
Proof.
  intros Ha Hm; revert acc; induction a as [|x a IH]; intros acc; cbn.
  - destruct Hm as [->|[v ->]]; reflexivity.
  - rewrite (Ha x (or_introl eq_refl)).
    destruct (is_scheme_char x); [|reflexivity].
    apply IH; intros y Hy; apply Ha; right; exact Hy.
Qed.

Lemma scheme_of_none (a m : list ascii) :
  (forall x, In x a -> Ascii.eqb x ":" = false) ->
  (m = [] \/ exists v, m = "/"%char :: v) ->
  scheme_of (a ++ m) = None.
Proof.
  intros Ha Hm; destruct a as [|x a]; cbn.
  - destruct Hm as [->|[v ->]]; reflexivity.
  - destruct (is_alpha x); [|reflexivity].
    apply scheme_rest_none; [|exact Hm].
    intros y Hy; apply Ha; right; exact Hy.
Qed.

Lemma inert_char_spec (x : ascii) :
  inert_char x = true ->
  c0_or_space x = false /\ Ascii.eqb x ":" = false /\ Ascii.eqb x "#" = false /\
  Ascii.eqb x "?" = false.
Proof.
  unfold inert_char; rewrite !andb_true_iff, !negb_true_iff; tauto.
Qed.

Ltac fix_frag_only mcond tac :=
  match goal with
  | |- context [parse_head ?hd ?fo ?fl (Some ?b)] =>
      replace fo with false by tac; exists fl; split; [mcond|];
      destruct (parse_head hd false fl (Some b))
  end; split; congruence.

(** Whatever follows it, an input made of ordinary characters and then
    [/] or [?] (or nothing) is a relative reference without a scheme: its
    parse succeeds exactly when the path state does. *)
Lemma url_parse_head (s : string) (a t : list ascii) (b : url) :
  list_ascii_of_string s = (a ++ t)%list ->
  forallb inert_char a = true ->
  (t = [] /\ a <> [] \/ exists t', t = "/"%char :: t' \/ t = "?"%char :: t') ->
  exists m fl, (m = [] \/ exists v, m = "/"%char :: v) /\
    (url_parse s (Some b) = None <-> parse_head (a ++ m) false fl (Some b) = None).
Proof.
  intros Hs Ha Hst.
  rewrite forallb_forall in Ha.
  assert (Hc0 : forall x, In x a -> c0_or_space x = false)
    by (intros x Hx; apply (inert_char_spec x (Ha x Hx))).
  assert (Hhash : forall x, In x a -> Ascii.eqb x "#" = false)
    by (intros x Hx; apply (inert_char_spec x (Ha x Hx))).
  assert (Hq : forall x, In x a -> Ascii.eqb x "?" = false)
    by (intros x Hx; apply (inert_char_spec x (Ha x Hx))).
  unfold url_parse.
  destruct Hst as [[-> Hne]|[t' [-> | ->]]].
  - rewrite app_nil_r in Hs.
    assert (Hp : preprocess s = a).
    { unfold preprocess, trim; rewrite Hs, (trim_left_all a Hc0), trim_left_all, rev_involutive.
      - apply filter_all, forallb_forall; intros x Hx.
        rewrite (c0_not_tab x (Hc0 x Hx)); reflexivity.
      - intros x Hx; apply Hc0, in_rev; exact Hx. }
    rewrite Hp, (split_first_absent _ _ Hhash), (split_first_absent _ _ Hq).
    exists []; rewrite app_nil_r.
    fix_frag_only ltac:(left; reflexivity) ltac:(destruct a; [congruence|reflexivity]).
  - destruct (preprocess_prefix s a t' "/" Hs Hc0 eq_refl) as [t'' ->].
    rewrite (split_first_prefix _ _ _ Hhash); cbn [split_first Ascii.eqb Bool.eqb].
    destruct (split_first "#" t'') as [u frag]; cbn [fst snd].
    rewrite (split_first_prefix _ _ _ Hq); cbn [split_first Ascii.eqb Bool.eqb].
    destruct (split_first "?" u) as [v q]; cbn [fst snd].
    exists ("/"%char :: v).
    fix_frag_only ltac:(right; exists v; reflexivity) ltac:(destruct a; reflexivity).
  - destruct (preprocess_prefix s a t' "?" Hs Hc0 eq_refl) as [t'' ->].
    rewrite (split_first_prefix _ _ _ Hhash); cbn [split_first Ascii.eqb Bool.eqb].
    destruct (split_first "#" t'') as [u frag]; cbn [fst snd].
    rewrite (split_first_at _ _ _ Hq).
    exists []; rewrite app_nil_r.
    fix_frag_only ltac:(left; reflexivity) ltac:(destruct a; reflexivity).
Qed.

Lemma url_parse_opaque_base (s : string) (a t : list ascii) (b : url) (o : string) :
  list_ascii_of_string s = (a ++ t)%list ->
  forallb inert_char a = true ->
  (t = [] /\ a <> [] \/ exists t', t = "/"%char :: t' \/ t = "?"%char :: t') ->
  url_path b = Opaque o ->
  url_parse s (Some b) = None.
Proof.
  intros Hs Ha Hst Hb.
  destruct (url_parse_head s a t b Hs Ha Hst) as (m & fl & Hm & Hiff).
  apply Hiff; unfold parse_head.
  rewrite scheme_of_none; [rewrite Hb; reflexivity| |exact Hm].
  rewrite forallb_forall in Ha; intros x Hx; apply (inert_char_spec x (Ha x Hx)).
Qed.

(** What a plain path character is not. *)
Lemma seg_char_facts (x : ascii) :
  seg_char x = true ->
  inert_char x = true /\ Ascii.eqb x "/" = false /\ Ascii.eqb x "\" = false /\
  Ascii.eqb x ":" = false /\ Ascii.eqb x "|" = false /\ path_set x = false.
Proof.
  intros Hx; destruct x as [[] [] [] [] [] [] [] []];
    vm_compute in Hx; try discriminate Hx; vm_compute; repeat constructor.
Qed.

Lemma seg_char_not_dot (x : ascii) (r : list ascii) :
  seg_char x = true -> is_double_dot (x :: r) = false /\ is_single_dot (x :: r) = false.
Proof.
  intros Hx; destruct x as [[] [] [] [] [] [] [] []];
    try discriminate Hx; split; reflexivity.
Qed.

Lemma seg_char_props (x : ascii) :
  seg_char x = true ->
  inert_char x = true /\ forall sp, is_sep sp x = false.
Proof.
  intros Hx; destruct (seg_char_facts x Hx) as (Hi & Hs & Hb & _).
  split; [exact Hi|intros sp; unfold is_sep; rewrite Hs, Hb, andb_false_r; reflexivity].
Qed.

Lemma split_segs_nosep (sp : bool) (a : list ascii) :
  (forall x, In x a -> is_sep sp x = false) -> split_segs sp a = [a].
Proof.
  unfold split_segs; induction a as [|x a IH]; intros H; cbn; [reflexivity|].
  rewrite (H x (or_introl eq_refl)), IH by (intros y Hy; apply H; right; exact Hy).
  reflexivity.
Qed.

Lemma split_segs_sep (sp : bool) (a r : list ascii) :
  (forall x, In x a -> is_sep sp x = false) ->
  split_segs sp (a ++ "/"%char :: r) = a :: split_segs sp r.
Proof.
  unfold split_segs; induction a as [|x a IH]; intros H; cbn.
  - reflexivity.
  - rewrite (H x (or_introl eq_refl)), IH by (intros y Hy; apply H; right; exact Hy).
    reflexivity.
Qed.

Lemma split_segs_concat (sp : bool) (comps : list string) :
  comps <> [] -> forallb seg_safe comps = true ->
  split_segs sp (list_ascii_of_string (String.concat "/" comps))
    = map list_ascii_of_string comps.
Proof.
  intros Hne Hc; induction comps as [|c comps IH]; [congruence|].
  cbn [forallb] in Hc; rewrite andb_true_iff in Hc; destruct Hc as [Hc Hr].
  assert (Hns : forall x, In x (list_ascii_of_string c) -> is_sep sp x = false).
  { intros x Hx; unfold seg_safe in Hc; rewrite forallb_forall in Hc.
    apply (proj2 (seg_char_props x (Hc x Hx))). }
  destruct comps as [|c' comps].
  - cbn; apply split_segs_nosep; exact Hns.
  - change (String.concat "/" (c :: c' :: comps)) with (c ++ "/" ++ String.concat "/" (c' :: comps)).
    rewrite list_ascii_app; cbn [list_ascii_of_string append].
    rewrite split_segs_sep by exact Hns.
    cbn [map]; f_equal; apply IH; [discriminate|exact Hr].
Qed.

(** A plain segment is neither percent-encoded nor taken for a drive letter. *)
Lemma plain_segment_kept (file : bool) (p : list string) (c : string) :
  seg_safe c = true ->
  match p, pct_encode path_set (list_ascii_of_string c) with
  | [], [a; _] =>
      if file && is_drive_letter (pct_encode path_set (list_ascii_of_string c))
      then [a; ":"%char] else pct_encode path_set (list_ascii_of_string c)
  | _, _ => pct_encode path_set (list_ascii_of_string c)
  end = list_ascii_of_string c.
Proof.
  intros Hc; unfold seg_safe in Hc; rewrite forallb_forall in Hc.
  rewrite pct_encode_id by (intros x Hx; apply (seg_char_facts x (Hc x Hx))).
  destruct p; [|reflexivity].
  destruct (list_ascii_of_string c) as [|a [|y [|z r]]] eqn:E; try reflexivity.
  unfold is_drive_letter.
  assert (Hy : seg_char y = true) by (apply Hc; right; left; reflexivity).
  destruct (seg_char_facts y Hy) as (_ & _ & _ & -> & -> & _).
  rewrite andb_false_r, andb_false_r; reflexivity.
Qed.

Lemma push_segs_plain (file : bool) (p : list string) (comps : list string) :
  forallb seg_safe comps = true ->
  push_segs file p (map list_ascii_of_string comps) = (p ++ comps)%list.
Proof.
  revert p; induction comps as [|c comps IH]; intros p H; cbn [map push_segs].
  - rewrite app_nil_r; reflexivity.
  - cbn [forallb] in H; rewrite andb_true_iff in H; destruct H as [Hc H].
    assert (Hd : is_double_dot (list_ascii_of_string c) = false /\
                 is_single_dot (list_ascii_of_string c) = false).
    { destruct c as [|x c]; [split; reflexivity|].
      unfold seg_safe in Hc; cbn in Hc; rewrite andb_true_iff in Hc.
      apply seg_char_not_dot, Hc. }
    destruct Hd as [-> ->]; rewrite (plain_segment_kept file p c Hc).
    rewrite string_of_list_ascii_of_string, IH by exact H.
    rewrite <- app_assoc; reflexivity.
Qed.

Lemma concat_head (comps : list string) :
  match comps with c :: _ => c <> "" | [] => False end ->
  exists x l, list_ascii_of_string (String.concat "/" comps) = x :: l /\
              match comps with String y _ :: _ => x = y | _ => False end.
Proof.
  destruct comps as [|[|y c] rest]; intros H; [contradiction|congruence|].
  destruct rest as [|c' rest]; cbn.
  - eexists _, _; split; reflexivity.
  - eexists _, _; split; reflexivity.
Qed.

Ltac crush_match H :=
  repeat match type of H with
  | context [match ?x with _ => _ end] => destruct x
  end.

Lemma authority_and_path_scheme (sch : string) (sp : bool) (l : list ascii) (h : head) :
  authority_and_path sch sp l = Some h -> h_scheme h = sch.
Proof.
  unfold authority_and_path; destruct (break_at (is_sep sp) l) as [auth rest].
  destruct (parse_authority sch sp auth) as [[[u p] hst]|]; [|discriminate].
  intros H; injection H as <-; reflexivity.
Qed.

Lemma file_state_no_credentials (l : list ascii) (h : head) :
  file_state l None = Some h -> h_username h = "" /\ h_password h = "".
Proof.
  unfold file_state, file_slash_state, file_host_state; intros H.
  crush_match H; try discriminate H; injection H as <-; split; reflexivity.
Qed.

(** A [file:] URL parsed without a base has no credentials. *)
Lemma file_url_no_credentials (s : string) (u : url) :
  url_parse s None = Some u ->
  String.eqb (url_scheme u) "file" = true -> url_username u = "" /\ url_password u = "".
Proof.
  unfold url_parse.
  destruct (split_first "#" (preprocess s)) as [pre frag].
  destruct (split_first "?" pre) as [hd q].
  match goal with |- context [parse_head hd ?fo ?fl None] =>
    destruct (parse_head hd fo fl None) as [h|] eqn:Hh; [|discriminate] end.
  intros Hu; injection Hu as <-; cbn [url_scheme url_username url_password].
  unfold parse_head in Hh.
  destruct (scheme_of hd) as [[sr r]|]; [|discriminate].
  destruct (String.eqb (string_of_list_ascii (lower sr)) "file") eqn:Ef.
  - intros _; exact (file_state_no_credentials _ _ Hh).
  - intros Hf; exfalso.
    enough (Hs : h_scheme h = string_of_list_ascii (lower sr)) by (rewrite Hs, Ef in Hf; discriminate).
    destruct (is_special (string_of_list_ascii (lower sr))).
    + exact (authority_and_path_scheme _ _ _ _ Hh).
    + destruct r as [|c1 [|c2 r2]];
        [injection Hh as <-; reflexivity| |].
      * destruct (Ascii.eqb_spec c1 "/"); [subst; injection Hh as <-; reflexivity|].
        destruct c1 as [[] [] [] [] [] [] [] []]; try (injection Hh as <-; reflexivity);
          congruence.
      * destruct (Ascii.eqb_spec c1 "/"); [subst|].
        -- destruct (Ascii.eqb_spec c2 "/"); [subst; exact (authority_and_path_scheme _ _ _ _ Hh)|].
           destruct c2 as [[] [] [] [] [] [] [] []]; try (injection Hh as <-; reflexivity);
             congruence.
        -- destruct c1 as [[] [] [] [] [] [] [] []]; try (injection Hh as <-; reflexivity);
             congruence.
Qed.

(** The character after the first of a plain path is neither [:] nor
    [|], so the path does not start with a drive letter. *)
Lemma plain_no_drive (x : ascii) (L : list ascii) :
  (forall y, In y L -> seg_char y || Ascii.eqb y "/" = true) ->
  starts_with_drive (x :: L) = false.
Proof.
  intros H; destruct L as [|y L]; [reflexivity|].
  assert (Hy : Ascii.eqb y ":" = false /\ Ascii.eqb y "|" = false).
  { specialize (H y (or_introl eq_refl)); rewrite orb_true_iff in H; destruct H as [H|H].
    - destruct (seg_char_facts y H) as (_ & _ & _ & H1 & H2 & _); auto.
    - apply Ascii.eqb_eq in H; subst; split; reflexivity. }
  unfold starts_with_drive, is_drive_letter; destruct Hy as [-> ->].
  rewrite andb_false_r; reflexivity.
Qed.

(** A path of plain segments (letters, digits, [-], [_]), the first one
    non-empty, with an optional query of query-safe characters, resolves
    against a base with a hierarchical path: relative, it replaces the last
    segment of the base path (the path is shortened, a [file:] drive letter
    staying); after a leading [/], it replaces the whole path but for the
    drive letter of a [file:] base.  Scheme, credentials and host are the
    base's, and there is no fragment. *)
Lemma resolve_path (abs : bool) (b : url) (segs comps : list string) (q : option string) :
  url_path b = Segments segs ->
  (String.eqb (url_scheme b) "file" = true -> url_username b = "" /\ url_password b = "") ->
  forallb seg_safe comps = true ->
  match comps with c :: _ => c <> "" | [] => False end ->
  match q with Some s => forallb query_safe (list_ascii_of_string s) = true | None => True end ->
  url_parse ((if abs then "/" else "") ++ String.concat "/" comps ++
             match q with Some s => "?" ++ s | None => "" end) (Some b)
  = Some (mkUrl (url_scheme b) (url_username b) (url_password b) (url_host b)
            (Segments ((if abs then (if String.eqb (url_scheme b) "file" then base_drive b else [])
                        else shorten (String.eqb (url_scheme b) "file") segs) ++ comps)%list)
            q None).
Proof.
  intros Hb Hcred Hc Hne Hq.
  set (P := fun x => seg_char x || Ascii.eqb x "/").
  assert (HL : forallb P (list_ascii_of_string (String.concat "/" comps)) = true).
  { apply forallb_concat; [reflexivity|].
    rewrite forallb_forall in Hc |- *; intros c Hin; specialize (Hc c Hin).
    unfold seg_safe in Hc; rewrite forallb_forall in Hc |- *; intros x Hx.
    unfold P; rewrite (Hc x Hx); reflexivity. }
  assert (HP : forall x, P x = true ->
             c0_or_space x = false /\ Ascii.eqb x "#" = false /\ Ascii.eqb x "?" = false /\
             Ascii.eqb x ":" = false).
  { intros x Hx; unfold P in Hx; rewrite orb_true_iff in Hx; destruct Hx as [Hx|Hx].
    - destruct (inert_char_spec x (proj1 (seg_char_props x Hx))) as (? & ? & ? & ?); auto.
    - apply Ascii.eqb_eq in Hx; subst; repeat split. }
  destruct (concat_head comps Hne) as (x & L' & HL' & Hx).
  assert (Hsx : seg_char x = true).
  { destruct comps as [|[|y c] rest]; try contradiction; subst y.
    cbn in Hc; unfold seg_safe in Hc; cbn in Hc.
    destruct (seg_char x); [reflexivity|discriminate Hc]. }
  rewrite HL' in HL.
  set (S := match q with Some s => "?"%char :: list_ascii_of_string s | None => [] end).
  assert (HS : forall y, In y S -> c0_or_space y = false /\ Ascii.eqb y "#" = false).
  { unfold S; destruct q as [s|]; [|contradiction].
    intros y [<-|Hy]; [split; reflexivity|].
    rewrite forallb_forall in Hq; destruct (query_safe_props y (Hq y Hy)) as (? & _ & _ & ?).
    auto. }
  assert (Hin : list_ascii_of_string
                  ((if abs then "/" else "") ++ String.concat "/" comps ++
                   match q with Some s => "?" ++ s | None => "" end)
                = ((if abs then ["/"%char] else []) ++ x :: L' ++ S)%list).
  { rewrite !list_ascii_app, HL'; unfold S; destruct abs, q; cbn; rewrite ?app_nil_r; reflexivity. }
  assert (HLs : forall y, In y L' -> P y = true).
  { cbn in HL; rewrite andb_true_iff, forallb_forall in HL; apply HL. }
  unfold url_parse.
  rewrite preprocess_all, Hin.
  2:{ rewrite Hin; intros y Hy; apply in_app_or in Hy as [Hy|Hy].
      - destruct abs; [destruct Hy as [<-|[]]; reflexivity|destruct Hy].
      - destruct Hy as [<-|Hy]; [apply (HP x); unfold P; rewrite Hsx; reflexivity|].
        apply in_app_or in Hy as [Hy|Hy]; [apply HP, HLs, Hy|apply HS, Hy]. }
  rewrite split_first_absent.
  2:{ intros y Hy; apply in_app_or in Hy as [Hy|Hy].
      - destruct abs; [destruct Hy as [<-|[]]; reflexivity|destruct Hy].
      - destruct Hy as [<-|Hy]; [apply (HP x); unfold P; rewrite Hsx; reflexivity|].
        apply in_app_or in Hy as [Hy|Hy]; [apply HP, HLs, Hy|apply HS, Hy]. }
  assert (Hsplit : split_first "?" ((if abs then ["/"%char] else []) ++ x :: L' ++ S)
                   = ((if abs then ["/"%char] else []) ++ x :: L',
                      match q with Some s => Some (list_ascii_of_string s) | None => None end)%list).
  { rewrite app_comm_cons, app_assoc; unfold S; destruct q as [s|].
    - apply split_first_at.
      intros y Hy; apply in_app_or in Hy as [Hy|Hy].
      + destruct abs; [destruct Hy as [<-|[]]; reflexivity|destruct Hy].
      + destruct Hy as [<-|Hy]; [apply (HP x); unfold P; rewrite Hsx; reflexivity|].
        apply HP, HLs, Hy.
    - rewrite app_nil_r; apply split_first_absent.
      intros y Hy; apply in_app_or in Hy as [Hy|Hy].
      + destruct abs; [destruct Hy as [<-|[]]; reflexivity|destruct Hy].
      + destruct Hy as [<-|Hy]; [apply (HP x); unfold P; rewrite Hsx; reflexivity|].
        apply HP, HLs, Hy. }
  rewrite Hsplit.
  assert (Hsegs : forall sp, split_segs sp (x :: L') = map list_ascii_of_string comps).
  { intros sp; rewrite <- HL'; apply split_segs_concat; [|exact Hc].
    destruct comps; [contradiction|discriminate]. }
  assert (Hsch : scheme_of (x :: L') = None).
  { pose proof (scheme_of_none (x :: L') []) as H; rewrite app_nil_r in H; apply H.
    - intros y [<-|Hy]; [apply (HP x); unfold P; rewrite Hsx; reflexivity|apply HP, HLs, Hy].
    - left; reflexivity. }
  assert (Hdrive : starts_with_drive (x :: L') = false) by exact (plain_no_drive x L' HLs).
  assert (Hxs : forall sp, is_sep sp x = false) by exact (proj2 (seg_char_props x Hsx)).
  assert (Hh : forall fo fl,
             parse_head ((if abs then ["/"%char] else []) ++ x :: L') fo fl (Some b)
             = Some (mkHead (url_scheme b) (url_username b) (url_password b) (url_host b)
                       (Segments ((if abs then (if String.eqb (url_scheme b) "file"
                                                then base_drive b else [])
                                   else shorten (String.eqb (url_scheme b) "file") segs)
                                  ++ comps)%list) false)).
  { intros fo fl; unfold parse_head.
    replace (scheme_of ((if abs then ["/"%char] else []) ++ x :: L')) with (@None (list ascii * list ascii))
      by (destruct abs; [reflexivity|exact (eq_sym Hsch)]).
    rewrite Hb.
    destruct (String.eqb (url_scheme b) "file") eqn:Hf.
    - destruct (Hcred eq_refl) as [Hun Hpw].
      apply String.eqb_eq in Hf.
      unfold file_state, file_slash_state, file_head, file_path; destruct abs; cbn [app].
      + replace (is_sep true "/") with true by reflexivity.
        rewrite Hxs, Hdrive, Hsegs, push_segs_plain by exact Hc.
        rewrite Hf, Hun, Hpw; reflexivity.
      + rewrite Hxs, Hdrive, Hsegs, push_segs_plain by exact Hc.
        unfold base_segs; rewrite Hb, Hf, Hun, Hpw; reflexivity.
    - unfold parse_relative; destruct abs; cbn [app].
      + replace (is_sep (is_special (url_scheme b)) "/") with true
          by (unfold is_sep; reflexivity).
        rewrite Hxs, Hsegs, push_segs_plain by exact Hc; reflexivity.
      + rewrite Hxs, Hsegs, push_segs_plain by exact Hc.
        unfold base_segs; rewrite Hb; reflexivity. }
  cbn beta iota zeta.
  rewrite Hh; cbn [h_scheme h_username h_password h_host h_path h_inherit].
  destruct q as [s|]; [|reflexivity].
  rewrite pct_encode_id, string_of_list_ascii_of_string; [reflexivity|].
  rewrite forallb_forall in Hq.
  intros y Hy; destruct (query_safe_not_encoded y (Hq y Hy)) as [H1 H2].
  destruct (is_special (url_scheme b)); assumption.
Qed.

Lemma resolve_path_eq (abs : bool) (b : url) (segs comps : list string) (q : option string)
  (i : string) :
  i = (if abs then "/" else "") ++ String.concat "/" comps ++
      match q with Some s => "?" ++ s | None => "" end ->
  url_path b = Segments segs ->
  (String.eqb (url_scheme b) "file" = true -> url_username b = "" /\ url_password b = "") ->
  forallb seg_safe comps = true ->
  match comps with c :: _ => c <> "" | [] => False end ->
  match q with Some s => forallb query_safe (list_ascii_of_string s) = true | None => True end ->
  url_parse i (Some b)
  = Some (mkUrl (url_scheme b) (url_username b) (url_password b) (url_host b)
            (Segments ((if abs then (if String.eqb (url_scheme b) "file" then base_drive b else [])
                        else shorten (String.eqb (url_scheme b) "file") segs) ++ comps)%list)
            q None).
Proof. intros ->; apply resolve_path. Qed.

Lemma Journal_constructor_fields (ju : string) (cl : Journal.t) :
  Journal.constructor ju = Ok cl ->
  Journal.journalsEndpoint cl = "journal" /\ Journal.contentType cl = "application/json".
Proof.
  unfold Journal.constructor; destruct (url_parse ju None); [|discriminate].
  intros H; injection H as <-; auto.
Qed.

(** The configured bases come from [new URL] without a base, so a [file:]
    base has no credentials. *)
Lemma Users_constructor_credentials (uu : string) (cu : option string) (cl : Users.t) :
  Users.constructor uu cu = Ok cl ->
  (String.eqb (url_scheme (Users.usersUrl cl)) "file" = true ->
     url_username (Users.usersUrl cl) = "" /\ url_password (Users.usersUrl cl) = "") /\
  (String.eqb (url_scheme (Users.clientsUrl cl)) "file" = true ->
     url_username (Users.clientsUrl cl) = "" /\ url_password (Users.clientsUrl cl) = "").
Proof.
  unfold Users.constructor.
  destruct (url_parse uu None) as [u|] eqn:Hu; [|discriminate].
  destruct (match cu with Some c => url_parse c None | None => url_parse "" None end)
    as [c|] eqn:Hc; [|discriminate].
  intros H; injection H as <-; cbn [Users.usersUrl Users.clientsUrl]; split.
  - exact (file_url_no_credentials _ _ Hu).
  - destruct cu; exact (file_url_no_credentials _ _ Hc).
Qed.

Lemma Journal_constructor_credentials (ju : string) (cl : Journal.t) :
  Journal.constructor ju = Ok cl ->
  String.eqb (url_scheme (Journal.journalsUrl cl)) "file" = true ->
  url_username (Journal.journalsUrl cl) = "" /\ url_password (Journal.journalsUrl cl) = "".
Proof.
  unfold Journal.constructor.
  destruct (url_parse ju None) as [u|] eqn:Hu; [|discriminate].
  intros H; injection H as <-; exact (file_url_no_credentials _ _ Hu).
Qed.

Lemma str_app_nil_r (a : string) : a ++ "" = a.
Proof. induction a as [|c a IH]; cbn; [reflexivity|now rewrite IH]. Qed.

Ltac str_norm2 := repeat progress (rewrite ?str_app_assoc, ?str_app_nil_r; cbn [append String.concat]).

Ltac resolve abs comps q :=
  match goal with
  | Hb : url_path ?b = Segments ?segs,
    Hf : String.eqb (url_scheme ?b) "file" = true -> _
    |- context [url_parse ?i (Some ?b)] =>
      rewrite (resolve_path_eq abs b segs comps q i ltac:(str_norm2; reflexivity) Hb Hf)
  end.

(** [Journal.Journal], against a [journalsUrl] with a hierarchical path and
    with [domainId] (non-empty), [entityType] and [entityId] plain (ASCII
    letters, digits, [-] and [_] only: [seg_safe]), sends one GET request to
    the path of [journalsUrl], the path shortened as [new URL] does (its last segment dropped, a lone
    [file:] drive letter kept), followed by
    [domainId/journal/entityType/entityId], with the scheme, credentials and
    host of [journalsUrl], the serialised [stringParams] as query and no
    fragment. *)
Theorem journal_request_url :
  forall ju ty id d q token sp segs E s,
    Journal.constructor ju = Ok (self s) ->
    url_path (Journal.journalsUrl (self s)) = Segments segs ->
    seg_safe d = true -> seg_safe ty = true -> seg_safe id = true -> d <> "" ->
    string_params q = Ok sp ->
    exists r, sent (snd (Journal.run (Journal.CJournal ty id d q token) E s)) = r :: sent s /\
      method (req_init r) = "GET" /\
      req_url r = mkUrl (url_scheme (Journal.journalsUrl (self s))) (url_username (Journal.journalsUrl (self s)))
                      (url_password (Journal.journalsUrl (self s))) (url_host (Journal.journalsUrl (self s)))
                      (Segments (shorten (String.eqb (url_scheme (Journal.journalsUrl (self s))) "file") segs
                        ++ [d; "journal"; ty; id])%list)
                    (Some (usp_serialize sp)) None.
Proof.
  intros ju ty id d q token sp segs E s Hc Hb Hd Hty Hid Hne Hsp.
  destruct (Journal_constructor_fields _ _ Hc) as [He _].
  pose proof (Journal_constructor_credentials _ _ Hc) as Hf.
  rewrite Journal_run_plan, exec_plan_eq; unfold Journal.plan_of.
  cbn -[url_parse string_params usp_serialize]; rewrite Hsp, He.
  cbn -[url_parse usp_serialize].
  resolve false [d; "journal"; ty; id] (Some (usp_serialize sp)).
  - eexists; split; [reflexivity|split; reflexivity].
  - cbn [forallb]; rewrite Hd, Hty, Hid; reflexivity.
  - exact Hne.
  - apply usp_serialize_safe.
Qed.

Lemma Users_plan_sent (c : Users.call) (E : env) (s : state Users.t) (pl : plan) (u : url) :
  Users.plan_of (self s) c = Ok pl ->
  url_parse (p_input pl) (Some (p_base pl)) = Some u ->
  sent (snd (Users.run c E s)) = mkRequest u (p_init pl) :: sent s.
Proof. intros Hp Hu; rewrite Users_run_plan, exec_plan_eq, Hp, Hu; reflexivity. Qed.

(** With hierarchical base paths and a non-empty plain [domainId] and plain
    [userId] ([seg_safe]), [ListUserGroups] sends its one request to
    [usersUrl] and [ListUserClients] and [ListUserChannels] to [clientsUrl]:
    the base path, the path shortened as [new URL] does (its last segment dropped, a lone
    [file:] drive letter kept), followed by
    [domainId/users/userId/<groups|clients|channels>], with the base's
    scheme, credentials and host, the serialised [stringParams] as query and
    no fragment. *)
Theorem users_list_request_urls :
  forall uu cu d u q token sp gsegs csegs E s,
    Users.constructor uu cu = Ok (self s) ->
    url_path (Users.usersUrl (self s)) = Segments gsegs ->
    url_path (Users.clientsUrl (self s)) = Segments csegs ->
    seg_safe d = true -> seg_safe u = true -> d <> "" ->
    string_params q = Ok sp ->
    (exists r, sent (snd (Users.run (Users.CListUserGroups d u q token) E s)) = r :: sent s /\
       req_url r = mkUrl (url_scheme (Users.usersUrl (self s))) (url_username (Users.usersUrl (self s)))
                      (url_password (Users.usersUrl (self s))) (url_host (Users.usersUrl (self s)))
                      (Segments (shorten (String.eqb (url_scheme (Users.usersUrl (self s))) "file") gsegs
                        ++ [d; "users"; u; "groups"])%list)
                     (Some (usp_serialize sp)) None) /\
    (exists r, sent (snd (Users.run (Users.CListUserClients u d q token) E s)) = r :: sent s /\
       req_url r = mkUrl (url_scheme (Users.clientsUrl (self s))) (url_username (Users.clientsUrl (self s)))
                      (url_password (Users.clientsUrl (self s))) (url_host (Users.clientsUrl (self s)))
                      (Segments (shorten (String.eqb (url_scheme (Users.clientsUrl (self s))) "file") csegs
                        ++ [d; "users"; u; "clients"])%list)
                     (Some (usp_serialize sp)) None) /\
    (exists r, sent (snd (Users.run (Users.CListUserChannels d u q token) E s)) = r :: sent s /\
       req_url r = mkUrl (url_scheme (Users.clientsUrl (self s))) (url_username (Users.clientsUrl (self s)))
                      (url_password (Users.clientsUrl (self s))) (url_host (Users.clientsUrl (self s)))
                      (Segments (shorten (String.eqb (url_scheme (Users.clientsUrl (self s))) "file") csegs
                        ++ [d; "users"; u; "channels"])%list)
                     (Some (usp_serialize sp)) None).
Proof.
  intros uu cu d u q token sp gsegs csegs E s Hc Hg Hcl Hd Hu Hne Hsp.
  destruct (Users_constructor_fields _ _ _ Hc) as (_ & He & _).
  destruct (Users_constructor_credentials _ _ _ Hc) as [Hfu Hfc].
  split; [|split];
    rewrite Users_run_plan, exec_plan_eq; unfold Users.plan_of;
    cbn -[url_parse string_params usp_serialize]; rewrite Hsp, He;
    cbn -[url_parse usp_serialize].
  - resolve false [d; "users"; u; "groups"] (Some (usp_serialize sp));
      [eexists; split; reflexivity|cbn [forallb]; rewrite Hd, Hu; reflexivity|exact Hne|
       apply usp_serialize_safe].
  - resolve false [d; "users"; u; "clients"] (Some (usp_serialize sp));
      [eexists; split; reflexivity|cbn [forallb]; rewrite Hd, Hu; reflexivity|exact Hne|
       apply usp_serialize_safe].
  - resolve false [d; "users"; u; "channels"] (Some (usp_serialize sp));
      [eexists; split; reflexivity|cbn [forallb]; rewrite Hd, Hu; reflexivity|exact Hne|
       apply usp_serialize_safe].
Qed.

(** Against a [usersUrl] with a hierarchical path, [Users] and
    [SearchUsers] send their one request to the path of [usersUrl], the path shortened as [new URL] does (its last segment dropped, a lone
    [file:] drive letter kept),
    followed by [users] and [users/search], with the scheme, credentials and
    host of [usersUrl], the serialised [stringParams] as query and no
    fragment. *)
Theorem users_search_request_urls :
  forall uu cu q token sp segs E s,
    Users.constructor uu cu = Ok (self s) ->
    url_path (Users.usersUrl (self s)) = Segments segs ->
    string_params q = Ok sp ->
    (exists r, sent (snd (Users.run (Users.CUsers q token) E s)) = r :: sent s /\
       req_url r = mkUrl (url_scheme (Users.usersUrl (self s))) (url_username (Users.usersUrl (self s)))
                      (url_password (Users.usersUrl (self s))) (url_host (Users.usersUrl (self s)))
                      (Segments (shorten (String.eqb (url_scheme (Users.usersUrl (self s))) "file") segs
                        ++ ["users"])%list)
                     (Some (usp_serialize sp)) None) /\
    (exists r, sent (snd (Users.run (Users.CSearchUsers q token) E s)) = r :: sent s /\
       req_url r = mkUrl (url_scheme (Users.usersUrl (self s))) (url_username (Users.usersUrl (self s)))
                      (url_password (Users.usersUrl (self s))) (url_host (Users.usersUrl (self s)))
                      (Segments (shorten (String.eqb (url_scheme (Users.usersUrl (self s))) "file") segs
                        ++ ["users"; "search"])%list)
                     (Some (usp_serialize sp)) None).
Proof.
  intros uu cu q token sp segs E s Hc Hb Hsp.
  destruct (Users_constructor_fields _ _ _ Hc) as (_ & He & Hse).
  destruct (Users_constructor_credentials _ _ _ Hc) as [Hfu Hfc].
  split;
    rewrite Users_run_plan, exec_plan_eq; unfold Users.plan_of;
    cbn -[url_parse string_params usp_serialize]; rewrite Hsp, He; rewrite ?Hse;
    cbn -[url_parse usp_serialize].
  - resolve false ["users"] (Some (usp_serialize sp));
      [eexists; split; reflexivity|reflexivity|discriminate|apply usp_serialize_safe].
  - resolve false ["users"; "search"] (Some (usp_serialize sp));
      [eexists; split; reflexivity|reflexivity|discriminate|apply usp_serialize_safe].
Qed.

(** Against a [usersUrl] with a hierarchical path, [Create],
    [CreateToken], [RefreshToken], [UserProfile], [UpdateUserPassword],
    [User] and [DeleteUser] (with a plain [userId]: [seg_safe]) send their
    one request to the path of [usersUrl], the path shortened as [new URL] does (its last segment dropped, a lone
    [file:] drive letter kept), followed by their fixed path,
    with the scheme, credentials and host of [usersUrl], no query and no
    fragment. *)
Theorem users_fixed_path_urls :
  forall uu cu segs E s user ctoken login rt o n token userId c comps,
    Users.constructor uu cu = Ok (self s) ->
    url_path (Users.usersUrl (self s)) = Segments segs ->
    seg_safe userId = true ->
    In (c, comps)
      [(Users.CCreate user ctoken, ["users"]);
       (Users.CCreateToken login, ["users"; "tokens"; "issue"]);
       (Users.CRefreshToken rt, ["users"; "tokens"; "refresh"]);
       (Users.CUserProfile token, ["users"; "profile"]);
       (Users.CUpdateUserPassword o n token, ["users"; "secret"]);
       (Users.CUser userId token, ["users"; userId]);
       (Users.CDeleteUser userId token, ["users"; userId])] ->
    exists r, sent (snd (Users.run c E s)) = r :: sent s /\
      req_url r = mkUrl (url_scheme (Users.usersUrl (self s))) (url_username (Users.usersUrl (self s)))
                      (url_password (Users.usersUrl (self s))) (url_host (Users.usersUrl (self s)))
                      (Segments (shorten (String.eqb (url_scheme (Users.usersUrl (self s))) "file") segs
                        ++ comps)%list) None None.
Proof.
  intros uu cu segs E s user ctoken login rt o n token userId c comps Hc Hb Hid Hin.
  destruct (Users_constructor_fields _ _ _ Hc) as (_ & He & _).
  destruct (Users_constructor_credentials _ _ _ Hc) as [Hfu Hfc].
  repeat (destruct Hin as [Hin|Hin]; [injection Hin as <- <-|]); [..|destruct Hin];
    rewrite Users_run_plan, exec_plan_eq; unfold Users.plan_of; rewrite He;
    cbn -[url_parse].
  - resolve false ["users"] (@None string); [eexists; split; reflexivity|reflexivity|discriminate|exact I].
  - resolve false ["users"; "tokens"; "issue"] (@None string); [eexists; split; reflexivity|reflexivity|discriminate|exact I].
  - resolve false ["users"; "tokens"; "refresh"] (@None string); [eexists; split; reflexivity|reflexivity|discriminate|exact I].
  - resolve false ["users"; "profile"] (@None string); [eexists; split; reflexivity|reflexivity|discriminate|exact I].
  - resolve false ["users"; "secret"] (@None string); [eexists; split; reflexivity|reflexivity|discriminate|exact I].
  - resolve false ["users"; userId] (@None string); [eexists; split; reflexivity|cbn [forallb]; rewrite Hid; reflexivity|discriminate|exact I].
  - resolve false ["users"; userId] (@None string); [eexists; split; reflexivity|cbn [forallb]; rewrite Hid; reflexivity|discriminate|exact I].
Qed.

Lemma get_prop_ok_any (v m : jsval) (k k' : string) :
  get_prop v k = Ok m -> exists m', get_prop v k' = Ok m'.
Proof. destruct v; cbn; intros H; try discriminate; eexists; reflexivity. Qed.

Lemma get_prop_opt_ok (v : jsval) (k : string) : exists m, get_prop_opt v k = Ok m.
Proof. destruct v; eexists; reflexivity. Qed.

(** Against a [usersUrl] with a hierarchical path, the methods addressed by
    [user.id] ([Update], [UpdateEmail], [UpdateUsername],
    [UpdateProfilePicture], [UpdateUserTags], [UpdateUserRole], [Disable],
    [Enable]) with a plain [String(user.id)] ([seg_safe]) send their one
    request to the path of [usersUrl], the path shortened as [new URL] does (its last segment dropped, a lone
    [file:] drive letter kept), followed by
    [users/String(user.id)/<suffix>], with the scheme, credentials and host
    of [usersUrl] and no query or fragment; a user without [id] is sent to
    [users/undefined/...]. *)
Theorem users_id_path_urls :
  forall uu cu segs E s user idv token c suf,
    Users.constructor uu cu = Ok (self s) ->
    url_path (Users.usersUrl (self s)) = Segments segs ->
    get_prop user "id" = Ok idv -> seg_safe (js_String idv) = true ->
    In (c, suf)
      [(Users.CUpdate user token, []);
       (Users.CUpdateEmail user token, ["email"]);
       (Users.CUpdateUsername user token, ["username"]);
       (Users.CUpdateProfilePicture user token, ["picture"]);
       (Users.CUpdateUserTags user token, ["tags"]);
       (Users.CUpdateUserRole user token, ["role"]);
       (Users.CDisable user token, ["disable"]);
       (Users.CEnable user token, ["enable"])] ->
    exists r, sent (snd (Users.run c E s)) = r :: sent s /\
      req_url r = mkUrl (url_scheme (Users.usersUrl (self s))) (url_username (Users.usersUrl (self s)))
                      (url_password (Users.usersUrl (self s))) (url_host (Users.usersUrl (self s)))
                      (Segments (shorten (String.eqb (url_scheme (Users.usersUrl (self s))) "file") segs
                        ++ "users" :: js_String idv :: suf)%list) None None.
Proof.
  intros uu cu segs E s user idv token c suf Hc Hb Hid Hs Hin.
  destruct (Users_constructor_fields _ _ _ Hc) as (_ & He & _).
  destruct (Users_constructor_credentials _ _ _ Hc) as [Hfu Hfc].
  destruct (get_prop_ok_any _ _ _ "email" Hid) as [em Hem].
  destruct (get_prop_ok_any _ _ _ "credentials" Hid) as [cr Hcr].
  destruct (get_prop_opt_ok cr "username") as [un Hun].
  destruct (get_prop_ok_any _ _ _ "profile_picture" Hid) as [pp Hpp].
  repeat (destruct Hin as [Hin|Hin]; [injection Hin as <- <-|]); [..|destruct Hin];
    rewrite Users_run_plan, exec_plan_eq; unfold Users.plan_of, Users.user_plan;
    cbn -[url_parse js_String get_prop get_prop_opt];
    rewrite ?Hem, ?Hcr, ?Hpp; cbn -[url_parse js_String get_prop get_prop_opt];
    rewrite ?Hun; cbn -[url_parse js_String get_prop get_prop_opt];
    rewrite Hid, He; cbn -[url_parse js_String].
  - resolve false ["users"; js_String idv] (@None string);
      [eexists; split; reflexivity|cbn [forallb]; rewrite Hs; reflexivity|discriminate|exact I].
  - resolve false ["users"; js_String idv; "email"] (@None string);
      [eexists; split; reflexivity|cbn [forallb]; rewrite Hs; reflexivity|discriminate|exact I].
  - resolve false ["users"; js_String idv; "username"] (@None string);
      [eexists; split; reflexivity|cbn [forallb]; rewrite Hs; reflexivity|discriminate|exact I].
  - resolve false ["users"; js_String idv; "picture"] (@None string);
      [eexists; split; reflexivity|cbn [forallb]; rewrite Hs; reflexivity|discriminate|exact I].
  - resolve false ["users"; js_String idv; "tags"] (@None string);
      [eexists; split; reflexivity|cbn [forallb]; rewrite Hs; reflexivity|discriminate|exact I].
  - resolve false ["users"; js_String idv; "role"] (@None string);
      [eexists; split; reflexivity|cbn [forallb]; rewrite Hs; reflexivity|discriminate|exact I].
  - resolve false ["users"; js_String idv; "disable"] (@None string);
      [eexists; split; reflexivity|cbn [forallb]; rewrite Hs; reflexivity|discriminate|exact I].
  - resolve false ["users"; js_String idv; "enable"] (@None string);
      [eexists; split; reflexivity|cbn [forallb]; rewrite Hs; reflexivity|discriminate|exact I].
Qed.

(** [ResetPasswordRequest] and [ResetPassword] use absolute paths: against a
    [usersUrl] with a hierarchical path, their request goes to
    [/password/reset-request] and [/password/reset] with the scheme,
    credentials and host of [usersUrl], no query and no fragment; the base
    path is dropped, but for the drive letter a [file:] base path starts
    with. *)
Theorem password_reset_urls_from_root :
  forall uu cu segs E s email hostUrl p cp token,
    Users.constructor uu cu = Ok (self s) ->
    url_path (Users.usersUrl (self s)) = Segments segs ->
    (exists r, sent (snd (Users.run (Users.CResetPasswordRequest email hostUrl) E s)) = r :: sent s /\
       req_url r = mkUrl (url_scheme (Users.usersUrl (self s))) (url_username (Users.usersUrl (self s)))
                      (url_password (Users.usersUrl (self s))) (url_host (Users.usersUrl (self s)))
                      (Segments ((if String.eqb (url_scheme (Users.usersUrl (self s))) "file" then base_drive (Users.usersUrl (self s)) else [])
                        ++ ["password"; "reset-request"])%list) None None) /\
    (exists r, sent (snd (Users.run (Users.CResetPassword p cp token) E s)) = r :: sent s /\
       req_url r = mkUrl (url_scheme (Users.usersUrl (self s))) (url_username (Users.usersUrl (self s)))
                      (url_password (Users.usersUrl (self s))) (url_host (Users.usersUrl (self s)))
                      (Segments ((if String.eqb (url_scheme (Users.usersUrl (self s))) "file" then base_drive (Users.usersUrl (self s)) else [])
                        ++ ["password"; "reset"])%list) None None).
Proof.
  intros uu cu segs E s email hostUrl p cp token Hc Hb.
  destruct (Users_constructor_credentials _ _ _ Hc) as [Hfu Hfc].
  split; rewrite Users_run_plan, exec_plan_eq; cbn -[url_parse].
  - resolve true ["password"; "reset-request"] (@None string);
      [eexists; split; reflexivity|reflexivity|discriminate|exact I].
  - resolve true ["password"; "reset"] (@None string);
      [eexists; split; reflexivity|reflexivity|discriminate|exact I].
Qed.

(** With an empty [domainId] and plain [entityType] and [entityId]
    ([seg_safe]), the path of [Journal.Journal] starts with '/', so against a
    [journalsUrl] with a hierarchical path the request goes to
    [/journal/entityType/entityId] with the scheme, credentials and host of
    [journalsUrl], the serialised [stringParams] as query and no fragment;
    the base path is dropped, but for the drive letter a [file:] base path
    starts with. *)
Theorem journal_empty_domain_from_root :
  forall ju ty id q token sp segs E s,
    Journal.constructor ju = Ok (self s) ->
    url_path (Journal.journalsUrl (self s)) = Segments segs ->
    seg_safe ty = true -> seg_safe id = true ->
    string_params q = Ok sp ->
    exists r, sent (snd (Journal.run (Journal.CJournal ty id "" q token) E s)) = r :: sent s /\
      req_url r = mkUrl (url_scheme (Journal.journalsUrl (self s))) (url_username (Journal.journalsUrl (self s)))
                      (url_password (Journal.journalsUrl (self s))) (url_host (Journal.journalsUrl (self s)))
                      (Segments ((if String.eqb (url_scheme (Journal.journalsUrl (self s))) "file" then base_drive (Journal.journalsUrl (self s)) else [])
                        ++ ["journal"; ty; id])%list) (Some (usp_serialize sp)) None.
Proof.
  intros ju ty id q token sp segs E s Hc Hb Hty Hid Hsp.
  destruct (Journal_constructor_fields _ _ Hc) as [He _].
  pose proof (Journal_constructor_credentials _ _ Hc) as Hf.
  rewrite Journal_run_plan, exec_plan_eq; unfold Journal.plan_of.
  cbn -[url_parse string_params usp_serialize]; rewrite Hsp, He.
  cbn -[url_parse usp_serialize].
  resolve true ["journal"; ty; id] (Some (usp_serialize sp));
    [eexists; split; reflexivity|cbn [forallb]; rewrite Hty, Hid; reflexivity|discriminate|
     apply usp_serialize_safe].
Qed.

(** With an empty [domainId] and a plain [userId] ([seg_safe]), the list
    methods' paths start with '/', so against bases with hierarchical paths
    their requests go to [/users/userId/<groups|clients|channels>] with the
    base's scheme, credentials and host, the serialised [stringParams] as
    query and no fragment; the base path is dropped, but for the drive
    letter a [file:] base path starts with. *)
Theorem users_list_empty_domain_from_root :
  forall uu cu u q token sp gsegs csegs E s,
    Users.constructor uu cu = Ok (self s) ->
    url_path (Users.usersUrl (self s)) = Segments gsegs ->
    url_path (Users.clientsUrl (self s)) = Segments csegs ->
    seg_safe u = true ->
    string_params q = Ok sp ->
    (exists r, sent (snd (Users.run (Users.CListUserGroups "" u q token) E s)) = r :: sent s /\
       req_url r = mkUrl (url_scheme (Users.usersUrl (self s))) (url_username (Users.usersUrl (self s)))
                      (url_password (Users.usersUrl (self s))) (url_host (Users.usersUrl (self s)))
                      (Segments ((if String.eqb (url_scheme (Users.usersUrl (self s))) "file" then base_drive (Users.usersUrl (self s)) else [])
                        ++ ["users"; u; "groups"])%list) (Some (usp_serialize sp)) None) /\
    (exists r, sent (snd (Users.run (Users.CListUserClients u "" q token) E s)) = r :: sent s /\
       req_url r = mkUrl (url_scheme (Users.clientsUrl (self s))) (url_username (Users.clientsUrl (self s)))
                      (url_password (Users.clientsUrl (self s))) (url_host (Users.clientsUrl (self s)))
                      (Segments ((if String.eqb (url_scheme (Users.clientsUrl (self s))) "file" then base_drive (Users.clientsUrl (self s)) else [])
                        ++ ["users"; u; "clients"])%list) (Some (usp_serialize sp)) None) /\
    (exists r, sent (snd (Users.run (Users.CListUserChannels "" u q token) E s)) = r :: sent s /\
       req_url r = mkUrl (url_scheme (Users.clientsUrl (self s))) (url_username (Users.clientsUrl (self s)))
                      (url_password (Users.clientsUrl (self s))) (url_host (Users.clientsUrl (self s)))
                      (Segments ((if String.eqb (url_scheme (Users.clientsUrl (self s))) "file" then base_drive (Users.clientsUrl (self s)) else [])
                        ++ ["users"; u; "channels"])%list) (Some (usp_serialize sp)) None).
Proof.
  intros uu cu u q token sp gsegs csegs E s Hc Hg Hcl Hu Hsp.
  destruct (Users_constructor_fields _ _ _ Hc) as (_ & He & _).
  destruct (Users_constructor_credentials _ _ _ Hc) as [Hfu Hfc].
  split; [|split];
    rewrite Users_run_plan, exec_plan_eq; unfold Users.plan_of;
    cbn -[url_parse string_params usp_serialize]; rewrite Hsp, He;
    cbn -[url_parse usp_serialize].
  - resolve true ["users"; u; "groups"] (Some (usp_serialize sp));
      [eexists; split; reflexivity|cbn [forallb]; rewrite Hu; reflexivity|discriminate|
       apply usp_serialize_safe].
  - resolve true ["users"; u; "clients"] (Some (usp_serialize sp));
      [eexists; split; reflexivity|cbn [forallb]; rewrite Hu; reflexivity|discriminate|
       apply usp_serialize_safe].
  - resolve true ["users"; u; "channels"] (Some (usp_serialize sp));
      [eexists; split; reflexivity|cbn [forallb]; rewrite Hu; reflexivity|discriminate|
       apply usp_serialize_safe].
Qed.

(** When [usersUrl] and [clientsUrl] have opaque paths (e.g. [mailto:...]),
    and the [domainId] of the list methods has no ':', '#', '?', space or C0
    control ([inert_char]), no method of Users sends anything: each fails
    with the error of reading its arguments, or else with TypeError
    [Invalid URL], and the state is left as it was. *)
Theorem users_opaque_base_sends_nothing :
  forall uu cu ou oc c E s,
    Users.constructor uu cu = Ok (self s) ->
    url_path (Users.usersUrl (self s)) = Opaque ou ->
    url_path (Users.clientsUrl (self s)) = Opaque oc ->
    (forall d u q token,
       In c [Users.CListUserGroups d u q token; Users.CListUserClients u d q token;
             Users.CListUserChannels d u q token] ->
       forallb inert_char (list_ascii_of_string d) = true) ->
    Users.run c E s =
      (match Users.plan_of (self s) c with
       | Err e => Err e
       | Ok _ => Err (TypeError "Invalid URL")
       end, s).
Proof.
  intros uu cu ou oc c E s Hc Hou Hoc Hd.
  destruct (Users_constructor_fields _ _ _ Hc) as (_ & He & Hse).
  rewrite Users_run_plan, exec_plan_eq.
  destruct (Users.plan_of (self s) c) as [pl|e] eqn:Hp; [|reflexivity].
  enough (Hn : url_parse (p_input pl) (Some (p_base pl)) = None) by (rewrite Hn; reflexivity).
  destruct c; unfold Users.plan_of, Users.user_plan in Hp; invert_plan Hp;
    cbn [p_input p_base]; rewrite ?He, ?Hse.
  all: let opaque_input a :=
      eapply (url_parse_opaque_base _ a);
        [rewrite ?list_ascii_app; cbn -[usp_serialize js_String]; reflexivity
        |first [reflexivity | assumption]
        |first [left; split; [reflexivity|discriminate]
               | right; eexists; first [left; reflexivity | right; reflexivity]]
        |eassumption] in
    first
    [ opaque_input (list_ascii_of_string "users")
    | opaque_input (@nil ascii)
    | match goal with
      | |- url_parse (?d ++ _) _ = None =>
          assert (forallb inert_char (list_ascii_of_string d) = true)
            by (eapply (Hd d); cbn;
                first [left; reflexivity | right; left; reflexivity
                      | right; right; left; reflexivity]);
          opaque_input (list_ascii_of_string d)
      end ].
Qed.

(** When [journalsUrl] has an opaque path and [domainId] has no ':', '#',
    '?', space or C0 control ([inert_char]), [Journal.Journal] sends
    nothing: it fails with the error of [stringParams] or TypeError
    [Invalid URL]. *)
Theorem journal_opaque_base_sends_nothing :
  forall ju o ty id d q token E s,
    Journal.constructor ju = Ok (self s) ->
    url_path (Journal.journalsUrl (self s)) = Opaque o ->
    forallb inert_char (list_ascii_of_string d) = true ->
    Journal.run (Journal.CJournal ty id d q token) E s =
      (match string_params q with
       | Err e => Err e
       | Ok _ => Err (TypeError "Invalid URL")
       end, s).
Proof.
  intros ju o ty id d q token E s Hc Ho Hd.
  destruct (Journal_constructor_fields _ _ Hc) as [He _].
  rewrite Journal_run_plan, exec_plan_eq; unfold Journal.plan_of.
  cbn -[url_parse string_params usp_serialize].
  destruct (string_params q) as [sp|e]; [|reflexivity]; cbn -[url_parse usp_serialize].
  rewrite He.
  match goal with
  | |- context [url_parse ?i ?b] =>
      enough (Hn : url_parse i b = None) by (rewrite Hn; reflexivity)
  end.
  eapply (url_parse_opaque_base _ (list_ascii_of_string d));
    [rewrite ?list_ascii_app; cbn -[usp_serialize js_String]; reflexivity
    |exact Hd
    |right; eexists; left; reflexivity
    |exact Ho].
Qed.

(** The methods that read [user] properties throw a TypeError for a [null]
    or [undefined] user, before any request and without changing the
    state. *)
Theorem users_nullish_user_rejected :
  forall user token c E s,
    (user = JNull \/ user = JUndefined) ->
    In c [Users.CUpdate user token; Users.CUpdateEmail user token; Users.CUpdateUsername user token;
          Users.CUpdateProfilePicture user token; Users.CUpdateUserTags user token;
          Users.CUpdateUserRole user token; Users.CDisable user token; Users.CEnable user token] ->
    exists msg, Users.run c E s = (Err (TypeError msg), s).
Proof.
  intros user token c E s Hu Hin.
  repeat (destruct Hin as [Hin|Hin]; [subst c|]); [..|destruct Hin];
    rewrite Users_run_plan, exec_plan_eq;
    destruct Hu as [->| ->]; eexists; reflexivity.
Qed.

(** Every method taking [queryParams] throws the TypeError of
    [Object.entries] for [null] or [undefined] query parameters, and sends
    nothing. *)
Theorem query_nullish_rejected :
  (forall q token d u c E s,
     (q = JNull \/ q = JUndefined) ->
     In c [Users.CUsers q token; Users.CSearchUsers q token; Users.CListUserGroups d u q token;
           Users.CListUserClients u d q token; Users.CListUserChannels d u q token] ->
     Users.run c E s = (Err (TypeError "Cannot convert undefined or null to object"), s)) /\
  (forall ty id d q token E s,
     (q = JNull \/ q = JUndefined) ->
     Journal.run (Journal.CJournal ty id d q token) E s =
       (Err (TypeError "Cannot convert undefined or null to object"), s)).
Proof.
  split.
  - intros q token d u c E s Hq Hin.
    repeat (destruct Hin as [Hin|Hin]; [subst c|]); [..|destruct Hin];
      rewrite Users_run_plan, exec_plan_eq; destruct Hq as [->| ->]; reflexivity.
  - intros ty id d q token E s Hq.
    rewrite Journal_run_plan, exec_plan_eq; destruct Hq as [->| ->]; reflexivity.
Qed.




(** A non-success response whose JSON body is [null] makes every method
    throw the TypeError of reading [errorRes.message], not the handled
    error. *)
Theorem null_error_body_type_error :
  (forall c E s r resp,
     sent (snd (Users.run c E s)) = r :: sent s ->
     net E (sent s) r = Ok resp -> response_ok resp = false -> json_result resp = Ok JNull ->
     fst (Users.run c E s) = Err (TypeError "Cannot read properties of null (reading 'message')")) /\
  (forall c E s r resp,
     sent (snd (Journal.run c E s)) = r :: sent s ->
     net E (sent s) r = Ok resp -> response_ok resp = false -> json_result resp = Ok JNull ->
     fst (Journal.run c E s) = Err (TypeError "Cannot read properties of null (reading 'message')")).
Proof.
  split; intros c E s r resp Hs Hn Hok Hj.
  - destruct (Users_fetched c E s r Hs) as (pl & _ & _ & _ & ->).
    rewrite Hn; unfold settle; rewrite Hok, Hj; reflexivity.
  - destruct (Journal_fetched c E s r Hs) as (pl & _ & _ & _ & ->).
    rewrite Hn; unfold settle; rewrite Hok, Hj; reflexivity.
Qed.

(** The partial updates send only their own field: [UpdateEmail] the body
    [{email: user.email}], [UpdateUsername] [{username:
    user.credentials?.username}] (undefined when [credentials] is missing),
    [UpdateProfilePicture] [{profile_picture: user.profile_picture}] and
    [UpdateUserPassword] [{old_secret, new_secret}], all with PATCH and the
    Content-Type and Authorization headers. *)
Theorem update_request_bodies :
  forall user o n token E s r,
    (sent (snd (Users.run (Users.CUpdateEmail user token) E s)) = r :: sent s ->
     exists em, get_prop user "email" = Ok em /\
       req_init r = mkInit "PATCH" (Users.auth_headers (self s) token) (Some (JObj [("email", em)]))) /\
    (sent (snd (Users.run (Users.CUpdateUsername user token) E s)) = r :: sent s ->
     exists cr un, get_prop user "credentials" = Ok cr /\ get_prop_opt cr "username" = Ok un /\
       req_init r = mkInit "PATCH" (Users.auth_headers (self s) token) (Some (JObj [("username", un)]))) /\
    (sent (snd (Users.run (Users.CUpdateProfilePicture user token) E s)) = r :: sent s ->
     exists pp, get_prop user "profile_picture" = Ok pp /\
       req_init r = mkInit "PATCH" (Users.auth_headers (self s) token)
                      (Some (JObj [("profile_picture", pp)]))) /\
    (sent (snd (Users.run (Users.CUpdateUserPassword o n token) E s)) = r :: sent s ->
     req_init r = mkInit "PATCH" (Users.auth_headers (self s) token)
                    (Some (JObj [("old_secret", JStr o); ("new_secret", JStr n)]))).
Proof.
  intros user o n token E s r.
  split; [|split; [|split]]; intros Hs;
    destruct (Users_fetched _ E s r Hs) as (pl & Hp & _ & Hi & _); rewrite Hi;
    cbn -[get_prop get_prop_opt] in Hp.
  - destruct (get_prop user "email") as [em|] eqn:H1; [|discriminate].
    destruct (get_prop user "id"); [|discriminate]; injection Hp as <-.
    exists em; split; reflexivity.
  - destruct (get_prop user "credentials") as [cr|] eqn:H1; [|discriminate].
    cbn -[get_prop get_prop_opt] in Hp.
    destruct (get_prop_opt cr "username") as [un|] eqn:H2; [|discriminate].
    destruct (get_prop user "id"); [|discriminate]; injection Hp as <-.
    exists cr, un; split; [reflexivity|split; [exact H2|reflexivity]].
  - destruct (get_prop user "profile_picture") as [pp|] eqn:H1; [|discriminate].
    destruct (get_prop user "id"); [|discriminate]; injection Hp as <-.
    exists pp; split; reflexivity.
  - injection Hp as <-; reflexivity.
Qed.

(** [Update], [UpdateUserTags] and [UpdateUserRole] (PATCH) and [Disable]
    and [Enable] (POST) send the whole [user] object as body. *)
Theorem whole_user_body :
  forall user token c meth E s r,
    In (c, meth) [(Users.CUpdate user token, "PATCH"); (Users.CUpdateUserTags user token, "PATCH");
                  (Users.CUpdateUserRole user token, "PATCH"); (Users.CDisable user token, "POST");
                  (Users.CEnable user token, "POST")] ->
    sent (snd (Users.run c E s)) = r :: sent s ->
    req_init r = mkInit meth (Users.auth_headers (self s) token) (Some user).
Proof.
  intros user token c meth E s r Hin Hs.
  destruct (Users_fetched _ E s r Hs) as (pl & Hp & _ & Hi & _); rewrite Hi.
  repeat (destruct Hin as [Hin|Hin]; [injection Hin as <- <-|]); [..|destruct Hin];
    unfold Users.plan_of, Users.user_plan in Hp; cbn -[get_prop] in Hp;
    (destruct (get_prop user "id"); [|discriminate]); injection Hp as <-; reflexivity.
Qed.

Lemma run_all_log {S C} (run : C -> M S jsval) :
  (forall c E s, sent (snd (run c E s)) = sent s \/
                 exists r, sent (snd (run c E s)) = r :: sent s) ->
  forall cs E s, exists fresh, sent (run_all run cs E s) = (fresh ++ sent s)%list /\
                               length fresh <= length cs.
Proof.
  intros Hrun cs; induction cs as [|c cs IH]; intros E s; [exists []; split; reflexivity|].
  cbn; destruct (IH E (snd (run c E s))) as (fresh & Hf & Hl).
  destruct (Hrun c E s) as [Hs|[r Hs]]; rewrite Hs in Hf.
  - exists fresh; split; [exact Hf|cbn; lia].
  - exists (fresh ++ [r])%list; split; [rewrite <- app_assoc; exact Hf|].
    rewrite length_app; cbn; lia.
Qed.

Lemma Users_run_sent (c : Users.call) (E : env) (s : state Users.t) :
  sent (snd (Users.run c E s)) = sent s \/ exists r, sent (snd (Users.run c E s)) = r :: sent s.
Proof.
  rewrite Users_run_plan; destruct (exec_plan_sent (Users.plan_of (self s) c) E s)
    as [H|(pl & u & _ & _ & H)]; [left|right; eexists]; exact H.
Qed.

Lemma Journal_run_sent (c : Journal.call) (E : env) (s : state Journal.t) :
  sent (snd (Journal.run c E s)) = sent s \/ exists r, sent (snd (Journal.run c E s)) = r :: sent s.
Proof.
  rewrite Journal_run_plan; destruct (exec_plan_sent (Journal.plan_of (self s) c) E s)
    as [H|(pl & u & _ & _ & H)]; [left|right; eexists]; exact H.
Qed.

(** Running a sequence of calls on one client keeps the earlier request log
    and adds at most one request per call. *)
Theorem request_log_grows_by_at_most_one_per_call :
  (forall cs E s, exists fresh,
     sent (run_all Users.run cs E s) = (fresh ++ sent s)%list /\ length fresh <= length cs) /\
  (forall cs E s, exists fresh,
     sent (run_all Journal.run cs E s) = (fresh ++ sent s)%list /\ length fresh <= length cs).
Proof. split; apply run_all_log; [apply Users_run_sent|apply Journal_run_sent]. Qed.

Lemma journal_request_url_witness :
  Journal.constructor "http://localhost:9021/" = Ok demo_journal /\
  url_path (Journal.journalsUrl demo_journal) = Segments [""] /\
  seg_safe "d1" = true /\ seg_safe "things" = true /\ seg_safe "t1" = true /\ "d1" <> "" /\
  string_params (JObj [("limit", JNum 10)]) = Ok [("limit", "10")] /\
  exists r, sent (snd (Journal.run (Journal.CJournal "things" "t1" "d1" (JObj [("limit", JNum 10)]) "tok")
                        c3_env (mkState demo_journal []))) = [r] /\
    method (req_init r) = "GET" /\
    req_url r = mkUrl "http" "" "" (Some "localhost:9021") (Segments ["d1"; "journal"; "things"; "t1"])
                  (Some "limit=10") None.
Proof.
  assert (Hc : Journal.constructor "http://localhost:9021/" = Ok demo_journal) by (vm_compute; reflexivity).
  assert (Hb : url_path (Journal.journalsUrl demo_journal) = Segments [""]) by (vm_compute; reflexivity).
  assert (Hd : seg_safe "d1" = true) by reflexivity.
  assert (Hty : seg_safe "things" = true) by reflexivity.
  assert (Hid : seg_safe "t1" = true) by reflexivity.
  assert (Hne : "d1" <> "") by discriminate.
  assert (Hsp : string_params (JObj [("limit", JNum 10)]) = Ok [("limit", "10")]) by (vm_compute; reflexivity).
  do 7 (split; [assumption|]).
  exact (journal_request_url _ "things" "t1" "d1" _ "tok" _ _ c3_env (mkState demo_journal [])
           Hc Hb Hd Hty Hid Hne Hsp).
Defined.

Lemma users_list_request_urls_witness :
  Users.constructor "http://localhost:9002/" (Some "http://localhost:9006/") = Ok demo_users /\
  url_path (Users.usersUrl demo_users) = Segments [""] /\
  url_path (Users.clientsUrl demo_users) = Segments [""] /\
  seg_safe "d1" = true /\ seg_safe "u1" = true /\ "d1" <> "" /\
  string_params (JObj [("limit", JNum 10)]) = Ok [("limit", "10")] /\
  exists r, sent (snd (Users.run (Users.CListUserGroups "d1" "u1" (JObj [("limit", JNum 10)]) "tok")
                        c3_env (mkState demo_users []))) = [r] /\
    req_url r = mkUrl "http" "" "" (Some "localhost:9002") (Segments ["d1"; "users"; "u1"; "groups"])
                  (Some "limit=10") None.
Proof.
  assert (Hc : Users.constructor "http://localhost:9002/" (Some "http://localhost:9006/") = Ok demo_users)
    by (vm_compute; reflexivity).
  assert (Hg : url_path (Users.usersUrl demo_users) = Segments [""]) by (vm_compute; reflexivity).
  assert (Hcl : url_path (Users.clientsUrl demo_users) = Segments [""]) by (vm_compute; reflexivity).
  assert (Hd : seg_safe "d1" = true) by reflexivity.
  assert (Hu : seg_safe "u1" = true) by reflexivity.
  assert (Hne : "d1" <> "") by discriminate.
  assert (Hsp : string_params (JObj [("limit", JNum 10)]) = Ok [("limit", "10")]) by (vm_compute; reflexivity).
  do 7 (split; [assumption|]).
  exact (proj1 (users_list_request_urls _ _ "d1" "u1" _ "tok" _ _ _ c3_env (mkState demo_users [])
                  Hc Hg Hcl Hd Hu Hne Hsp)).
Defined.

Lemma users_search_request_urls_witness :
  Users.constructor "http://localhost:9002/" (Some "http://localhost:9006/") = Ok demo_users /\
  url_path (Users.usersUrl demo_users) = Segments [""] /\
  string_params (JObj [("status", JStr "enabled")]) = Ok [("status", "enabled")] /\
  exists r, sent (snd (Users.run (Users.CSearchUsers (JObj [("status", JStr "enabled")]) "tok")
                        c3_env (mkState demo_users []))) = [r] /\
    req_url r = mkUrl "http" "" "" (Some "localhost:9002") (Segments ["users"; "search"])
                  (Some "status=enabled") None.
Proof.
  assert (Hc : Users.constructor "http://localhost:9002/" (Some "http://localhost:9006/") = Ok demo_users)
    by (vm_compute; reflexivity).
  assert (Hb : url_path (Users.usersUrl demo_users) = Segments [""]) by (vm_compute; reflexivity).
  assert (Hsp : string_params (JObj [("status", JStr "enabled")]) = Ok [("status", "enabled")])
    by (vm_compute; reflexivity).
  do 3 (split; [assumption|]).
  exact (proj2 (users_search_request_urls _ _ _ "tok" _ _ c3_env (mkState demo_users []) Hc Hb Hsp)).
Defined.

Lemma users_fixed_path_urls_witness :
  Users.constructor "http://localhost/users-api/" (Some "http://localhost/clients-api/")
    = Ok same_host_users /\
  url_path (Users.usersUrl same_host_users) = Segments ["users-api"; ""] /\
  seg_safe "886b4266" = true /\
  exists r, sent (snd (Users.run (Users.CDeleteUser "886b4266" "tok") c3_env
                        (mkState same_host_users []))) = [r] /\
    req_url r = mkUrl "http" "" "" (Some "localhost") (Segments ["users-api"; "users"; "886b4266"])
                  None None.
Proof.
  assert (Hc : Users.constructor "http://localhost/users-api/" (Some "http://localhost/clients-api/")
               = Ok same_host_users) by (vm_compute; reflexivity).
  assert (Hb : url_path (Users.usersUrl same_host_users) = Segments ["users-api"; ""])
    by (vm_compute; reflexivity).
  assert (Hid : seg_safe "886b4266" = true) by reflexivity.
  do 3 (split; [assumption|]).
  refine (users_fixed_path_urls _ _ _ c3_env (mkState same_host_users []) demo_user None demo_login
            "rt" "old" "new" "tok" "886b4266" _ _ Hc Hb Hid _).
  cbn; do 6 right; left; reflexivity.
Defined.

Lemma users_id_path_urls_witness :
  Users.constructor "http://localhost:9002/" (Some "http://localhost:9006/") = Ok demo_users /\
  url_path (Users.usersUrl demo_users) = Segments [""] /\
  get_prop (JObj [("email", JStr "admin@example.com")]) "id" = Ok JUndefined /\
  seg_safe (js_String JUndefined) = true /\
  exists r, sent (snd (Users.run (Users.CUpdateEmail (JObj [("email", JStr "admin@example.com")]) "tok")
                        c3_env (mkState demo_users []))) = [r] /\
    req_url r = mkUrl "http" "" "" (Some "localhost:9002") (Segments ["users"; "undefined"; "email"])
                  None None.
Proof.
  assert (Hc : Users.constructor "http://localhost:9002/" (Some "http://localhost:9006/") = Ok demo_users)
    by (vm_compute; reflexivity).
  assert (Hb : url_path (Users.usersUrl demo_users) = Segments [""]) by (vm_compute; reflexivity).
  assert (Hid : get_prop (JObj [("email", JStr "admin@example.com")]) "id" = Ok JUndefined)
    by reflexivity.
  assert (Hs : seg_safe (js_String JUndefined) = true) by reflexivity.
  do 4 (split; [assumption|]).
  refine (users_id_path_urls _ _ _ c3_env (mkState demo_users []) _ _ "tok" _ ["email"]
            Hc Hb Hid Hs _).
  cbn; do 1 right; left; reflexivity.
Defined.

Lemma password_reset_urls_from_root_witness :
  Users.constructor "http://localhost/users-api/" (Some "http://localhost/clients-api/")
    = Ok same_host_users /\
  url_path (Users.usersUrl same_host_users) = Segments ["users-api"; ""] /\
  exists r, sent (snd (Users.run (Users.CResetPassword "pw" "pw" "reset-token") c3_env
                        (mkState same_host_users []))) = [r] /\
    req_url r = mkUrl "http" "" "" (Some "localhost") (Segments ["password"; "reset"]) None None.
Proof.
  assert (Hc : Users.constructor "http://localhost/users-api/" (Some "http://localhost/clients-api/")
               = Ok same_host_users) by (vm_compute; reflexivity).
  assert (Hb : url_path (Users.usersUrl same_host_users) = Segments ["users-api"; ""])
    by (vm_compute; reflexivity).
  split; [exact Hc|split; [exact Hb|]].
  exact (proj2 (password_reset_urls_from_root _ _ _ c3_env (mkState same_host_users []) "" ""
                  "pw" "pw" "reset-token" Hc Hb)).
Defined.

Lemma journal_empty_domain_from_root_witness :
  Journal.constructor "http://localhost:9021/" = Ok demo_journal /\
  url_path (Journal.journalsUrl demo_journal) = Segments [""] /\
  seg_safe "things" = true /\ seg_safe "t1" = true /\
  string_params (JObj []) = Ok [] /\
  exists r, sent (snd (Journal.run (Journal.CJournal "things" "t1" "" (JObj []) "tok")
                        c3_env (mkState demo_journal []))) = [r] /\
    req_url r = mkUrl "http" "" "" (Some "localhost:9021") (Segments ["journal"; "things"; "t1"])
                  (Some "") None.
Proof.
  assert (Hc : Journal.constructor "http://localhost:9021/" = Ok demo_journal) by (vm_compute; reflexivity).
  assert (Hb : url_path (Journal.journalsUrl demo_journal) = Segments [""]) by (vm_compute; reflexivity).
  assert (Hty : seg_safe "things" = true) by reflexivity.
  assert (Hid : seg_safe "t1" = true) by reflexivity.
  assert (Hsp : string_params (JObj []) = Ok []) by reflexivity.
  do 5 (split; [assumption|]).
  exact (journal_empty_domain_from_root _ "things" "t1" _ "tok" _ _ c3_env (mkState demo_journal [])
           Hc Hb Hty Hid Hsp).
Defined.

Lemma users_list_empty_domain_from_root_witness :
  Users.constructor "http://localhost/users-api/" (Some "http://localhost/clients-api/")
    = Ok same_host_users /\
  url_path (Users.usersUrl same_host_users) = Segments ["users-api"; ""] /\
  url_path (Users.clientsUrl same_host_users) = Segments ["clients-api"; ""] /\
  seg_safe "u1" = true /\
  string_params (JObj []) = Ok [] /\
  exists r, sent (snd (Users.run (Users.CListUserClients "u1" "" (JObj []) "tok")
                        c3_env (mkState same_host_users []))) = [r] /\
    req_url r = mkUrl "http" "" "" (Some "localhost") (Segments ["users"; "u1"; "clients"])
                  (Some "") None.
Proof.
  assert (Hc : Users.constructor "http://localhost/users-api/" (Some "http://localhost/clients-api/")
               = Ok same_host_users) by (vm_compute; reflexivity).
  assert (Hg : url_path (Users.usersUrl same_host_users) = Segments ["users-api"; ""])
    by (vm_compute; reflexivity).
  assert (Hcl : url_path (Users.clientsUrl same_host_users) = Segments ["clients-api"; ""])
    by (vm_compute; reflexivity).
  assert (Hu : seg_safe "u1" = true) by reflexivity.
  assert (Hsp : string_params (JObj []) = Ok []) by reflexivity.
  do 5 (split; [assumption|]).
  exact (proj1 (proj2 (users_list_empty_domain_from_root _ _ "u1" _ "tok" _ _ _ c3_env
                         (mkState same_host_users []) Hc Hg Hcl Hu Hsp))).
Defined.

Lemma users_opaque_base_sends_nothing_witness :
  Users.constructor "mailto:admin@example.com" (Some "mailto:clients@example.com")
    = Ok mailto_users /\
  url_path (Users.usersUrl mailto_users) = Opaque "admin@example.com" /\
  url_path (Users.clientsUrl mailto_users) = Opaque "clients@example.com" /\
  Users.run (Users.CListUserChannels "d1" "u1" (JObj []) "tok") c3_env (mkState mailto_users [])
    = (Err (TypeError "Invalid URL"), mkState mailto_users []).
Proof.
  assert (Hc : Users.constructor "mailto:admin@example.com" (Some "mailto:clients@example.com")
               = Ok mailto_users) by (vm_compute; reflexivity).
  assert (Hu : url_path (Users.usersUrl mailto_users) = Opaque "admin@example.com")
    by (vm_compute; reflexivity).
  assert (Hcl : url_path (Users.clientsUrl mailto_users) = Opaque "clients@example.com")
    by (vm_compute; reflexivity).
  do 3 (split; [assumption|]).
  refine (users_opaque_base_sends_nothing _ _ _ _ _ c3_env (mkState mailto_users []) Hc Hu Hcl _).
  intros d u q token Hin; cbn in Hin.
  destruct Hin as [H|[H|[H|[]]]]; inversion H; reflexivity.
Defined.

Lemma journal_opaque_base_sends_nothing_witness :
  Journal.constructor "mailto:journal@example.com"
    = Ok (Journal.mk (mkUrl "mailto" "" "" None (Opaque "journal@example.com") None None)
            "journal" "application/json") /\
  forallb inert_char (list_ascii_of_string "d1") = true /\
  Journal.run (Journal.CJournal "things" "t1" "d1" (JObj []) "tok") c3_env
    (mkState (Journal.mk (mkUrl "mailto" "" "" None (Opaque "journal@example.com") None None)
                "journal" "application/json") [])
    = (Err (TypeError "Invalid URL"),
       mkState (Journal.mk (mkUrl "mailto" "" "" None (Opaque "journal@example.com") None None)
                  "journal" "application/json") []).
Proof.
  assert (Hc : Journal.constructor "mailto:journal@example.com"
               = Ok (Journal.mk (mkUrl "mailto" "" "" None (Opaque "journal@example.com") None None)
                       "journal" "application/json")) by (vm_compute; reflexivity).
  assert (Hd : forallb inert_char (list_ascii_of_string "d1") = true) by reflexivity.
  do 2 (split; [assumption|]).
  exact (journal_opaque_base_sends_nothing _ _ "things" "t1" _ _ "tok" c3_env
           (mkState (Journal.mk (mkUrl "mailto" "" "" None (Opaque "journal@example.com") None None)
                       "journal" "application/json") []) Hc eq_refl Hd).
Defined.

Lemma users_nullish_user_rejected_witness :
  exists msg, Users.run (Users.CUpdateEmail JNull "tok") c3_env (mkState demo_users [])
              = (Err (TypeError msg), mkState demo_users []).
Proof.
  refine (users_nullish_user_rejected JNull "tok" _ c3_env (mkState demo_users []) (or_introl eq_refl) _).
  cbn; right; left; reflexivity.
Defined.

Lemma query_nullish_rejected_witness :
  Users.run (Users.CSearchUsers JUndefined "tok") c3_env (mkState demo_users [])
    = (Err (TypeError "Cannot convert undefined or null to object"), mkState demo_users []) /\
  Journal.run (Journal.CJournal "things" "t1" "d1" JNull "tok") c3_env (mkState demo_journal [])
    = (Err (TypeError "Cannot convert undefined or null to object"), mkState demo_journal []).
Proof.
  split.
  - refine (proj1 query_nullish_rejected JUndefined "tok" "" "" _ c3_env (mkState demo_users [])
              (or_intror eq_refl) _).
    cbn; right; left; reflexivity.
  - exact (proj2 query_nullish_rejected "things" "t1" "d1" JNull "tok" c3_env
             (mkState demo_journal []) (or_introl eq_refl)).
Defined.


Lemma null_error_body_type_error_witness :
  sent (snd (Users.run (Users.CUserProfile "tok") (demo_env (Ok (mkResponse 500 (Ok JNull))))
               (mkState demo_users [])))
    = [last_request (snd (Users.run (Users.CUserProfile "tok")
                            (demo_env (Ok (mkResponse 500 (Ok JNull)))) (mkState demo_users [])))] /\
  net (demo_env (Ok (mkResponse 500 (Ok JNull)))) []
      (last_request (snd (Users.run (Users.CUserProfile "tok")
                            (demo_env (Ok (mkResponse 500 (Ok JNull)))) (mkState demo_users []))))
    = Ok (mkResponse 500 (Ok JNull)) /\
  response_ok (mkResponse 500 (Ok JNull)) = false /\
  json_result (mkResponse 500 (Ok JNull)) = Ok JNull /\
  fst (Users.run (Users.CUserProfile "tok") (demo_env (Ok (mkResponse 500 (Ok JNull))))
         (mkState demo_users []))
    = Err (TypeError "Cannot read properties of null (reading 'message')").
Proof. prove_witness (proj1 null_error_body_type_error). Defined.

Lemma update_request_bodies_witness :
  sent (snd (Users.run (Users.CUpdateUsername (JObj [("id", JStr "886b4266")]) "tok") c3_env
               (mkState demo_users [])))
    = [last_request (snd (Users.run (Users.CUpdateUsername (JObj [("id", JStr "886b4266")]) "tok")
                            c3_env (mkState demo_users [])))] /\
  exists cr un, get_prop (JObj [("id", JStr "886b4266")]) "credentials" = Ok cr /\
    get_prop_opt cr "username" = Ok un /\
    req_init (last_request (snd (Users.run (Users.CUpdateUsername (JObj [("id", JStr "886b4266")]) "tok")
                                  c3_env (mkState demo_users []))))
      = mkInit "PATCH" (Users.auth_headers demo_users "tok") (Some (JObj [("username", un)])).
Proof.
  assert (H : sent (snd (Users.run (Users.CUpdateUsername (JObj [("id", JStr "886b4266")]) "tok") c3_env
               (mkState demo_users [])))
    = [last_request (snd (Users.run (Users.CUpdateUsername (JObj [("id", JStr "886b4266")]) "tok")
                            c3_env (mkState demo_users [])))]) by (vm_compute; reflexivity).
  split; [exact H|].
  exact (proj1 (proj2 (update_request_bodies (JObj [("id", JStr "886b4266")]) "" "" "tok" c3_env
                         (mkState demo_users []) _)) H).
Defined.

Lemma whole_user_body_witness :
  sent (snd (Users.run (Users.CDisable demo_user "tok") c3_env (mkState demo_users [])))
    = [last_request (snd (Users.run (Users.CDisable demo_user "tok") c3_env (mkState demo_users [])))] /\
  req_init (last_request (snd (Users.run (Users.CDisable demo_user "tok") c3_env
                                (mkState demo_users []))))
    = mkInit "POST" (Users.auth_headers demo_users "tok") (Some demo_user).
Proof.
  assert (H : sent (snd (Users.run (Users.CDisable demo_user "tok") c3_env (mkState demo_users [])))
    = [last_request (snd (Users.run (Users.CDisable demo_user "tok") c3_env (mkState demo_users [])))])
    by (vm_compute; reflexivity).
  split; [exact H|].
  refine (whole_user_body demo_user "tok" _ "POST" c3_env (mkState demo_users []) _ _ H).
  cbn; do 3 right; left; reflexivity.
Defined.
